(** * Moonraker power component: device engine and device registry

    A shallow embedding of [moonraker/components/power.py]: the generic
    [PowerDevice] engine ([process_request], [process_power_changed],
    [process_klippy_shutdown]), the GPIO, RF and Klipper drivers with
    their auto-off timers, and the [PrinterPower] registry
    ([set_device_power], single and batch requests).

    Conventions of the embedding.
    - Python strings are [string]; [str.lower] acts on the ASCII letters
      (the request words "on", "off", "toggle", "true", "false", "status"
      are ASCII, and no other character lowercases to one of theirs).
    - Durations and loop times are Python floats in the source; the code
      only compares one of them with zero and hands them to the event
      loop, so they are rationals here.
    - A coroutine runs from its first statement to its [return] or
      [raise] as one step.  A coroutine that reaches [async with
      self.request_lock] while the lock is held stays there: its result
      is [Suspended].  Task cancellation is outside the model.
    - An object is a record; a method is a computation over the record of
      [self] and the [Server].  The registry stores the devices by name,
      and a callback held by the event loop names its device by its key. *)

From Stdlib Require Import String Ascii List Bool Arith Lia QArith.
Import ListNotations.
Local Open Scope string_scope.
Local Open Scope list_scope.

(** ** Strings *)

Module Str.

(** [str.lower] on one character: the letters A to Z.  A string is its
    bytes here, so a cased character outside of ASCII, which Python
    would lower, is left as it is; no request word has one. *)
Definition lower_ascii (c : ascii) : ascii :=
  let n := nat_of_ascii c in
  if (65 <=? n)%nat && (n <=? 90)%nat then ascii_of_nat (n + 32) else c.

(** [s.lower()] *)
Fixpoint lower (s : string) : string :=
  match s with
  | EmptyString => EmptyString
  | String c r => String (lower_ascii c) (lower r)
  end.

(** [s in l] for a list of strings. *)
Definition mem (s : string) (l : list string) : bool :=
  existsb (String.eqb s) l.

(** [s.split(sep)[-1]]: what follows the last occurrence of the separator
    character, the whole string when there is none. *)
Fixpoint split_last_from (sep : ascii) (acc : string) (s : string) : string :=
  match s with
  | EmptyString => acc
  | String c r =>
      if Ascii.eqb c sep then split_last_from sep r r
      else split_last_from sep acc r
  end.

Definition split_last (sep : ascii) (s : string) : string :=
  split_last_from sep s s.

End Str.

(** ** Dictionaries

    A Python [dict] keeps its keys in insertion order, and the registry
    and the batch handler iterate over one: an association list with
    at most one entry per key. *)

Module Dict.
Section Defs.
Context {V : Type}.

(** [d.get(k)] *)
Fixpoint get (k : string) (d : list (string * V)) : option V :=
  match d with
  | [] => None
  | (k', v) :: r => if String.eqb k k' then Some v else get k r
  end.

(** [d[k] = v]: an existing key keeps its place. *)
Fixpoint set (k : string) (v : V) (d : list (string * V)) : list (string * V) :=
  match d with
  | [] => [(k, v)]
  | (k', v') :: r =>
      if String.eqb k k' then (k', v) :: r else (k', v') :: set k v r
  end.

(** [k in d] *)
Definition mem (k : string) (d : list (string * V)) : bool :=
  match get k d with Some _ => true | None => false end.

Definition keys (d : list (string * V)) : list string := map fst d.

End Defs.
End Dict.

(** ** Results and the state monad of a coroutine *)

(** Exceptions.  [self.server.error(msg)] builds a [ServerError] with the
    message; every other exception is an [Exception]. *)
Inductive exn : Type :=
| ServerError (msg : string)
| Exception (msg : string).

(** How a call ends: it returns, it raises, or it is parked on the
    request lock of its device. *)
Inductive Res (A : Type) : Type :=
| Ok (a : A)
| Raise (e : exn)
| Suspended.
Arguments Ok {A} a.
Arguments Raise {A} e.
Arguments Suspended {A}.

Definition M (S A : Type) : Type := S -> Res A * S.

Definition ret {S A} (a : A) : M S A := fun s => (Ok a, s).

Definition bind {S A B} (m : M S A) (k : A -> M S B) : M S B :=
  fun s =>
    match m s with
    | (Ok a, s') => k a s'
    | (Raise e, s') => (Raise e, s')
    | (Suspended, s') => (Suspended, s')
    end.

Definition raise {S A} (e : exn) : M S A := fun s => (Raise e, s).
Definition gets {S A} (f : S -> A) : M S A := fun s => (Ok (f s), s).
Definition modify {S} (f : S -> S) : M S unit := fun s => (Ok tt, f s).

(** [try: body finally: fin], for a [fin] that does not raise.  A body
    that is parked has not left the [try]. *)
Definition try_finally {S A} (body : M S A) (fin : S -> S) : M S A :=
  fun s =>
    match body s with
    | (Suspended, s') => (Suspended, s')
    | (r, s') => (r, fin s')
    end.

(** [try: body except Exception: handler] *)
Definition try_except {S A} (body : M S A) (handler : exn -> M S A) : M S A :=
  fun s =>
    match body s with
    | (Raise e, s') => handler e s'
    | other => other
    end.

(** [if c: m] *)
Definition when {S} (c : bool) (m : M S unit) : M S unit :=
  if c then m else ret tt.

Declare Scope monad_scope.
Delimit Scope monad_scope with monad.
Notation "x <- m ;; k" := (bind m (fun x => k))
  (at level 100, m at next level, right associativity) : monad_scope.
Notation "m ;; k" := (bind m (fun _ => k))
  (at level 100, right associativity) : monad_scope.
Local Open Scope monad_scope.

(** [for x in l: f x] *)
Fixpoint for_each {S A} (l : list A) (f : A -> M S unit) : M S unit :=
  match l with
  | [] => ret tt
  | x :: r => f x ;; for_each r f
  end.


(** ** Data model *)

(** [KlippyState] of [moonraker/common.py]. *)
Inductive KlippyState : Type :=
| DISCONNECTED | STARTUP | READY | ERROR | SHUTDOWN.

Definition KlippyState_eqb (a b : KlippyState) : bool :=
  match a, b with
  | DISCONNECTED, DISCONNECTED | STARTUP, STARTUP | READY, READY
  | ERROR, ERROR | SHUTDOWN, SHUTDOWN => true
  | _, _ => false
  end.

(** Modelled from the spec: [KlippyState.startup_complete] is declared
    outside this file; the spec reads it as "the supervised hardware's
    connection has already completed startup", which holds of every state
    past [STARTUP]. *)
Definition startup_complete (s : KlippyState) : bool :=
  match s with
  | DISCONNECTED | STARTUP => false
  | READY | ERROR | SHUTDOWN => true
  end.

(** The [state] argument of [set_device_power]: [Union[bool, str]], and
    whatever else a remote caller sends. *)
Inductive PyVal : Type :=
| VBool (b : bool)
| VStr (s : string)
| VNone.

(** [f"{v}"] *)
Definition PyVal_str (v : PyVal) : string :=
  match v with
  | VBool true => "True"
  | VBool false => "False"
  | VStr s => s
  | VNone => "None"
  end.

(** What the event loop holds to call later: a bound method or a function
    with its arguments. *)
Inductive Callback : Type :=
| CbPowerOffOnShutdown (dev : string)
    (* self._power_off_on_shutdown *)
| CbSetDevicePower (dev : string) (st : PyVal)
    (* power.set_device_power, self.name, "off" *)
| CbProcessRequest (dev : string) (req : string) (force : bool)
    (* self.devices[device].process_request, request, force=force *)
| CbNotifyExternalChange (dev : string)
    (* self._notify_external_change() *)
| CbDoRestart (cmd : string) (wait_klippy_started : bool).
    (* kapis.do_restart, "FIRMWARE_RESTART", True *)

Inductive TimerStatus : Type := Scheduled | Cancelled | Fired.

(** An [asyncio.TimerHandle]; a handle is the index of its timer in the
    loop's list. *)
Record Timer : Type := {
  tm_delay : Q;
  tm_callback : Callback;
  tm_status : TimerStatus
}.

(** The payload of [power:power_changed]; [is_shutdown] is appended by
    [KlipperDevice.get_device_info]. *)
Record DevInfo : Type := {
  di_device : string;
  di_status : string;
  di_locked_while_printing : bool;
  di_type : string;
  di_is_shutdown : option bool
}.

(** What the component does to the outside, in order. *)
Inductive Effect : Type :=
| SendEvent (event : string) (info : DevInfo)
| ServiceAction (action svc : string)
| LogInfo (msg : string)
| LogException (msg : string)
| GpioWrite (dev : string) (value : bool)
| RfTransmit (dev : string) (on_code : bool)
| RunGcode (cmd : string)
| QueryObjects (object_name : string).

(** The reply of Klippy to a gcode command followed by a one second wait
    for the status update of the pin. *)
Inductive GcodeReply : Type :=
| GcodeError
| GcodeTimeout
| GcodeUpdate (value : bool).

(** The reply of Klippy to [query_objects]: no data, data without the
    object, an entry without a [value], or the entry with its [value]
    ([None] or a truth value). *)
Inductive QueryReply : Type :=
| QueryNone
| QueryNoObject
| QueryNoValue
| QueryValue (value : option bool).

(** The server and the components around the power component: the Klippy
    connection, the event loop, and how the machine, the pins and Klippy
    answer. *)
Record Server : Type := {
  kconn_state : KlippyState;            (* kconn.state *)
  kconn_is_printing : bool;             (* kconn.is_printing() *)
  loop_time : Q;                        (* eventloop.get_loop_time() *)
  timers : list Timer;                  (* eventloop.delay_callback *)
  callbacks : list Callback;            (* register_callback, create_task *)
  trace : list Effect;
  do_service_action_fails : string -> string -> bool;
  gpio_write_fails : string -> bool;
  run_gcode : string -> GcodeReply;
  query_objects : string -> QueryReply
}.

(** The classes of device.  [OtherDevice] stands for the classes whose
    driver is an external collaborator (HTTP, TP-Link, MQTT, ...). *)
Inductive DevClass : Type :=
| GpioDevice | RFDevice | KlipperDevice | OtherDevice.

Record PowerDevice : Type := {
  cls : DevClass;
  name : string;
  type : string;
  state : string;
  request_lock : bool;                  (* request_lock.locked() *)
  locked_while_printing : bool;
  off_when_shutdown : bool;
  off_when_shutdown_delay : Q;
  shutdown_timer_handle : option nat;
  restart_delay : Q;
  klipper_restart : bool;
  bound_services : list string;
  need_scheduled_restart : bool;
  on_when_queued : bool;
  restrict_actions : bool;
  _last_update_time : Q;
  (* GpioDevice, RFDevice, KlipperDevice *)
  timer : option Q;
  timer_handle : option nat;
  (* KlipperDevice *)
  is_shutdown : bool;
  object_name : string;
  gc_cmd : string
}.

(** Calls of the two driver operations, as the engine makes them. *)
Inductive Call : Type :=
| CallRefreshStatus (dev : string)
| CallSetPower (dev : string) (st : string).

(** The registry [PrinterPower] with the server it lives in. *)
Record World : Type := {
  devices : list (string * PowerDevice);
  server : Server;
  calls : list Call
}.

(** A method of a device runs on [self] and on the rest of the world. *)
Record DevSt : Type := {
  self : PowerDevice;
  power : World
}.

(** How a driver operation ends: it returns or it raises (a driver does
    not wait for the request lock, and it does not retry for ever). *)
Inductive Outcome : Type :=
| Returned
| Raised (e : exn).

(** The driver of an [OtherDevice]: from the device and the server to an
    outcome, the new [self.state] and the server. *)
Record Driver : Type := {
  drv_refresh_status : PowerDevice -> Server -> Outcome * (string * Server);
  drv_set_power : string -> PowerDevice -> Server -> Outcome * (string * Server)
}.

(** ** Field updates *)

Definition upd_state (v : string) (d : PowerDevice) : PowerDevice :=
  {| cls := cls d; name := name d; type := type d; state := v;
     request_lock := request_lock d;
     locked_while_printing := locked_while_printing d;
     off_when_shutdown := off_when_shutdown d;
     off_when_shutdown_delay := off_when_shutdown_delay d;
     shutdown_timer_handle := shutdown_timer_handle d;
     restart_delay := restart_delay d; klipper_restart := klipper_restart d;
     bound_services := bound_services d;
     need_scheduled_restart := need_scheduled_restart d;
     on_when_queued := on_when_queued d;
     restrict_actions := restrict_actions d;
     _last_update_time := _last_update_time d;
     timer := timer d; timer_handle := timer_handle d;
     is_shutdown := is_shutdown d; object_name := object_name d;
     gc_cmd := gc_cmd d |}.

Definition upd_request_lock (v : bool) (d : PowerDevice) : PowerDevice :=
  {| cls := cls d; name := name d; type := type d; state := state d;
     request_lock := v;
     locked_while_printing := locked_while_printing d;
     off_when_shutdown := off_when_shutdown d;
     off_when_shutdown_delay := off_when_shutdown_delay d;
     shutdown_timer_handle := shutdown_timer_handle d;
     restart_delay := restart_delay d; klipper_restart := klipper_restart d;
     bound_services := bound_services d;
     need_scheduled_restart := need_scheduled_restart d;
     on_when_queued := on_when_queued d;
     restrict_actions := restrict_actions d;
     _last_update_time := _last_update_time d;
     timer := timer d; timer_handle := timer_handle d;
     is_shutdown := is_shutdown d; object_name := object_name d;
     gc_cmd := gc_cmd d |}.

Definition upd_shutdown_timer_handle (v : option nat) (d : PowerDevice)
  : PowerDevice :=
  {| cls := cls d; name := name d; type := type d; state := state d;
     request_lock := request_lock d;
     locked_while_printing := locked_while_printing d;
     off_when_shutdown := off_when_shutdown d;
     off_when_shutdown_delay := off_when_shutdown_delay d;
     shutdown_timer_handle := v;
     restart_delay := restart_delay d; klipper_restart := klipper_restart d;
     bound_services := bound_services d;
     need_scheduled_restart := need_scheduled_restart d;
     on_when_queued := on_when_queued d;
     restrict_actions := restrict_actions d;
     _last_update_time := _last_update_time d;
     timer := timer d; timer_handle := timer_handle d;
     is_shutdown := is_shutdown d; object_name := object_name d;
     gc_cmd := gc_cmd d |}.

Definition upd_need_scheduled_restart (v : bool) (d : PowerDevice)
  : PowerDevice :=
  {| cls := cls d; name := name d; type := type d; state := state d;
     request_lock := request_lock d;
     locked_while_printing := locked_while_printing d;
     off_when_shutdown := off_when_shutdown d;
     off_when_shutdown_delay := off_when_shutdown_delay d;
     shutdown_timer_handle := shutdown_timer_handle d;
     restart_delay := restart_delay d; klipper_restart := klipper_restart d;
     bound_services := bound_services d;
     need_scheduled_restart := v;
     on_when_queued := on_when_queued d;
     restrict_actions := restrict_actions d;
     _last_update_time := _last_update_time d;
     timer := timer d; timer_handle := timer_handle d;
     is_shutdown := is_shutdown d; object_name := object_name d;
     gc_cmd := gc_cmd d |}.

Definition upd_last_update_time (v : Q) (d : PowerDevice) : PowerDevice :=
  {| cls := cls d; name := name d; type := type d; state := state d;
     request_lock := request_lock d;
     locked_while_printing := locked_while_printing d;
     off_when_shutdown := off_when_shutdown d;
     off_when_shutdown_delay := off_when_shutdown_delay d;
     shutdown_timer_handle := shutdown_timer_handle d;
     restart_delay := restart_delay d; klipper_restart := klipper_restart d;
     bound_services := bound_services d;
     need_scheduled_restart := need_scheduled_restart d;
     on_when_queued := on_when_queued d;
     restrict_actions := restrict_actions d;
     _last_update_time := v;
     timer := timer d; timer_handle := timer_handle d;
     is_shutdown := is_shutdown d; object_name := object_name d;
     gc_cmd := gc_cmd d |}.

Definition upd_timer_handle (v : option nat) (d : PowerDevice) : PowerDevice :=
  {| cls := cls d; name := name d; type := type d; state := state d;
     request_lock := request_lock d;
     locked_while_printing := locked_while_printing d;
     off_when_shutdown := off_when_shutdown d;
     off_when_shutdown_delay := off_when_shutdown_delay d;
     shutdown_timer_handle := shutdown_timer_handle d;
     restart_delay := restart_delay d; klipper_restart := klipper_restart d;
     bound_services := bound_services d;
     need_scheduled_restart := need_scheduled_restart d;
     on_when_queued := on_when_queued d;
     restrict_actions := restrict_actions d;
     _last_update_time := _last_update_time d;
     timer := timer d; timer_handle := v;
     is_shutdown := is_shutdown d; object_name := object_name d;
     gc_cmd := gc_cmd d |}.

Definition upd_is_shutdown (v : bool) (d : PowerDevice) : PowerDevice :=
  {| cls := cls d; name := name d; type := type d; state := state d;
     request_lock := request_lock d;
     locked_while_printing := locked_while_printing d;
     off_when_shutdown := off_when_shutdown d;
     off_when_shutdown_delay := off_when_shutdown_delay d;
     shutdown_timer_handle := shutdown_timer_handle d;
     restart_delay := restart_delay d; klipper_restart := klipper_restart d;
     bound_services := bound_services d;
     need_scheduled_restart := need_scheduled_restart d;
     on_when_queued := on_when_queued d;
     restrict_actions := restrict_actions d;
     _last_update_time := _last_update_time d;
     timer := timer d; timer_handle := timer_handle d;
     is_shutdown := v; object_name := object_name d;
     gc_cmd := gc_cmd d |}.

Definition upd_timers (v : list Timer) (s : Server) : Server :=
  {| kconn_state := kconn_state s; kconn_is_printing := kconn_is_printing s;
     loop_time := loop_time s; timers := v; callbacks := callbacks s;
     trace := trace s;
     do_service_action_fails := do_service_action_fails s;
     gpio_write_fails := gpio_write_fails s; run_gcode := run_gcode s;
     query_objects := query_objects s |}.

Definition upd_callbacks (v : list Callback) (s : Server) : Server :=
  {| kconn_state := kconn_state s; kconn_is_printing := kconn_is_printing s;
     loop_time := loop_time s; timers := timers s; callbacks := v;
     trace := trace s;
     do_service_action_fails := do_service_action_fails s;
     gpio_write_fails := gpio_write_fails s; run_gcode := run_gcode s;
     query_objects := query_objects s |}.

Definition upd_trace (v : list Effect) (s : Server) : Server :=
  {| kconn_state := kconn_state s; kconn_is_printing := kconn_is_printing s;
     loop_time := loop_time s; timers := timers s; callbacks := callbacks s;
     trace := v;
     do_service_action_fails := do_service_action_fails s;
     gpio_write_fails := gpio_write_fails s; run_gcode := run_gcode s;
     query_objects := query_objects s |}.

(** The environment moves: the Klippy connection changes state. *)
Definition upd_kconn_state (v : KlippyState) (s : Server) : Server :=
  {| kconn_state := v; kconn_is_printing := kconn_is_printing s;
     loop_time := loop_time s; timers := timers s; callbacks := callbacks s;
     trace := trace s;
     do_service_action_fails := do_service_action_fails s;
     gpio_write_fails := gpio_write_fails s; run_gcode := run_gcode s;
     query_objects := query_objects s |}.

Definition upd_devices (v : list (string * PowerDevice)) (w : World) : World :=
  {| devices := v; server := server w; calls := calls w |}.

Definition upd_server (v : Server) (w : World) : World :=
  {| devices := devices w; server := v; calls := calls w |}.

Definition upd_calls (v : list Call) (w : World) : World :=
  {| devices := devices w; server := server w; calls := v |}.

Definition upd_self (v : PowerDevice) (st : DevSt) : DevSt :=
  {| self := v; power := power st |}.

Definition upd_power (v : World) (st : DevSt) : DevSt :=
  {| self := self st; power := v |}.

(** ** The event loop *)

Fixpoint list_update {A} (n : nat) (f : A -> A) (l : list A) : list A :=
  match l, n with
  | [], _ => []
  | x :: r, O => f x :: r
  | x :: r, S n' => x :: list_update n' f r
  end.

Definition new_timer (delay : Q) (cb : Callback) : Timer :=
  {| tm_delay := delay; tm_callback := cb; tm_status := Scheduled |}.

(** Modelled from the spec: [eventloop.delay_callback] is declared outside
    this file; the spec calls it "a cancellable delayed-callback
    primitive".  It registers the callback for the delay and returns the
    handle of the new timer. *)
Definition delay_callback (delay : Q) (cb : Callback) (s : Server)
  : nat * Server :=
  (length (timers s), upd_timers (timers s ++ [new_timer delay cb]) s).

(** Modelled from the spec: [TimerHandle.cancel] of the same primitive; a
    timer that has fired or was cancelled stays as it is. *)
Definition cancel_timer (t : Timer) : Timer :=
  match tm_status t with
  | Scheduled =>
      {| tm_delay := tm_delay t; tm_callback := tm_callback t;
         tm_status := Cancelled |}
  | _ => t
  end.

Definition cancel (h : nat) (s : Server) : Server :=
  upd_timers (list_update h cancel_timer (timers s)) s.

(** Modelled from the spec: [eventloop.register_callback] and
    [eventloop.create_task], declared outside this file: the call is queued
    and runs later, after the caller has returned. *)
Definition register_callback (cb : Callback) (s : Server) : Server :=
  upd_callbacks (callbacks s ++ [cb]) s.

Definition emit (e : Effect) (s : Server) : Server :=
  upd_trace (trace s ++ [e]) s.

(** The timers that can still fire with the given callback. *)
Definition is_scheduled (cb_is : Callback -> bool) (t : Timer) : bool :=
  match tm_status t with
  | Scheduled => cb_is (tm_callback t)
  | _ => false
  end.

Definition scheduled (cb_is : Callback -> bool) (s : Server) : list Timer :=
  filter (is_scheduled cb_is) (timers s).

(** The auto-off callback of a device: [power.set_device_power] with its
    name and ["off"]. *)
Definition is_auto_off (dev : string) (cb : Callback) : bool :=
  match cb with
  | CbSetDevicePower d (VStr s) => String.eqb d dev && String.eqb s "off"
  | _ => false
  end.

Definition is_power_off_on_shutdown (dev : string) (cb : Callback) : bool :=
  match cb with
  | CbPowerOffOnShutdown d => String.eqb d dev
  | _ => false
  end.

(** ** Access to [self], the server and the call record from a method *)

Definition self_get {A} (f : PowerDevice -> A) : M DevSt A :=
  gets (fun st => f (self st)).

Definition self_upd (f : PowerDevice -> PowerDevice) : M DevSt unit :=
  modify (fun st => upd_self (f (self st)) st).

Definition srv_get {A} (f : Server -> A) : M DevSt A :=
  gets (fun st => f (server (power st))).

Definition srv_upd (f : Server -> Server) : M DevSt unit :=
  modify (fun st => upd_power (upd_server (f (server (power st))) (power st)) st).

Definition srv_delay_callback (delay : Q) (cb : Callback) : M DevSt nat :=
  fun st =>
    let (h, s) := delay_callback delay cb (server (power st)) in
    (Ok h, upd_power (upd_server s (power st)) st).

Definition record_call (c : Call) : M DevSt unit :=
  modify (fun st => upd_power (upd_calls (calls (power st) ++ [c]) (power st)) st).

Definition wsrv_upd (f : Server -> Server) : M World unit :=
  modify (fun w => upd_server (f (server w)) w).

(** ** The registry's fire-and-forget setter *)

Definition log_info (msg : string) : Server -> Server := emit (LogInfo msg).
Definition log_exception (msg : string) : Server -> Server :=
  emit (LogException msg).

(** The request word [set_device_power] derives from its [state]. *)
Definition normalize_request (state : PyVal) : string :=
  match state with
  | VBool b => if b then "on" else "off"
  | VStr s =>
      let request := Str.lower s in
      if Str.mem request ["true"; "false"] then
        if String.eqb request "true" then "on" else "off"
      else request
  | VNone => ""
  end.

(** [PrinterPower.set_device_power] *)
Definition set_device_power (device : string) (state : PyVal) (force : bool)
  : M World unit :=
  let request := normalize_request state in
  if negb (Str.mem request ["on"; "off"; "toggle"]) then
    wsrv_upd (log_info ("Invalid state received: " ++ PyVal_str state))
  else
    devs <- gets devices ;;
    if negb (Dict.mem device devs) then
      wsrv_upd (log_info ("No device found: " ++ device))
    else
      wsrv_upd (register_callback (CbProcessRequest device request force)).

(** A device method calls into the registry it looked up with
    [lookup_component("power")]: the registry sees [self] as it is now,
    and [self] sees what the registry did to it.  Devices are registered
    under their own name. *)
Definition call_power {A} (f : M World A) : M DevSt A :=
  fun st =>
    let d := self st in
    let w := power st in
    let w1 := if Dict.mem (name d) (devices w)
              then upd_devices (Dict.set (name d) d (devices w)) w else w in
    let (r, w2) := f w1 in
    (r, {| self := match Dict.get (name d) (devices w2) with
                   | Some d' => d'
                   | None => d
                   end;
           power := w2 |}).

(** [self.devices[key].method(...)]: a missing key is a [KeyError]. *)
Definition with_self {A} (key : string) (m : M DevSt A) : M World A :=
  fun w =>
    match Dict.get key (devices w) with
    | Some d =>
        let (r, st) := m {| self := d; power := w |} in
        (r, upd_devices (Dict.set key (self st) (devices (power st))) (power st))
    | None => (Raise (Exception "KeyError"), w)
    end.

(** ** The device engine *)

Section Engine.

Variable driver : Driver.

(** [PowerDevice.get_device_info], with the override of [KlipperDevice]. *)
Definition get_device_info (d : PowerDevice) : DevInfo :=
  {| di_device := name d;
     di_status := state d;
     di_locked_while_printing := locked_while_printing d;
     di_type := type d;
     di_is_shutdown := match cls d with
                       | KlipperDevice => Some (is_shutdown d)
                       | _ => None
                       end |}.

Definition notify_power_changed : M DevSt unit :=
  dev_info <- self_get get_device_info ;;
  srv_upd (emit (SendEvent "power:power_changed" dev_info)).

Definition _schedule_firmware_restart (kstate : KlippyState) : M DevSt unit :=
  need <- self_get need_scheduled_restart ;;
  if negb need then ret tt
  else
    self_upd (upd_need_scheduled_restart false) ;;
    nm <- self_get name ;;
    if KlippyState_eqb kstate READY then
      srv_upd (log_info ("Power Device " ++ nm ++
        ": Klipper reports 'ready', aborting FIRMWARE_RESTART"))
    else
      srv_upd (log_info ("Power Device " ++ nm ++
        ": Sending FIRMWARE_RESTART command to Klippy")) ;;
      delay <- self_get restart_delay ;;
      _ <- srv_delay_callback delay (CbDoRestart "FIRMWARE_RESTART" true) ;;
      ret tt.

(** One turn of the loop of [process_bound_services]; an exception of
    [do_service_action] is logged and the loop goes on. *)
Definition bound_service_action (nm action svc : string) : M DevSt unit :=
  srv_upd (log_info ("Power Device " ++ nm ++ ": Performing " ++ action ++
    " action on bound service " ++ svc)) ;;
  srv_upd (emit (ServiceAction action svc)) ;;
  fails <- srv_get (fun s => do_service_action_fails s action svc) ;;
  when fails
    (srv_upd (log_exception ("Power Device " ++ nm ++ ": Error processing " ++
       action ++ " action for bound service " ++ svc))).

Definition process_bound_services : M DevSt unit :=
  svcs <- self_get bound_services ;;
  st <- self_get state ;;
  match svcs with
  | [] => ret tt
  | _ =>
      if negb (Str.mem st ["on"; "off"]) then ret tt
      else
        nm <- self_get name ;;
        let action := if String.eqb st "on" then "start" else "stop" in
        for_each svcs (bound_service_action nm action)
  end.

Definition process_power_changed : M DevSt unit :=
  notify_power_changed ;;
  svcs <- self_get bound_services ;;
  match svcs with
  | [] => ret tt
  | _ => process_bound_services
  end ;;
  st <- self_get state ;;
  restart <- self_get klipper_restart ;;
  if String.eqb st "on" && restart then
    self_upd (upd_need_scheduled_restart true) ;;
    klippy_state <- srv_get kconn_state ;;
    if negb (startup_complete klippy_state) then ret tt
    else _schedule_firmware_restart klippy_state
  else ret tt.

Definition _power_off_on_shutdown : M DevSt unit :=
  kstate <- srv_get kconn_state ;;
  if negb (KlippyState_eqb kstate SHUTDOWN) then ret tt
  else
    nm <- self_get name ;;
    srv_upd (log_info ("Powering off device '" ++ nm ++
      "' due to klippy shutdown")) ;;
    call_power (set_device_power nm (VStr "off") false).

(** [if handle is not None: handle.cancel(); handle = None] *)
Definition cancel_handle (get : PowerDevice -> option nat)
    (upd : option nat -> PowerDevice -> PowerDevice) : M DevSt unit :=
  h <- self_get get ;;
  match h with
  | Some n => srv_upd (cancel n) ;; self_upd (upd None)
  | None => ret tt
  end.

(** [GpioDevice._check_timer] and [KlipperDevice._check_timer] (the same
    text in both classes; [RFDevice] inherits the first). *)
Definition _check_timer : M DevSt unit :=
  st <- self_get state ;;
  tm <- self_get timer ;;
  match tm with
  | Some delay =>
      if String.eqb st "on" then
        nm <- self_get name ;;
        h <- srv_delay_callback delay (CbSetDevicePower nm (VStr "off")) ;;
        self_upd (upd_timer_handle (Some h))
      else ret tt
  | None => ret tt
  end.

(** [KlipperDevice._reset_timer] *)
Definition _reset_timer : M DevSt unit :=
  cancel_handle timer_handle upd_timer_handle.

(** [KlipperDevice._set_state] *)
Definition _set_state (st : string) : M DevSt unit :=
  in_request <- self_get request_lock ;;
  last_state <- self_get state ;;
  self_upd (upd_state st) ;;
  now <- srv_get loop_time ;;
  self_upd (upd_last_update_time now) ;;
  if negb (Str.mem last_state [st; "init"]) && negb in_request then
    nm <- self_get name ;;
    srv_upd (register_callback (CbNotifyExternalChange nm))
  else ret tt.

(** [KlipperDevice._set_state_from_data] on the entry of the object. *)
Definition _set_state_from_data (value : option bool) : M DevSt unit :=
  match value with
  | Some v => _set_state (if v then "on" else "off")
  | None => ret tt
  end.

(** *** Drivers *)

(** [GpioDevice.set_power] *)
Definition gpio_set_power (st : string) : M DevSt unit :=
  cancel_handle timer_handle upd_timer_handle ;;
  nm <- self_get name ;;
  srv_upd (emit (GpioWrite nm (String.eqb st "on"))) ;;
  fails <- srv_get (fun s => gpio_write_fails s nm) ;;
  if fails then
    self_upd (upd_state "error") ;;
    let msg := ("Error Toggling Device Power: " ++ nm)%string in
    srv_upd (log_exception msg) ;;
    raise (ServerError msg)
  else
    self_upd (upd_state st) ;;
    _check_timer.

(** [RFDevice.set_power]: the code for [state] is transmitted over the
    pin. *)
Definition rf_set_power (st : string) : M DevSt unit :=
  nm <- self_get name ;;
  srv_upd (emit (RfTransmit nm (String.eqb st "on"))) ;;
  fails <- srv_get (fun s => gpio_write_fails s nm) ;;
  if fails then
    self_upd (upd_state "error") ;;
    let msg := ("Error Toggling Device Power: " ++ nm)%string in
    srv_upd (log_exception msg) ;;
    raise (ServerError msg)
  else
    self_upd (upd_state st) ;;
    _check_timer.

(** [KlipperDevice.refresh_status] *)
Definition klipper_refresh_status : M DevSt unit :=
  shut <- self_get is_shutdown ;;
  st <- self_get state ;;
  if shut || Str.mem st ["on"; "off"; "init"] then ret tt
  else
    obj <- self_get object_name ;;
    srv_upd (emit (QueryObjects obj)) ;;
    data <- srv_get (fun s => query_objects s obj) ;;
    match data with
    | QueryNone =>
        srv_upd (log_info ("Error querying klipper object: " ++ obj)) ;;
        self_upd (upd_state "error")
    | QueryNoObject =>
        srv_upd (log_info ("[power]: Invalid Klipper Device " ++ obj ++
          ", no response returned from subscription.")) ;;
        self_upd (upd_state "error")
    | QueryNoValue =>
        srv_upd (log_info ("[power]: Invalid Klipper Device " ++ obj ++
          ", response does not contain a 'value' parameter")) ;;
        self_upd (upd_state "error")
    | QueryValue value => _set_state_from_data value
    end.

(** [KlipperDevice.set_power]: the gcode is run, then the status update of
    the pin is awaited for one second; the update goes through
    [_status_update] to [_set_state]. *)
Definition klipper_set_power (st : string) : M DevSt unit :=
  shut <- self_get is_shutdown ;;
  nm <- self_get name ;;
  if shut then
    raise (ServerError ("Power Device " ++ nm ++
      ": Cannot set power for device when Klipper is shutdown"))
  else
    _reset_timer ;;
    cmd <- self_get gc_cmd ;;
    let value := if String.eqb st "on" then "1" else "0" in
    let gcode := (cmd ++ " VALUE=" ++ value)%string in
    srv_upd (emit (RunGcode gcode)) ;;
    reply <- srv_get (fun s => run_gcode s gcode) ;;
    match reply with
    | GcodeTimeout =>
        self_upd (upd_state "error") ;;
        raise (ServerError ("Power device " ++ nm ++
          ": Timeout waiting for device state update"))
    | GcodeError =>
        self_upd (upd_state "error") ;;
        let msg := ("Error Toggling Device Power: " ++ nm)%string in
        srv_upd (log_exception msg) ;;
        raise (ServerError msg)
    | GcodeUpdate v =>
        _set_state_from_data (Some v) ;;
        _check_timer
    end.

(** The driver of an [OtherDevice] runs on [self] and the server, and
    leaves its new [self.state]. *)
Definition run_driver
    (f : PowerDevice -> Server -> Outcome * (string * Server))
  : M DevSt unit :=
  fun st =>
    let '(r, (s', srv')) := f (self st) (server (power st)) in
    (match r with Returned => Ok tt | Raised e => Raise e end,
     {| self := upd_state s' (self st);
        power := upd_server srv' (power st) |}).

(** [self.refresh_status()], by the class of [self]. *)
Definition refresh_status : M DevSt unit :=
  nm <- self_get name ;;
  record_call (CallRefreshStatus nm) ;;
  c <- self_get cls ;;
  match c with
  | GpioDevice | RFDevice => ret tt
  | KlipperDevice => klipper_refresh_status
  | OtherDevice => run_driver (drv_refresh_status driver)
  end.

(** [self.set_power(state)], by the class of [self]. *)
Definition set_power (st : string) : M DevSt unit :=
  nm <- self_get name ;;
  record_call (CallSetPower nm st) ;;
  c <- self_get cls ;;
  match c with
  | GpioDevice => gpio_set_power st
  | RFDevice => rf_set_power st
  | KlipperDevice => klipper_set_power st
  | OtherDevice => run_driver (drv_set_power driver st)
  end.

(** *** Requests *)

(** [async with self.request_lock: body]: the lock is released when the
    body is left, by [return] or by an exception. *)
Definition with_request_lock {A} (body : M DevSt A) : M DevSt A :=
  fun st =>
    if request_lock (self st) then (Suspended, st)
    else
      match body (upd_self (upd_request_lock true (self st)) st) with
      | (Suspended, st') => (Suspended, st')
      | (r, st') => (r, upd_self (upd_request_lock false (self st')) st')
      end.

(** [self._last_update_time = eventloop.get_loop_time()] *)
Definition stamp_update_time (st : DevSt) : DevSt :=
  upd_self (upd_last_update_time (loop_time (server (power st))) (self st)) st.

(** The rule for a change of state seen without a transition:
    [if self.restrict_actions: self.notify_power_changed()
     else: await self.process_power_changed()] *)
Definition notify_or_process : M DevSt unit :=
  restrict <- self_get restrict_actions ;;
  if restrict then notify_power_changed else process_power_changed.

(** [req = "on" if cur_state == "off" else "off"] *)
Definition toggle_target (cur_state : string) : string :=
  if String.eqb cur_state "off" then "on" else "off".

(** [PowerDevice.process_request], the statements after the refresh. *)
Definition process_request_refreshed (base_state req : string) (force : bool)
  : M DevSt string :=
  cur_state <- self_get state ;;
  let req := if String.eqb req "toggle" then toggle_target cur_state
             else req in
  if Str.mem req ["on"; "off"] then
    if String.eqb req cur_state then
      when (negb (String.eqb base_state cur_state)) notify_or_process ;;
      ret cur_state
    else
      when (negb force)
        (locked <- self_get locked_while_printing ;;
         printing <- srv_get kconn_is_printing ;;
         nm <- self_get name ;;
         if locked && printing then
           raise (ServerError ("Unable to change power for " ++ nm ++
             " while printing"))
         else ret tt) ;;
      set_power req ;;
      cur_state <- self_get state ;;
      process_power_changed ;;
      ret cur_state
  else if negb (String.eqb req "status") then
    raise (ServerError ("Unsupported power request: " ++ req))
  else
    when (negb (String.eqb base_state cur_state)) notify_or_process ;;
    ret cur_state.

(** [PowerDevice.process_request] *)
Definition process_request (req : string) (force : bool) : M DevSt string :=
  fun st0 =>
  if String.eqb (state (self st0)) "init" && request_lock (self st0) then
    (Ok (state (self st0)), st0)
  else
    with_request_lock
      (try_finally
        (base_state <- self_get state ;;
         refresh_status ;;
         process_request_refreshed base_state req force)
        stamp_update_time) st0.

(** [PowerDevice._notify_external_change] *)
Definition _notify_external_change : M DevSt unit :=
  with_request_lock
    (notify_or_process ;;
     modify stamp_update_time).

(** [PowerDevice.process_klippy_shutdown], with the override of
    [KlipperDevice]. *)
Definition process_klippy_shutdown : M DevSt unit :=
  c <- self_get cls ;;
  match c with
  | KlipperDevice =>
      self_upd (upd_is_shutdown true) ;;
      _set_state "error" ;;
      _reset_timer
  | _ =>
      enabled <- self_get off_when_shutdown ;;
      if negb enabled then ret tt
      else
        delay <- self_get off_when_shutdown_delay ;;
        if Qeq_bool delay 0 then _power_off_on_shutdown
        else
          cancel_handle shutdown_timer_handle upd_shutdown_timer_handle ;;
          nm <- self_get name ;;
          h <- srv_delay_callback delay (CbPowerOffOnShutdown nm) ;;
          self_upd (upd_shutdown_timer_handle (Some h))
  end.

(** ** The registry *)

(** [RequestType] of [moonraker/common.py]. *)
Inductive RequestType : Type := GET | POST | DELETE.

Definition RequestType_str (t : RequestType) : string :=
  match t with
  | GET => "RequestType.GET"
  | POST => "RequestType.POST"
  | DELETE => "RequestType.DELETE"
  end.

(** A [WebRequest].  [get_str] is declared outside this file: it is taken
    as it comes, a value or an exception for each argument name. *)
Record WebRequest : Type := {
  get_args : list (string * PyVal);
  get_endpoint : string;
  get_request_type : RequestType;
  get_str : string -> Res string
}.

Definition lift_res {S A} (r : Res A) : M S A := fun s => (r, s).

(** [PrinterPower._handle_single_power_request] *)
Definition _handle_single_power_request (web_request : WebRequest)
  : M World (list (string * string)) :=
  dev_name <- lift_res (get_str web_request "device") ;;
  let req_type := get_request_type web_request in
  devs <- gets devices ;;
  if negb (Dict.mem dev_name devs) then
    raise (ServerError ("No valid device named " ++ dev_name))
  else
    action <-
      match req_type with
      | GET => ret "status"
      | POST =>
          a <- lift_res (get_str web_request "action") ;;
          let action := Str.lower a in
          if negb (Str.mem action ["on"; "off"; "toggle"]) then
            raise (ServerError ("Invalid requested action '" ++ action ++ "'"))
          else ret action
      | _ =>
          raise (ServerError ("Invalid Request Type: " ++
                              RequestType_str req_type))
      end ;;
    result <- with_self dev_name (process_request action false) ;;
    ret [(dev_name, result)].

(** [{k: self.devices.get(k, None) for k in args}]; a device is held by
    its key, so the value says whether the key has one. *)
Definition requested_devs (args : list (string * PyVal))
    (devs : list (string * PowerDevice)) : list (string * bool) :=
  fold_left (fun acc k => Dict.set k (Dict.mem k devs) acc) (Dict.keys args) [].

(** The loop of [_handle_batch_power_request]. *)
Fixpoint batch_loop (req : string) (l : list (string * bool))
    (result : list (string * string)) : M World (list (string * string)) :=
  match l with
  | [] => ret result
  | (nm, present) :: rest =>
      if present then
        r <- with_self nm (process_request req false) ;;
        batch_loop req rest (Dict.set nm r result)
      else
        batch_loop req rest (Dict.set nm "device_not_found" result)
  end.

(** [PrinterPower._handle_batch_power_request] *)
Definition _handle_batch_power_request (web_request : WebRequest)
  : M World (list (string * string)) :=
  let args := get_args web_request in
  let ep := get_endpoint web_request in
  match args with
  | [] => raise (ServerError "No arguments provided")
  | _ =>
      devs <- gets devices ;;
      let req := Str.split_last "/" ep in
      batch_loop req (requested_devs args devs) []
  end.

(** [PrinterPower._handle_klippy_shutdown] *)
Definition _handle_klippy_shutdown : M World unit :=
  devs <- gets devices ;;
  for_each (Dict.keys devs) (fun k => with_self k process_klippy_shutdown).

(** *** The event loop runs what it holds *)

(** The call a callback stands for.  What a queued coroutine returns or
    raises stays in the loop. *)
Definition run_callback (cb : Callback) : M World unit :=
  match cb with
  | CbPowerOffOnShutdown dev => with_self dev _power_off_on_shutdown
  | CbSetDevicePower dev st => set_device_power dev st false
  | CbProcessRequest dev req force =>
      fun w => (Ok tt, snd (with_self dev (process_request req force) w))
  | CbNotifyExternalChange dev =>
      fun w => (Ok tt, snd (with_self dev _notify_external_change w))
  | CbDoRestart cmd _ => wsrv_upd (emit (RunGcode cmd))
  end.

Definition fire_timer (t : Timer) : Timer :=
  {| tm_delay := tm_delay t; tm_callback := tm_callback t; tm_status := Fired |}.

(** Modelled from the spec: the delayed-callback primitive, declared
    outside this file, at the end of the delay: a timer that is still
    scheduled fires, once, and its callback runs; a cancelled timer does
    nothing. *)
Definition fire (h : nat) : M World unit :=
  tms <- gets (fun w => timers (server w)) ;;
  match nth_error tms h with
  | Some t =>
      match tm_status t with
      | Scheduled =>
          wsrv_upd (upd_timers (list_update h fire_timer tms)) ;;
          run_callback (tm_callback t)
      | _ => ret tt
      end
  | None => ret tt
  end.

(** *** What a request leaves behind *)

(** The state of a request that has taken the lock. *)
Definition acquired (st : DevSt) : DevSt :=
  upd_self (upd_request_lock true (self st)) st.

(** The state a request leaves: the time is stamped in [finally], then
    the lock is released. *)
Definition released (st : DevSt) : DevSt :=
  upd_self (upd_request_lock false (self (stamp_update_time st)))
           (stamp_update_time st).

(** The state right after the refresh of a request. *)
Definition refreshed (st : DevSt) : DevSt :=
  snd (refresh_status (acquired st)).

(** The effects are appended to the trace. *)
Definition add_trace (l : list Effect) (st : DevSt) : DevSt :=
  upd_power
    (upd_server (upd_trace (trace (server (power st)) ++ l) (server (power st)))
       (power st)) st.

(** The notifications of a trace. *)
Fixpoint events (tr : list Effect) : list (string * DevInfo) :=
  match tr with
  | [] => []
  | SendEvent ev info :: r => (ev, info) :: events r
  | _ :: r => events r
  end.

(** The actions on services of a trace. *)
Fixpoint service_actions (tr : list Effect) : list (string * string) :=
  match tr with
  | [] => []
  | ServiceAction action svc :: r => (action, svc) :: service_actions r
  | _ :: r => service_actions r
  end.

(** What one turn of the loop over the bound services adds to the trace. *)
Definition service_effects (s : Server) (nm action svc : string) : list Effect :=
  [LogInfo ("Power Device " ++ nm ++ ": Performing " ++ action ++
            " action on bound service " ++ svc);
   ServiceAction action svc] ++
  (if do_service_action_fails s action svc then
     [LogException ("Power Device " ++ nm ++ ": Error processing " ++
                    action ++ " action for bound service " ++ svc)]
   else []).

(** What [process_bound_services] adds to the trace: nothing unless the
    state is "on" or "off"; then one action per bound service, in the
    order of the list. *)
Definition bound_services_effects (st : DevSt) : list Effect :=
  if Str.mem (state (self st)) ["on"; "off"] then
    flat_map
      (service_effects (server (power st)) (name (self st))
         (if String.eqb (state (self st)) "on" then "start" else "stop"))
      (bound_services (self st))
  else [].

(** The restart [process_power_changed] arranges: with the device "on" and
    [restart_klipper_when_powered] set, a restart timer when Klippy has
    completed startup and is not ready, a pending flag when it has not. *)
Definition restart_wanted (st : DevSt) : bool :=
  String.eqb (state (self st)) "on" && klipper_restart (self st).

Definition restart_timers (st : DevSt) : list Timer :=
  let k := kconn_state (server (power st)) in
  if restart_wanted st && startup_complete k && negb (KlippyState_eqb k READY)
  then [new_timer (restart_delay (self st)) (CbDoRestart "FIRMWARE_RESTART" true)]
  else [].

Definition restart_pending (st : DevSt) : bool :=
  if restart_wanted st then negb (startup_complete (kconn_state (server (power st))))
  else need_scheduled_restart (self st).

End Engine.

(** The auto-off timer of a device is the one it holds in
    [timer_handle]: no other timer of the loop can still fire its
    auto-off callback. *)
Definition one_auto_off (d : PowerDevice) (s : Server) : Prop :=
  forall i t,
    nth_error (timers s) i = Some t ->
    is_scheduled (is_auto_off (name d)) t = true ->
    timer_handle d = Some i.

(** No timer of the loop can fire the auto-off callback of the device. *)
Definition no_auto_off (nm : string) (s : Server) : Prop :=
  forall i t, nth_error (timers s) i = Some t ->
              is_scheduled (is_auto_off nm) t = false.

(** ** What a request leaves alone *)

(** The settings of a device: what the configuration fixed, the lock, and
    the fields a request has no business with.  The state, the time of
    the last update, the auto-off handle and the pending restart are the
    fields left out. *)
Definition same_settings (d d' : PowerDevice) : Prop :=
  cls d' = cls d /\ name d' = name d /\ type d' = type d
  /\ request_lock d' = request_lock d
  /\ locked_while_printing d' = locked_while_printing d
  /\ off_when_shutdown d' = off_when_shutdown d
  /\ off_when_shutdown_delay d' = off_when_shutdown_delay d
  /\ shutdown_timer_handle d' = shutdown_timer_handle d
  /\ restart_delay d' = restart_delay d
  /\ klipper_restart d' = klipper_restart d
  /\ bound_services d' = bound_services d
  /\ on_when_queued d' = on_when_queued d
  /\ restrict_actions d' = restrict_actions d
  /\ timer d' = timer d
  /\ is_shutdown d' = is_shutdown d
  /\ object_name d' = object_name d
  /\ gc_cmd d' = gc_cmd d.

(** A step of a method keeps the settings of [self] and the registry. *)
Definition keeps (st st' : DevSt) : Prop :=
  same_settings (self st) (self st')
  /\ devices (power st') = devices (power st).

(** A method that keeps them from every state, and that never waits for
    the request lock. *)
Definition steady {A} (m : M DevSt A) : Prop :=
  forall st, keeps st (snd (m st)) /\ fst (m st) <> Suspended.

(** A method whose every run is a step of the relation. *)
Definition frames {A} (R : DevSt -> DevSt -> Prop) (m : M DevSt A) : Prop :=
  forall st, R st (snd (m st)).

(** No driver call is recorded. *)
Definition same_calls (st st' : DevSt) : Prop :=
  calls (power st') = calls (power st).

(** No timer is armed, cancelled or fired, and nothing is queued. *)
Definition same_loop (st st' : DevSt) : Prop :=
  timers (server (power st')) = timers (server (power st))
  /\ callbacks (server (power st')) = callbacks (server (power st)).

(** ** The TP-Link smart plug: framing of a command *)

Module TPLink.

Definition START_KEY : Z := 171.        (* 0xAB *)

(** A value of a [bytes] object. *)
Definition is_byte (c : Z) : Prop := (0 <= c < 256)%Z.
Definition is_byteb (c : Z) : bool := ((0 <=? c) && (c <? 256))%Z.

(** [struct.pack(">I", n)]: four bytes, the most significant first;
    [struct.error] ([None]) outside of 32 bits. *)
Definition pack_I (n : Z) : option (list Z) :=
  if ((0 <=? n) && (n <? 2 ^ 32))%Z then
    Some [Z.land (Z.shiftr n 24) 255; Z.land (Z.shiftr n 16) 255;
          Z.land (Z.shiftr n 8) 255; Z.land n 255]
  else None.

(** [struct.unpack(">I", b)[0]]: [struct.error] ([None]) unless [b] has
    four bytes. *)
Definition unpack_I (b : list Z) : option Z :=
  match b with
  | [b3; b2; b1; b0] =>
      Some (Z.lor (Z.shiftl b3 24)
              (Z.lor (Z.shiftl b2 16) (Z.lor (Z.shiftl b1 8) b0)))
  | _ => None
  end.

(** The loop of [_encrypt]: [val = key ^ c; key = val; res += bytes([val])];
    [bytes([val])] is a [ValueError] ([None]) outside of a byte. *)
Fixpoint encrypt_loop (key : Z) (data : list Z) : option (list Z) :=
  match data with
  | [] => Some []
  | c :: r =>
      let val := Z.lxor key c in
      if is_byteb val then
        match encrypt_loop val r with
        | Some res => Some (val :: res)
        | None => None
        end
      else None
  end.

(** [TPLinkSmartPlug._encrypt], on the bytes [jsonw.dumps(outdata)]. *)
Definition _encrypt (data : list Z) : option (list Z) :=
  match pack_I (Z.of_nat (length data)) with
  | Some res =>
      match encrypt_loop START_KEY data with
      | Some body => Some (res ++ body)
      | None => None
      end
  | None => None
  end.

(** The loop of [_decrypt]: [val = key ^ c; key = c; res += chr(val)]. *)
Fixpoint decrypt_loop (key : Z) (data : list Z) : list Z :=
  match data with
  | [] => []
  | c :: r => Z.lxor key c :: decrypt_loop c r
  end.

(** [TPLinkSmartPlug._decrypt]: the code points of the string. *)
Definition _decrypt (data : list Z) : list Z := decrypt_loop START_KEY data.

(** The loop that reads the rest of a packet in [_send_tplink_command]:
    [while remaining and retries: data += await reader.read(remaining)].
    A read returns the next chunk the peer sent, and nothing at the end of
    the stream. *)
Fixpoint read_remaining (retries : nat) (length : Z) (data : list Z)
    (stream : list (list Z)) : list Z * nat :=
  match retries with
  | O => (data, O)
  | S r =>
      if (length - Z.of_nat (List.length data) =? 0)%Z then (data, retries)
      else read_remaining r length (data ++ hd [] stream) (tl stream)
  end.

(** [_send_tplink_command] from the first [reader.read(2048)] on: the
    length is unpacked, the rest is read with five retries, and the
    payload is decrypted.  Every exception on the way is logged and
    replaced by "Error sending tplink command". *)
Definition receive (command : string) (first : list Z) (stream : list (list Z))
  : Res (list Z) :=
  let failed :=
    Raise (ServerError ("Error sending tplink command: " ++ command)) in
  match unpack_I (firstn 4 first) with
  | None => failed
  | Some length =>
      let (data, retries) := read_remaining 5 length (skipn 4 first) stream in
      match retries with
      | O => failed
      | _ => Ok (_decrypt data)
      end
  end.

End TPLink.

(** ** The bound services of a device, as the constructor keeps them *)

Module Services.

(** [s.endswith(suffix)] *)
Definition endswith (s suffix : string) : bool :=
  let n := String.length s in
  let m := String.length suffix in
  (m <=? n)%nat && String.eqb (substring (n - m) m s) suffix.

(** What comes before the last separator of [s], if it has one. *)
Fixpoint before_last (sep : ascii) (s : string) : option string :=
  match s with
  | EmptyString => None
  | String c r =>
      match before_last sep r with
      | Some p => Some (String c p)
      | None => if Ascii.eqb c sep then Some EmptyString else None
      end
  end.

(** [s.rsplit(sep, 1)[0]] *)
Definition rsplit_head (sep : ascii) (s : string) : string :=
  match before_last sep s with
  | Some p => p
  | None => s
  end.

(** [if svc.endswith(".service"): svc = svc.rsplit(".", 1)[0]] *)
Definition unit_name (svc : string) : string :=
  if endswith svc ".service" then rsplit_head "." svc else svc.

(** The list read from the configuration: [bound_services], and the
    deprecated [bound_service] after it when it is set. *)
Definition configured (bound_services : list string)
    (bound_service : option string) : list string :=
  match bound_service with
  | Some svc => bound_services ++ [svc]
  | None => bound_services
  end.

(** The loop of [PowerDevice.__init__] that fills [self.bound_services]. *)
Definition collect (configured : list string) : list string :=
  fold_left
    (fun acc svc =>
       let svc := unit_name svc in
       if Str.mem svc acc then acc else acc ++ [svc])
    configured [].

End Services.

(** ** HTTP devices *)

(** What a class of HTTP device brings: [_send_status_request] and
    [_send_power_request], each an answer of the device (its state) or an
    exception of the transport or of the parsing of the answer. *)
Record Transport : Type := {
  _send_status_request : PowerDevice -> Server -> (exn + string) * Server;
  _send_power_request :
    string -> PowerDevice -> Server -> (exn + string) * Server
}.

(** [PowerDevice._should_log_error], from [is_verbose_enabled()] and from
    whether the current task is the poll task of the device. *)
Definition _should_log_error (verbose in_poll_task : bool) : bool :=
  if verbose then true else negb in_poll_task.

(** [HTTPDevice.refresh_status] *)
Definition http_refresh_status (t : Transport) (verbose in_poll_task : bool)
    (d : PowerDevice) (s : Server) : Outcome * (string * Server) :=
  match _send_status_request t d s with
  | (inl _, s') =>
      (Returned,
       ("error",
        if _should_log_error verbose in_poll_task
        then log_exception ("Error Refreshing Device Status: " ++ name d) s'
        else s'))
  | (inr st, s') => (Returned, (st, s'))
  end.

(** [HTTPDevice.set_power] *)
Definition http_set_power (t : Transport) (st : string) (d : PowerDevice)
    (s : Server) : Outcome * (string * Server) :=
  match _send_power_request t st d s with
  | (inl _, s') =>
      let msg := ("Error Setting Device Status: " ++ name d ++ " to " ++ st)%string in
      (Raised (ServerError msg), ("error", log_exception msg s'))
  | (inr st', s') => (Returned, (st', s'))
  end.

(** The driver of an [HTTPDevice]. *)
Definition HTTPDevice (t : Transport) (verbose in_poll_task : bool) : Driver :=
  {| drv_refresh_status := http_refresh_status t verbose in_poll_task;
     drv_set_power := http_set_power t |}.

(** ** Klipper devices when Klippy goes away *)

(** [KlipperDevice._handle_disconnect] *)
Definition _handle_disconnect : M DevSt unit :=
  self_upd (upd_is_shutdown false) ;;
  _set_state "init" ;;
  _reset_timer.

(** ** Jobs queued, bound services at startup, initial state *)

(** The argument of [job_queue:job_queue_changed]: its action, and the
    queue after the change, each job with its [filename] if it has one. *)
Record QueueInfo : Type := {
  qi_action : string;
  qi_updated_queue : option (list (option string))
}.

(** What the machine component says: the unit Moonraker runs as, and the
    services of the host. *)
Record Machine : Type := {
  machine_unit_name : string;
  machine_available_services : list string
}.

(** [fname] in [_handle_job_queued] *)
Definition queued_filename (queue_info : QueueInfo) : string :=
  let queue := match qi_updated_queue queue_info with
               | Some q => q
               | None => []
               end in
  match queue with
  | [] => "unknown"
  | item :: _ => match item with Some f => f | None => "unknown" end
  end.

Section Startup.

Variable driver : Driver.

(** [PrinterPower._handle_job_queued] *)
Definition _handle_job_queued (queue_info : QueueInfo) : M World unit :=
  if negb (String.eqb (qi_action queue_info) "jobs_added") then ret tt
  else
    devs <- gets devices ;;
    for_each (Dict.keys devs)
      (fun nm =>
         turn_on <- gets (fun w => match Dict.get nm (devices w) with
                                   | Some dev => on_when_queued dev
                                   | None => false
                                   end) ;;
         if turn_on then
           wsrv_upd (log_info ("Power Device " ++ nm ++ ": Job '" ++
                               queued_filename queue_info ++
                               "' queued, powering on")) ;;
           _ <- with_self nm (process_request driver "on" false) ;;
           ret tt
         else ret tt).

(** [PowerDevice._setup_bound_services] *)
Definition _setup_bound_services (machine_cmp : Machine) : M DevSt unit :=
  svcs <- self_get bound_services ;;
  match svcs with
  | [] => ret tt
  | _ =>
      nm <- self_get name ;;
      for_each svcs
        (fun svc =>
           if String.eqb (machine_unit_name machine_cmp) svc then
             raise (ServerError ("Power Device " ++ nm ++
                                 ": Cannot bind to Moonraker service " ++ svc ++ "."))
           else if negb (Str.mem svc (machine_available_services machine_cmp)) then
             raise (ServerError ("Bound Service " ++ svc ++ " is not available"))
           else ret tt) ;;
      srv_upd (log_info ("Power Device '" ++ nm ++ "' bound to services: " ++
                         String.concat ", " svcs))
  end.

(** ["on" if self.initial_state else "off"] *)
Definition state_word (b : bool) : string := if b then "on" else "off".

(** [PowerDevice._set_initial_state]; [initial_state] is the option of the
    configuration, which the engine reads and does not write. *)
Definition _set_initial_state (initial_state : option bool) : M DevSt unit :=
  st <- self_get state ;;
  match initial_state with
  | None => ret tt
  | Some b =>
      if Str.mem st ["on"; "off"] then
        let new_state := state_word b in
        nm <- self_get name ;;
        try_except
          (when (negb (String.eqb new_state st))
             (srv_upd (log_info ("Power Device " ++ nm ++
                                 ": setting initial state to " ++ new_state)) ;;
              set_power driver new_state) ;;
           svcs <- self_get bound_services ;;
           match svcs with
           | [] => ret tt
           | _ => process_bound_services
           end)
          (fun _ =>
             srv_upd (log_info ("Power Device " ++ nm ++
                                ": Error setting initial state")))
      else ret tt
  end.

(** [GpioDevice.init_state], which [RFDevice] inherits. *)
Definition gpio_init_state (initial_state : option bool) : M DevSt unit :=
  with_request_lock
    (try_finally
       (nm <- self_get name ;;
        try_except
          (match initial_state with
           | None => set_power driver "off"
           | Some b =>
               set_power driver (state_word b) ;;
               svcs <- self_get bound_services ;;
               match svcs with
               | [] => ret tt
               | _ => process_bound_services
               end
           end)
          (fun _ =>
             srv_upd (log_exception ("Power Device " ++ nm ++
                                     ": Initialization failed"))))
       stamp_update_time).

End Startup.

(** A service a device may be bound to: not the unit Moonraker runs as,
    and a service of the host. *)
Definition bindable (machine_cmp : Machine) (svc : string) : bool :=
  negb (String.eqb (machine_unit_name machine_cmp) svc)
  && Str.mem svc (machine_available_services machine_cmp).

(** ** MQTT devices: updates of the state topic *)

(** An [asyncio.Future]: pending, or done with a result or an exception. *)
Inductive Future : Type :=
| FutPending
| FutResult (response : string)
| FutException (e : exn).

(** The fields of an [MQTTDevice] that an update reads or writes, beside
    those of the engine. *)
Record MQTT : Type := {
  last_request : string;
  response_count : Z;
  query_response : option Future
}.

(** [state_response.render(context)]: from the payload, the last request
    and the count of responses to a string or an exception. *)
Definition Template : Type := string -> string -> Z -> exn + string.

(** [if self.query_response is not None and not self.query_response.done():
       set_exception(err) if err is not None else set_result(response)] *)
Definition resolve (fut : option Future) (err : option exn) (response : string)
  : option Future :=
  match fut with
  | Some FutPending =>
      Some (match err with
            | Some e => FutException e
            | None => FutResult response
            end)
  | other => other
  end.

Definition set_response_count (n : Z) (mq : MQTT) : MQTT :=
  {| last_request := last_request mq; response_count := n;
     query_response := query_response mq |}.

Definition set_query_response (f : option Future) (mq : MQTT) : MQTT :=
  {| last_request := last_request mq; response_count := response_count mq;
     query_response := f |}.

(** The end of [_on_state_update], from [self._last_update_time = ...]
    on, with the state the update has set. *)
Definition state_updated (last_state : string) (in_request : bool)
    (err : option exn) (response : string) (mq : MQTT) (st : DevSt)
  : Res unit * (MQTT * DevSt) :=
  let st1 := stamp_update_time st in
  let new_state := state (self st1) in
  let st2 :=
    if negb in_request && negb (String.eqb last_state new_state) then
      upd_power
        (upd_server
           (register_callback (CbNotifyExternalChange (name (self st1)))
              (log_info ("MQTT Power Device " ++ name (self st1) ++
                         ": External Power event detected, new state: " ++
                         new_state) (server (power st1))))
           (power st1)) st1
    else st1 in
  (Ok tt, (set_query_response (resolve (query_response mq) err response) mq, st2)).

(** [MQTTDevice._on_state_update]; the payload is given decoded, [None]
    when it cannot be decoded. *)
Definition _on_state_update (state_response : Template) (payload : option string)
    (mq : MQTT) (st : DevSt) : Res unit * (MQTT * DevSt) :=
  let last_state := state (self st) in
  let in_request := request_lock (self st) in
  let mq := set_response_count (response_count mq + 1) mq in
  match payload with
  | None => (Raise (Exception "UnicodeDecodeError"), (mq, st))
  | Some text =>
      match state_response text (last_request mq) (response_count mq) with
      | inl e =>
          state_updated last_state in_request (Some e) ""
            mq (upd_self (upd_state "error" (self st)) st)
      | inr response =>
          let response := Str.lower response in
          if String.eqb response "discard" then (Ok tt, (mq, st))
          else if negb (Str.mem response ["on"; "off"]) then
            let err_msg := ("Invalid State Received. Raw Payload: '" ++ text ++
                            "', Rendered: '" ++ response)%string in
            let st1 :=
              upd_power
                (upd_server
                   (log_info ("MQTT Power Device " ++ name (self st) ++ ": " ++
                              err_msg) (server (power st)))
                   (power st)) st in
            state_updated last_state in_request (Some (ServerError err_msg))
              response mq (upd_self (upd_state "error" (self st1)) st1)
          else
            state_updated last_state in_request None response
              mq (upd_self (upd_state response (self st)) st)
      end
  end.

(** [MQTTDevice._on_mqtt_disconnected] *)
Definition _on_mqtt_disconnected (mq : MQTT) (st : DevSt)
  : Res unit * (MQTT * DevSt) :=
  let mq := set_query_response
              (resolve (query_response mq)
                 (Some (ServerError "MQTT Disconnected")) "") mq in
  let (r, st') :=
    with_request_lock
      (self_upd (upd_state "error") ;; notify_power_changed) st in
  (r, (mq, st')).

(** ** The auto-off timer over requests *)

(** A step of a GPIO or Klipper device: the device keeps its class and
    its name, and its auto-off timers stay down to the one it holds. *)
Definition holds_auto_off (st st' : DevSt) : Prop :=
  cls (self st) = GpioDevice \/ cls (self st) = KlipperDevice ->
  cls (self st') = cls (self st)
  /\ name (self st') = name (self st)
  /\ (one_auto_off (self st) (server (power st)) ->
      one_auto_off (self st') (server (power st'))).

(** Requests to one device, each awaited before the next is made; a
    request is its word and its [force]. *)
Definition run_requests (driver : Driver) (reqs : list (string * bool))
    (st : DevSt) : DevSt :=
  fold_left (fun st r => snd (process_request driver (fst r) (snd r) st)) reqs st.

(** ** What is written to a pin *)

(** The writes of a trace: the levels [GpioDevice.set_power] wrote to the
    pin and the codes [RFDevice.set_power] transmitted over it. *)
Fixpoint pin_writes (tr : list Effect) : list Effect :=
  match tr with
  | [] => []
  | GpioWrite dev value :: r => GpioWrite dev value :: pin_writes r
  | RfTransmit dev on_code :: r => RfTransmit dev on_code :: pin_writes r
  | _ :: r => pin_writes r
  end.

(** The write [set_power] makes for a state, by the class of the device. *)
Definition pin_write (d : PowerDevice) (st : string) : Effect :=
  match cls d with
  | RFDevice => RfTransmit (name d) (String.eqb st "on")
  | _ => GpioWrite (name d) (String.eqb st "on")
  end.

(** ** Sample configurations *)

Module Sample.

(** A smart plug as the engine sees it: the status request answers with
    what Klippy's pin query reports (any source of truth would do), and a
    power request is obeyed. *)
Definition plug_reports (s : Server) : string :=
  match query_objects s "plug" with
  | QueryValue (Some true) => "on"
  | QueryValue (Some false) => "off"
  | _ => "error"
  end.

Definition plug : Driver :=
  {| drv_refresh_status := fun _ s => (Returned, (plug_reports s, s));
     drv_set_power := fun st _ s => (Returned, (st, s)) |}.

(** A plug whose power request fails, as [HTTPDevice.set_power] does when
    the transport fails. *)
Definition broken_plug : Driver :=
  {| drv_refresh_status := fun _ s => (Returned, (plug_reports s, s));
     drv_set_power := fun st d s =>
       let msg := ("Error Setting Device Status: " ++ name d ++ " to " ++ st)%string in
       (Raised (ServerError msg), ("error", log_exception msg s)) |}.

Definition srv (kstate : KlippyState) (printing : bool) (reported : option bool)
  : Server :=
  {| kconn_state := kstate;
     kconn_is_printing := printing;
     loop_time := 100;
     timers := [];
     callbacks := [];
     trace := [];
     do_service_action_fails := fun _ _ => false;
     gpio_write_fails := fun _ => false;
     run_gcode := fun _ => GcodeUpdate true;
     query_objects := fun _ => QueryValue reported |}.

Definition dev (c : DevClass) (nm st : string) (locked : bool) : PowerDevice :=
  {| cls := c; name := nm; type := "sample"; state := st;
     request_lock := false;
     locked_while_printing := locked;
     off_when_shutdown := false;
     off_when_shutdown_delay := 0;
     shutdown_timer_handle := None;
     restart_delay := 1;
     klipper_restart := false;
     bound_services := [];
     need_scheduled_restart := false;
     on_when_queued := false;
     restrict_actions := true;
     _last_update_time := 0;
     timer := None; timer_handle := None;
     is_shutdown := false; object_name := "output_pin plug";
     gc_cmd := "SET_PIN PIN=plug" |}.

Definition with_services (svcs : list string) (restrict : bool)
    (d : PowerDevice) : PowerDevice :=
  {| cls := cls d; name := name d; type := type d; state := state d;
     request_lock := request_lock d;
     locked_while_printing := locked_while_printing d;
     off_when_shutdown := off_when_shutdown d;
     off_when_shutdown_delay := off_when_shutdown_delay d;
     shutdown_timer_handle := shutdown_timer_handle d;
     restart_delay := restart_delay d; klipper_restart := klipper_restart d;
     bound_services := svcs;
     need_scheduled_restart := need_scheduled_restart d;
     on_when_queued := on_when_queued d;
     restrict_actions := restrict;
     _last_update_time := _last_update_time d;
     timer := timer d; timer_handle := timer_handle d;
     is_shutdown := is_shutdown d; object_name := object_name d;
     gc_cmd := gc_cmd d |}.

Definition with_shutdown_delay (delay : Q) (d : PowerDevice) : PowerDevice :=
  {| cls := cls d; name := name d; type := type d; state := state d;
     request_lock := request_lock d;
     locked_while_printing := locked_while_printing d;
     off_when_shutdown := true;
     off_when_shutdown_delay := delay;
     shutdown_timer_handle := shutdown_timer_handle d;
     restart_delay := restart_delay d; klipper_restart := klipper_restart d;
     bound_services := bound_services d;
     need_scheduled_restart := need_scheduled_restart d;
     on_when_queued := on_when_queued d;
     restrict_actions := restrict_actions d;
     _last_update_time := _last_update_time d;
     timer := timer d; timer_handle := timer_handle d;
     is_shutdown := is_shutdown d; object_name := object_name d;
     gc_cmd := gc_cmd d |}.

Definition with_timer (delay : Q) (d : PowerDevice) : PowerDevice :=
  {| cls := cls d; name := name d; type := type d; state := state d;
     request_lock := request_lock d;
     locked_while_printing := locked_while_printing d;
     off_when_shutdown := off_when_shutdown d;
     off_when_shutdown_delay := off_when_shutdown_delay d;
     shutdown_timer_handle := shutdown_timer_handle d;
     restart_delay := restart_delay d; klipper_restart := klipper_restart d;
     bound_services := bound_services d;
     need_scheduled_restart := need_scheduled_restart d;
     on_when_queued := on_when_queued d;
     restrict_actions := restrict_actions d;
     _last_update_time := _last_update_time d;
     timer := Some delay; timer_handle := timer_handle d;
     is_shutdown := is_shutdown d; object_name := object_name d;
     gc_cmd := gc_cmd d |}.

(** A registry with the given devices, registered under their names. *)
Definition world (devs : list PowerDevice) (s : Server) : World :=
  {| devices := map (fun d => (name d, d)) devs; server := s; calls := [] |}.

Definition on_device (d : PowerDevice) (s : Server) : DevSt :=
  {| self := d; power := world [d] s |}.

Definition request (ep : string) (names : list string) : WebRequest :=
  {| get_args := map (fun k => (k, VNone)) names;
     get_endpoint := ep;
     get_request_type := POST;
     get_str := fun k => Raise (ServerError ("No data for argument: " ++ k)) |}.

(** The requests "on", "off", "on" to one device, one after the other. *)
Definition on_off_on (driver : Driver) (nm : string) (w : World) : World :=
  let request r w := snd (with_self nm (process_request driver r false) w) in
  request "on" (request "off" (request "on" w)).

(** A plug that is on, locked while printing, with a print running. *)
Definition locked_plug : PowerDevice := dev OtherDevice "a" "on" true.
Definition printing : Server := srv READY true (Some true).

(** A device that is being initialized: state "init", lock held. *)
Definition initializing : DevSt :=
  on_device (upd_request_lock true (dev OtherDevice "a" "init" false)) printing.

(** A plug the engine believes on, switched off from outside; two bound
    services. *)
Definition switched_off (restrict : bool) : DevSt :=
  on_device (with_services ["klipper"; "webcamd"] restrict
               (dev OtherDevice "a" "on" false))
            (srv READY false (Some false)).

(** A GPIO device that goes off two seconds after a shutdown of Klippy. *)
Definition shutdown_world : World :=
  world [with_shutdown_delay 2 (dev GpioDevice "a" "on" false)]
        (srv SHUTDOWN false None).

Definition get_request (nm : string) : WebRequest :=
  {| get_args := [("device", VStr nm)];
     get_endpoint := "/machine/device_power/device";
     get_request_type := GET;
     get_str := fun k => if String.eqb k "device" then Ok nm
                         else Raise (ServerError ("No data for argument: " ++ k)) |}.


(** A host whose pins cannot be written. *)
Definition stuck_pins : Server :=
  {| kconn_state := READY;
     kconn_is_printing := false;
     loop_time := 100;
     timers := [];
     callbacks := [];
     trace := [];
     do_service_action_fails := fun _ _ => false;
     gpio_write_fails := fun _ => true;
     run_gcode := fun _ => GcodeUpdate true;
     query_objects := fun _ => QueryValue None |}.

(** An HTTP device that does not answer, and one that reports a state and
    obeys. *)
Definition unreachable : Transport :=
  {| _send_status_request := fun _ s => (inl (Exception "timed out"), s);
     _send_power_request := fun _ _ s => (inl (Exception "timed out"), s) |}.

Definition obedient (reported : string) : Transport :=
  {| _send_status_request := fun _ s => (inr reported, s);
     _send_power_request := fun st _ s => (inr st, s) |}.

(** A Klipper device that is on, and the same after a shutdown of Klippy. *)
Definition klipper_pin : DevSt :=
  on_device (dev KlipperDevice "k" "on" false) (srv READY false (Some true)).

Definition klipper_pin_shutdown : DevSt :=
  on_device (upd_is_shutdown true (dev KlipperDevice "k" "error" false))
            (srv SHUTDOWN false None).

(** A device that waits for Klippy to restart the firmware. *)
Definition restart_pending : DevSt :=
  on_device (upd_need_scheduled_restart true (dev OtherDevice "a" "on" false))
            (srv STARTUP false None).

Definition job_added : QueueInfo :=
  {| qi_action := "jobs_added";
     qi_updated_queue := Some [Some "benchy.gcode"] |}.

Definition job_removed : QueueInfo :=
  {| qi_action := "jobs_removed"; qi_updated_queue := Some [] |}.

Definition host : Machine :=
  {| machine_unit_name := "moonraker";
     machine_available_services := ["klipper"; "moonraker"; "webcamd"] |}.

(** The default template of an MQTT device, [{payload}], and a device
    that waits for the answer to a power request. *)
Definition payload_template : Template := fun payload _ _ => inr payload.

Definition waiting : MQTT :=
  {| last_request := "power_on"; response_count := 0;
     query_response := Some FutPending |}.

(** The bytes of [{}], and a reply that announces six bytes and brings
    them one at a time. *)
Definition empty_object : list Z := [123; 125]%Z.
Definition slow_header : list Z := [0; 0; 0; 6; 1]%Z.
Definition slow_stream : list (list Z) := [[2]; [3]; [4]; [5]; [6]]%Z.

End Sample.

(** * Properties *)

(** ** Dictionaries *)

Section DictFacts.
Context {V : Type}.

Lemma Dict_get_set_eq (k : string) (v : V) d :
  Dict.get k (Dict.set k v d) = Some v.
Proof.
  induction d as [|[k' v'] r IH]; simpl.
  - now rewrite String.eqb_refl.
  - destruct (String.eqb k k') eqn:E; simpl; rewrite E; auto.
Qed.

Lemma Dict_get_set_neq (k k' : string) (v : V) d :
  k <> k' -> Dict.get k (Dict.set k' v d) = Dict.get k d.
Proof.
  intros Hne. induction d as [|[k2 v2] r IH]; simpl.
  - destruct (String.eqb_spec k k'); congruence.
  - destruct (String.eqb_spec k' k2) as [->|]; simpl.
    + destruct (String.eqb_spec k k2); congruence.
    + destruct (String.eqb_spec k k2); auto.
Qed.

Lemma Dict_set_same (k : string) (v : V) d :
  Dict.get k d = Some v -> Dict.set k v d = d.
Proof.
  induction d as [|[k' v'] r IH]; simpl; [discriminate|].
  destruct (String.eqb_spec k k') as [->|]; intros H.
  - congruence.
  - now rewrite IH.
Qed.

Lemma Dict_mem_set (k k' : string) (v : V) d :
  Dict.mem k d = true -> Dict.mem k (Dict.set k' v d) = true.
Proof.
  unfold Dict.mem. destruct (String.eqb_spec k k') as [->|Hne].
  - now rewrite Dict_get_set_eq.
  - now rewrite Dict_get_set_neq.
Qed.

End DictFacts.

(** ** Running a computation *)

Lemma bind_ok {S A B} (m : M S A) (k : A -> M S B) (s s' : S) (a : A) :
  m s = (Ok a, s') -> bind m k s = k a s'.
Proof. intros H. unfold bind. now rewrite H. Qed.

Lemma bind_raise {S A B} (m : M S A) (k : A -> M S B) (s s' : S) (e : exn) :
  m s = (Raise e, s') -> bind m k s = (Raise e, s').
Proof. intros H. unfold bind. now rewrite H. Qed.

Ltac step := erewrite bind_ok by reflexivity.

(** ** The engine *)

(** Comparisons of two string literals are evaluated; a comparison with
    an unknown string stays as it is. *)
Ltac eval_eqb :=
  match goal with
  | |- context [String.eqb ?a ?b] =>
      let v := eval vm_compute in (String.eqb a b) in
      match v with
      | true => change (String.eqb a b) with true
      | false => change (String.eqb a b) with false
      end
  end.

Ltac str_simpl :=
  repeat (progress cbn [Str.mem existsb orb andb negb fst snd] || eval_eqb).

Section EngineFacts.

Variable driver : Driver.

Lemma toggle_target_cases s :
  toggle_target s = "on" \/ toggle_target s = "off".
Proof. unfold toggle_target. destruct (String.eqb s "off"); auto. Qed.

(** C4: a request that finds the device in state "init" with the lock
    held returns "init" at once; nothing is touched: no wait for the lock,
    no call of [refresh_status] or [set_power], no new
    [_last_update_time]. *)
Theorem process_request_init_locked (req : string) (force : bool) (st : DevSt) :
  state (self st) = "init" ->
  request_lock (self st) = true ->
  process_request driver req force st = (Ok "init", st).
Proof.
  intros Hs Hl. unfold process_request. rewrite Hs, Hl. reflexivity.
Qed.

(** A request on a free lock: the lock is taken, the device refreshed,
    the request decided, the time stamped and the lock released. *)
Lemma process_request_run (req : string) (force : bool) (st : DevSt) :
  request_lock (self st) = false ->
  process_request driver req force st =
  match refresh_status driver (acquired st) with
  | (Ok _, st1) =>
      match process_request_refreshed driver (state (self st)) req force st1 with
      | (Suspended, st2) => (Suspended, st2)
      | (r, st2) => (r, released st2)
      end
  | (Raise e, st1) => (Raise e, released st1)
  | (Suspended, st1) => (Suspended, st1)
  end.
Proof.
  intros Hl. unfold process_request. rewrite Hl, andb_false_r.
  unfold with_request_lock. rewrite Hl.
  unfold try_finally, bind, self_get, gets, acquired, released.
  destruct (refresh_status driver (upd_self (upd_request_lock true (self st)) st))
    as [[u|e|] st1]; try reflexivity.
  cbn -[process_request_refreshed].
  destruct (process_request_refreshed driver (state (self st)) req force st1)
    as [[r|e|] st2]; reflexivity.
Qed.

Lemma process_request_suspended (req : string) (force : bool) (st : DevSt) :
  request_lock (self st) = true ->
  state (self st) <> "init" ->
  process_request driver req force st = (Suspended, st).
Proof.
  intros Hl Hs. unfold process_request, with_request_lock.
  rewrite Hl. destruct (String.eqb_spec (state (self st)) "init"); [contradiction|].
  reflexivity.
Qed.

Lemma _set_state_calls (s : string) (st : DevSt) :
  calls (power (snd (_set_state s st))) = calls (power st).
Proof.
  unfold _set_state, bind, self_get, srv_get, srv_upd, self_upd, gets, modify.
  cbn -[Str.mem].
  destruct (negb (Str.mem (state (self st)) [s; "init"]) &&
            negb (request_lock (self st))); reflexivity.
Qed.

(** The refresh is one call of the driver's [refresh_status], and the
    engine makes no other call there. *)
Lemma refresh_status_calls (st : DevSt) :
  calls (power (snd (refresh_status driver st))) =
  calls (power st) ++ [CallRefreshStatus (name (self st))].
Proof.
  destruct st as [d w].
  unfold refresh_status, bind, self_get, gets, record_call, modify.
  cbn -[klipper_refresh_status run_driver].
  destruct (cls d); try reflexivity.
  - unfold klipper_refresh_status, bind, self_get, srv_get, srv_upd, self_upd,
      gets, modify.
    cbn -[Str.mem].
    destruct (is_shutdown d || Str.mem (state d) ["on"; "off"; "init"]);
      [reflexivity|].
    destruct (query_objects _ _) as [| | |[v|]]; try reflexivity.
    unfold _set_state_from_data. now rewrite _set_state_calls.
  - unfold run_driver. cbn.
    destruct (drv_refresh_status driver d _) as [r [s' srv']]. reflexivity.
Qed.

(** C2: a "toggle" request is the request for the opposite of the state
    the refresh has just left, "on" if that state is "off" and "off"
    otherwise, whatever the state was before the refresh. *)
Theorem toggle_resolves_after_refresh (force : bool) (st : DevSt) :
  process_request driver "toggle" force st =
  process_request driver
    (if String.eqb (state (self (refreshed driver st))) "off" then "on" else "off")
    force st.
Proof.
  destruct (request_lock (self st)) eqn:Hl.
  - unfold process_request, with_request_lock. rewrite Hl.
    destruct (String.eqb (state (self st)) "init"); reflexivity.
  - rewrite !process_request_run by assumption.
    unfold refreshed.
    destruct (refresh_status driver (acquired st)) as [[u|e|] st1];
      cbn [snd]; try reflexivity.
    unfold process_request_refreshed, bind, self_get, gets, toggle_target.
    str_simpl.
    destruct (String.eqb (state (self st1)) "off"); str_simpl; reflexivity.
Qed.

(** C1, as amended: with [locked_while_printing] set, a print running and
    [force=False], an "on" or "off" request that differs from the
    refreshed state raises "Unable to change power for <name> while
    printing"; [set_power] is not called, and the device is left as the
    refresh left it, but for the time stamp and the released lock. *)
Theorem locked_while_printing_denied (req : string) (st st1 : DevSt) :
  request_lock (self st) = false ->
  refresh_status driver (acquired st) = (Ok tt, st1) ->
  req = "on" \/ req = "off" ->
  req <> state (self st1) ->
  locked_while_printing (self st1) = true ->
  kconn_is_printing (server (power st1)) = true ->
  process_request driver req false st =
    (Raise (ServerError ("Unable to change power for " ++ name (self st1) ++
                         " while printing")),
     released st1)
  /\ state (self (released st1)) = state (self st1)
  /\ request_lock (self (released st1)) = false
  /\ calls (power (released st1)) =
     calls (power st) ++ [CallRefreshStatus (name (self st))].
Proof.
  intros Hl Hr Hreq Hne Hlocked Hprinting.
  rewrite process_request_run, Hr by assumption.
  split; [|repeat split].
  2:{ change (calls (power (released st1)))
        with (calls (power (snd (Ok tt, st1)))).
      rewrite <- Hr. apply (refresh_status_calls (acquired st)). }
  unfold process_request_refreshed, bind, self_get, srv_get, gets, when.
  apply String.eqb_neq in Hne.
  destruct Hreq; subst req; str_simpl;
    rewrite Hne, Hlocked, Hprinting; reflexivity.
Qed.

(** *** Side effects *)

Lemma add_trace_nil (st : DevSt) : add_trace [] st = st.
Proof.
  destruct st as [d [devs srv cs]]. destruct srv.
  unfold add_trace. cbn. now rewrite app_nil_r.
Qed.

Lemma add_trace_app (l1 l2 : list Effect) (st : DevSt) :
  add_trace l2 (add_trace l1 st) = add_trace (l1 ++ l2) st.
Proof. unfold add_trace. cbn. now rewrite app_assoc. Qed.

Lemma events_app (a b : list Effect) : events (a ++ b) = events a ++ events b.
Proof.
  induction a as [|[] a IH]; cbn; rewrite ?IH; reflexivity.
Qed.

Lemma service_actions_app (a b : list Effect) :
  service_actions (a ++ b) = service_actions a ++ service_actions b.
Proof.
  induction a as [|[] a IH]; cbn; rewrite ?IH; reflexivity.
Qed.

Lemma notify_power_changed_run (st : DevSt) :
  notify_power_changed st =
  (Ok tt, add_trace [SendEvent "power:power_changed" (get_device_info (self st))] st).
Proof. reflexivity. Qed.

Lemma bound_service_action_run (nm action svc : string) (st : DevSt) :
  bound_service_action nm action svc st =
  (Ok tt, add_trace (service_effects (server (power st)) nm action svc) st).
Proof.
  unfold bound_service_action, service_effects, bind, srv_upd, srv_get, when,
    modify, gets, ret, log_info, log_exception, emit, add_trace.
  cbn -[String.append app].
  destruct (do_service_action_fails (server (power st)) action svc);
    cbn -[String.append app]; rewrite <- ?app_assoc; cbn -[String.append];
    rewrite ?app_nil_r; reflexivity.
Qed.

Lemma for_each_services_run (svcs : list string) (nm action : string) (st : DevSt) :
  for_each svcs (bound_service_action nm action) st =
  (Ok tt,
   add_trace (flat_map (service_effects (server (power st)) nm action) svcs) st).
Proof.
  revert st. induction svcs as [|svc r IH]; intros st.
  - cbn. now rewrite add_trace_nil.
  - cbn [for_each flat_map]. unfold bind at 1.
    rewrite bound_service_action_run, IH, add_trace_app. reflexivity.
Qed.

Lemma process_bound_services_run (st : DevSt) :
  process_bound_services st = (Ok tt, add_trace (bound_services_effects st) st).
Proof.
  unfold process_bound_services, bound_services_effects, bind, self_get, gets.
  destruct (bound_services (self st)) as [|svc r] eqn:E.
  - cbn [flat_map]. destruct (Str.mem _ _); now rewrite add_trace_nil.
  - destruct (Str.mem (state (self st)) ["on"; "off"]); cbn [negb].
    + now rewrite for_each_services_run.
    + now rewrite add_trace_nil.
Qed.

Lemma service_actions_effects (s : Server) (nm action : string) (svcs : list string) :
  service_actions (flat_map (service_effects s nm action) svcs) =
  map (pair action) svcs.
Proof.
  induction svcs as [|svc r IH]; [reflexivity|].
  cbn [flat_map map]. rewrite service_actions_app, IH.
  unfold service_effects. destruct (do_service_action_fails s action svc);
    reflexivity.
Qed.

Lemma events_service_effects (s : Server) (nm action : string) (svcs : list string) :
  events (flat_map (service_effects s nm action) svcs) = [].
Proof.
  induction svcs as [|svc r IH]; [reflexivity|].
  cbn [flat_map]. rewrite events_app, IH.
  unfold service_effects. destruct (do_service_action_fails s action svc);
    reflexivity.
Qed.

Lemma events_bound_services_effects (st : DevSt) :
  events (bound_services_effects st) = [].
Proof.
  unfold bound_services_effects. destruct (Str.mem _ _); [|reflexivity].
  apply events_service_effects.
Qed.

(** The full side effects: one notification, the actions on the bound
    services, the restart; no driver call, and the state stays. *)
Lemma process_power_changed_spec (st : DevSt) :
  exists st',
    process_power_changed st = (Ok tt, st')
    /\ state (self st') = state (self st)
    /\ request_lock (self st') = request_lock (self st)
    /\ calls (power st') = calls (power st)
    /\ events (trace (server (power st'))) =
       events (trace (server (power st))) ++
       [("power:power_changed", get_device_info (self st))]
    /\ service_actions (trace (server (power st'))) =
       service_actions (trace (server (power st))) ++
       service_actions (bound_services_effects st)
    /\ timers (server (power st')) =
       timers (server (power st)) ++ restart_timers st
    /\ need_scheduled_restart (self st') = restart_pending st.
Proof.
  unfold process_power_changed.
  erewrite bind_ok by apply notify_power_changed_run.
  set (ev := SendEvent "power:power_changed" (get_device_info (self st))).
  step.
  assert (Hsvc : match bound_services (self (add_trace [ev] st)) with
                 | [] => ret tt
                 | _ => process_bound_services
                 end (add_trace [ev] st) =
                 (Ok tt, add_trace ([ev] ++ bound_services_effects st) st)).
  { cbn [self add_trace upd_power].
    destruct (bound_services (self st)) eqn:E.
    - unfold bound_services_effects. rewrite E. cbn [flat_map].
      destruct (Str.mem _ _); rewrite app_nil_r; reflexivity.
    - rewrite process_bound_services_run, add_trace_app. reflexivity. }
  erewrite bind_ok by apply Hsvc.
  set (st2 := add_trace ([ev] ++ bound_services_effects st) st).
  assert (Hev : events (trace (server (power st2))) =
                events (trace (server (power st))) ++
                [("power:power_changed", get_device_info (self st))]).
  { subst st2. unfold add_trace. cbn [power server upd_power upd_server trace upd_trace].
    rewrite !events_app, events_bound_services_effects, app_nil_r. reflexivity. }
  assert (Hsa : service_actions (trace (server (power st2))) =
                service_actions (trace (server (power st))) ++
                service_actions (bound_services_effects st)).
  { subst st2. unfold add_trace. cbn [power server upd_power upd_server trace upd_trace].
    rewrite !service_actions_app. reflexivity. }
  unfold restart_timers, restart_pending, restart_wanted.
  change (state (self st)) with (state (self st2)).
  change (klipper_restart (self st)) with (klipper_restart (self st2)).
  change (kconn_state (server (power st))) with (kconn_state (server (power st2))).
  change (need_scheduled_restart (self st)) with (need_scheduled_restart (self st2)).
  change (restart_delay (self st)) with (restart_delay (self st2)).
  change (timers (server (power st))) with (timers (server (power st2))).
  change (calls (power st)) with (calls (power st2)).
  change (request_lock (self st)) with (request_lock (self st2)).
  rewrite <- Hev, <- Hsa. clearbody st2. clear Hsvc Hev Hsa ev.
  unfold bind, self_get, srv_get, self_upd, gets, modify, ret.
  destruct (String.eqb (state (self st2)) "on" && klipper_restart (self st2)).
  2:{ eexists; split; [reflexivity|]. cbn [andb]. rewrite app_nil_r. repeat split. }
  cbn [andb self upd_self power server].
  destruct (startup_complete (kconn_state (server (power st2)))) eqn:Hk; cbn [negb].
  2:{ eexists; split; [reflexivity|]. cbn. rewrite app_nil_r. repeat split. }
  unfold _schedule_firmware_restart, bind, self_get, srv_get, srv_upd, self_upd,
    srv_delay_callback, gets, modify, ret.
  cbn [self upd_self need_scheduled_restart upd_need_scheduled_restart negb].
  destruct (KlippyState_eqb (kconn_state (server (power st2))) READY); cbn [negb].
  - eexists; split; [reflexivity|]. cbn -[String.append].
    rewrite app_nil_r, events_app, service_actions_app, !app_nil_r. repeat split.
  - eexists; split; [reflexivity|]. cbn -[String.append].
    rewrite events_app, service_actions_app, !app_nil_r. repeat split.
Qed.

Lemma notify_or_process_spec (st : DevSt) :
  exists st',
    notify_or_process st = (Ok tt, st')
    /\ state (self st') = state (self st)
    /\ request_lock (self st') = request_lock (self st)
    /\ calls (power st') = calls (power st).
Proof.
  unfold notify_or_process. step.
  destruct (restrict_actions (self st)).
  - rewrite notify_power_changed_run. eexists. repeat split.
  - destruct (process_power_changed_spec st) as (st' & H & Hs & Hl & Hc & _).
    exists st'. auto.
Qed.

(** The calls the engine has made once the refresh is over. *)
Lemma refreshed_calls (st st1 : DevSt) (r : Res unit) :
  refresh_status driver (acquired st) = (r, st1) ->
  calls (power st1) = calls (power st) ++ [CallRefreshStatus (name (self st))].
Proof.
  intros Hr. change st1 with (snd (r, st1)). rewrite <- Hr.
  apply (refresh_status_calls (acquired st)).
Qed.

(** C10: an "on" or "off" request that asks for the state the refresh has
    just left returns that state; [set_power] is not called and nothing
    is refused, whatever [force], [locked_while_printing] and the
    printing status are: the only driver call is the refresh. *)
Theorem request_for_current_state (req : string) (force : bool) (st st1 : DevSt) :
  request_lock (self st) = false ->
  refresh_status driver (acquired st) = (Ok tt, st1) ->
  req = "on" \/ req = "off" ->
  state (self st1) = req ->
  exists st2,
    process_request driver req force st = (Ok req, st2)
    /\ state (self st2) = req
    /\ request_lock (self st2) = false
    /\ calls (power st2) =
       calls (power st) ++ [CallRefreshStatus (name (self st))].
Proof.
  intros Hl Hr Hreq Hcur.
  rewrite process_request_run, Hr by assumption.
  pose proof (refreshed_calls _ _ _ Hr) as Hcalls.
  unfold process_request_refreshed. step. rewrite Hcur.
  assert (Hmem : Str.mem req ["on"; "off"] = true)
    by (destruct Hreq; subst req; reflexivity).
  assert (Htog : String.eqb req "toggle" = false)
    by (destruct Hreq; subst req; reflexivity).
  rewrite Htog, Hmem, String.eqb_refl.
  unfold when.
  destruct (negb (String.eqb (state (self st)) req)).
  - destruct (notify_or_process_spec st1) as (st' & H & Hs & _ & Hc).
    erewrite bind_ok by apply H.
    eexists. split; [reflexivity|]. cbn. rewrite Hs, Hc. auto.
  - step. eexists. split; [reflexivity|]. cbn. auto.
Qed.

(** C3, as amended: a request whose refresh has changed the state and
    that applies no transition.  When it returns (a "status" request, or
    an "on" or "off" request for the refreshed state): with
    [restrict_actions] the request adds the [power:power_changed]
    notification to the trace and does nothing else (no action on a
    service, no timer, no pending restart); without it
    [process_power_changed] runs: the notification, one start or stop
    action per bound service in the order of the list when the state is
    "on" or "off", and the restart arrangement.  When it raises after the
    refresh (a request word that is not supported, or an "on", "off" or
    "toggle" request for another state that is refused while printing),
    nothing is announced and no side effect runs, whatever
    [restrict_actions] says: the device is left as the refresh left it. *)
Theorem external_change_side_effects (req : string) (force : bool)
    (st st1 : DevSt) :
  request_lock (self st) = false ->
  refresh_status driver (acquired st) = (Ok tt, st1) ->
  state (self st) <> state (self st1) ->
  (req = "status" \/ ((req = "on" \/ req = "off") /\ req = state (self st1)) ->
   (restrict_actions (self st1) = true ->
      process_request driver req force st =
      (Ok (state (self st1)),
       released (add_trace [SendEvent "power:power_changed"
                              (get_device_info (self st1))] st1)))
   /\
   (restrict_actions (self st1) = false ->
      exists st2,
        process_power_changed st1 = (Ok tt, st2)
        /\ process_request driver req force st =
           (Ok (state (self st1)), released st2)
        /\ events (trace (server (power st2))) =
           events (trace (server (power st1))) ++
           [("power:power_changed", get_device_info (self st1))]
        /\ service_actions (trace (server (power st2))) =
           service_actions (trace (server (power st1))) ++
           (if Str.mem (state (self st1)) ["on"; "off"] then
              map (pair (if String.eqb (state (self st1)) "on"
                         then "start" else "stop"))
                  (bound_services (self st1))
            else [])
        /\ timers (server (power st2)) =
           timers (server (power st1)) ++ restart_timers st1
        /\ need_scheduled_restart (self st2) = restart_pending st1))
  /\
  (Str.mem req ["on"; "off"; "toggle"; "status"] = false
   \/ ((req = "toggle" \/ ((req = "on" \/ req = "off") /\ req <> state (self st1)))
       /\ force = false
       /\ locked_while_printing (self st1) = true
       /\ kconn_is_printing (server (power st1)) = true) ->
   exists e,
     process_request driver req force st = (Raise e, released st1)
     /\ state (self (released st1)) = state (self st1)
     /\ trace (server (power (released st1))) = trace (server (power st1))
     /\ timers (server (power (released st1))) = timers (server (power st1))
     /\ need_scheduled_restart (self (released st1)) =
        need_scheduled_restart (self st1)).
Proof.
  intros Hl Hr Hne. split.
  - intros Hreq.
    destruct (notify_or_process_spec st1) as (stn & Hn & _).
    assert (Hrun : process_request driver req force st =
                   (Ok (state (self st1)), released stn)).
    { rewrite process_request_run, Hr by assumption.
      unfold process_request_refreshed. step.
      apply String.eqb_neq in Hne.
      assert (Hbody : (when (negb (String.eqb (state (self st)) (state (self st1))))
                         notify_or_process ;; ret (state (self st1))) st1 =
                      (Ok (state (self st1)), stn)).
      { rewrite Hne. cbn [negb when]. erewrite bind_ok by apply Hn. reflexivity. }
      destruct Hreq as [-> | [Hreq Hcur]].
      - str_simpl. rewrite Hbody. reflexivity.
      - assert (Hmem : Str.mem req ["on"; "off"] = true)
          by (destruct Hreq; subst req; reflexivity).
        assert (Htog : String.eqb req "toggle" = false)
          by (destruct Hreq; subst req; reflexivity).
        assert (Heq : String.eqb req (state (self st1)) = true)
          by (rewrite <- Hcur; apply String.eqb_refl).
        rewrite Htog, Hmem, Heq, Hbody. reflexivity. }
    unfold notify_or_process, bind, self_get, gets in Hn. cbv beta iota in Hn.
    split; intros Hrestrict; rewrite Hrestrict in Hn.
    + rewrite notify_power_changed_run in Hn. injection Hn as <-. exact Hrun.
    + destruct (process_power_changed_spec st1)
        as (st2 & H & _ & _ & _ & Hev & Hsa & Htm & Hneed).
      rewrite H in Hn. injection Hn as <-.
      exists st2. split; [assumption|]. split; [assumption|].
      repeat split; try assumption.
      rewrite Hsa. f_equal. unfold bound_services_effects.
      destruct (Str.mem (state (self st1)) ["on"; "off"]); [|reflexivity].
      apply service_actions_effects.
  - intros Hreq. rewrite process_request_run, Hr by assumption.
    destruct Hreq as [Hreq | (Hreq & -> & Hlocked & Hprinting)].
    + cbn [Str.mem existsb] in Hreq.
      repeat (apply orb_false_elim in Hreq; destruct Hreq as [? Hreq]).
      unfold process_request_refreshed. step.
      match goal with H : String.eqb req "toggle" = false |- _ => rewrite H end.
      cbn [Str.mem existsb].
      repeat match goal with
             | H : String.eqb req _ = false |- _ => rewrite H; clear H
             end.
      eexists. split; [reflexivity|]. repeat split.
    + unfold process_request_refreshed, bind, self_get, srv_get, gets, when,
        toggle_target.
      destruct Hreq as [-> | [Hreq Hdiff]].
      * str_simpl.
        destruct (String.eqb (state (self st1)) "off") eqn:E; str_simpl.
        -- apply String.eqb_eq in E. rewrite E. str_simpl.
           rewrite Hlocked, Hprinting.
           eexists. split; [reflexivity|]. repeat split. exact E.
        -- rewrite String.eqb_sym, E. cbn [negb].
           rewrite Hlocked, Hprinting.
           eexists. split; [reflexivity|]. repeat split.
      * apply String.eqb_neq in Hdiff.
        destruct Hreq; subst req; str_simpl;
          rewrite Hdiff, Hlocked, Hprinting;
          (eexists; split; [reflexivity|]); repeat split.
Qed.

(** ** The registry *)

(** [set_device_power] returns [None] on every input. *)
Lemma set_device_power_returns (device : string) (state : PyVal) (force : bool)
    (w : World) :
  fst (set_device_power device state force w) = Ok tt.
Proof.
  unfold set_device_power.
  destruct (negb (Str.mem (normalize_request state) ["on"; "off"; "toggle"]));
    [reflexivity|].
  step. destruct (negb (Dict.mem device (devices w))); reflexivity.
Qed.


(** C9: a single-device request raises "No valid device named <name>"
    for an unknown name; for a known name, a POST whose lowercased action
    is not "on", "off" or "toggle" raises "Invalid requested action"; a
    GET (action "status") and a POST with one of the three actions are
    handed to [process_request], and its result comes back under the name
    of the device. *)
Theorem single_power_request (web_request : WebRequest) (w : World)
    (dev_name : string) :
  get_str web_request "device" = Ok dev_name ->
  (Dict.mem dev_name (devices w) = false ->
     _handle_single_power_request driver web_request w =
     (Raise (ServerError ("No valid device named " ++ dev_name)), w))
  /\
  (Dict.mem dev_name (devices w) = true ->
     forall a,
       get_request_type web_request = POST ->
       get_str web_request "action" = Ok a ->
       Str.mem (Str.lower a) ["on"; "off"; "toggle"] = false ->
       _handle_single_power_request driver web_request w =
       (Raise (ServerError ("Invalid requested action '" ++ Str.lower a ++ "'")),
        w))
  /\
  (Dict.mem dev_name (devices w) = true ->
     forall action,
       (get_request_type web_request = GET /\ action = "status")
       \/ (get_request_type web_request = POST /\
           exists a, get_str web_request "action" = Ok a /\
                     action = Str.lower a /\
                     Str.mem action ["on"; "off"; "toggle"] = true) ->
       _handle_single_power_request driver web_request w =
       match with_self dev_name (process_request driver action false) w with
       | (Ok result, w') => (Ok [(dev_name, result)], w')
       | (Raise e, w') => (Raise e, w')
       | (Suspended, w') => (Suspended, w')
       end).
Proof.
  intros Hdev. unfold _handle_single_power_request.
  erewrite bind_ok by (unfold lift_res; rewrite Hdev; reflexivity).
  step.
  split; [|split].
  - intros Hmem. rewrite Hmem. reflexivity.
  - intros Hmem a Hpost Ha Hbad. rewrite Hmem, Hpost. cbn [negb].
    unfold bind, lift_res. rewrite Ha. cbv beta iota. rewrite Hbad.
    reflexivity.
  - intros Hmem action Haction. rewrite Hmem. cbn [negb].
    destruct Haction as [[Hget ->] | (Hpost & a & Ha & -> & Hok)].
    + rewrite Hget. step. unfold bind.
      destruct (with_self dev_name (process_request driver "status" false) w)
        as [[r|e|] w']; reflexivity.
    + rewrite Hpost. unfold bind, lift_res. rewrite Ha. cbv beta iota.
      rewrite Hok. cbn [negb]. unfold ret at 1.
      destruct (with_self dev_name (process_request driver (Str.lower a) false) w)
        as [[r|e|] w']; reflexivity.
Qed.

(** ** Shutdown of Klippy *)

Lemma length_list_update {A} (n : nat) (f : A -> A) (l : list A) :
  length (list_update n f l) = length l.
Proof.
  revert n. induction l as [|x r IH]; intros [|n]; cbn; auto.
Qed.

Lemma Qeq_bool_pos (q : Q) : (0 < q)%Q -> Qeq_bool q 0 = false.
Proof.
  intros H. destruct (Qeq_bool q 0) eqn:E; [|reflexivity].
  apply Qeq_bool_eq in E. rewrite E in H. now apply Qlt_irrefl in H.
Qed.

(** The callback of the shutdown timer, when it runs: an "off" request is
    queued if Klippy is in shutdown at that moment, and nothing is queued
    otherwise. *)
Lemma power_off_on_shutdown_run (w : World) (nm : string) (d : PowerDevice) :
  Dict.get nm (devices w) = Some d ->
  name d = nm ->
  exists w',
    with_self nm _power_off_on_shutdown w = (Ok tt, w')
    /\ callbacks (server w') =
       (if KlippyState_eqb (kconn_state (server w)) SHUTDOWN
        then callbacks (server w) ++ [CbProcessRequest nm "off" false]
        else callbacks (server w))
    /\ timers (server w') = timers (server w)
    /\ calls w' = calls w.
Proof.
  intros Hget Hname. unfold with_self. rewrite Hget.
  unfold _power_off_on_shutdown. step.
  cbn [power server].
  destruct (KlippyState_eqb (kconn_state (server w)) SHUTDOWN); cbn [negb].
  - step. step. cbn [self upd_self upd_power]. rewrite Hname.
    unfold call_power. cbn [self power upd_power upd_server devices name].
    rewrite Hname.
    assert (Hmem : Dict.mem nm (devices w) = true)
      by (unfold Dict.mem; now rewrite Hget).
    rewrite Hmem.
    unfold set_device_power. str_simpl.
    cbn [normalize_request Str.lower]. str_simpl.
    step. cbn [devices upd_devices].
    rewrite (Dict_mem_set _ _ _ _ Hmem). cbn [negb].
    unfold wsrv_upd, modify. eexists. split; [reflexivity|].
    repeat split.
  - eexists. split; [reflexivity|]. repeat split.
Qed.

(** C6: with [off_when_shutdown] and a positive delay, a shutdown of
    Klippy cancels the shutdown timer the device holds, if any, and arms
    a new one for the delay; no "off" request is made yet.  When the new
    timer fires, its callback queues the "off" request ([force=False]) if
    Klippy is in shutdown at that moment, and queues nothing otherwise.
    (The constructor of [KlipperDevice] refuses [off_when_shutdown], so
    the device is of another class.) *)
Theorem shutdown_arms_one_timer (w : World) (nm : string) (d : PowerDevice) :
  Dict.get nm (devices w) = Some d ->
  name d = nm ->
  cls d <> KlipperDevice ->
  off_when_shutdown d = true ->
  (0 < off_when_shutdown_delay d)%Q ->
  let h := length (timers (server w)) in
  let armed := new_timer (off_when_shutdown_delay d) (CbPowerOffOnShutdown nm) in
  exists w1,
    with_self nm process_klippy_shutdown w = (Ok tt, w1)
    /\ timers (server w1) =
       match shutdown_timer_handle d with
       | Some h0 => list_update h0 cancel_timer (timers (server w))
       | None => timers (server w)
       end ++ [armed]
    /\ Dict.get nm (devices w1) = Some (upd_shutdown_timer_handle (Some h) d)
    /\ callbacks (server w1) = callbacks (server w)
    /\ (forall w2 d2,
          nth_error (timers (server w2)) h = Some armed ->
          Dict.get nm (devices w2) = Some d2 ->
          name d2 = nm ->
          exists w3,
            fire driver h w2 = (Ok tt, w3)
            /\ callbacks (server w3) =
               (if KlippyState_eqb (kconn_state (server w2)) SHUTDOWN
                then callbacks (server w2) ++ [CbProcessRequest nm "off" false]
                else callbacks (server w2))).
Proof.
  intros Hget Hname Hcls Hon Hdelay h armed.
  assert (Harm : exists w1,
            with_self nm process_klippy_shutdown w = (Ok tt, w1)
            /\ timers (server w1) =
               match shutdown_timer_handle d with
               | Some h0 => list_update h0 cancel_timer (timers (server w))
               | None => timers (server w)
               end ++ [armed]
            /\ Dict.get nm (devices w1) =
               Some (upd_shutdown_timer_handle (Some h) d)
            /\ callbacks (server w1) = callbacks (server w)).
  { unfold with_self. rewrite Hget.
    assert (Hbody : process_klippy_shutdown {| self := d; power := w |} =
              (enabled <- self_get off_when_shutdown ;;
               if negb enabled then ret tt
               else
                 delay <- self_get off_when_shutdown_delay ;;
                 if Qeq_bool delay 0 then _power_off_on_shutdown
                 else
                   cancel_handle shutdown_timer_handle upd_shutdown_timer_handle ;;
                   nm <- self_get name ;;
                   h <- srv_delay_callback delay (CbPowerOffOnShutdown nm) ;;
                   self_upd (upd_shutdown_timer_handle (Some h)))
                {| self := d; power := w |}).
    { unfold process_klippy_shutdown. step. cbn [self].
      destruct (cls d); try reflexivity. contradiction. }
    rewrite Hbody. clear Hbody.
    step. cbn [self]. rewrite Hon. cbn [negb].
    step. cbn [self]. rewrite (Qeq_bool_pos _ Hdelay).
    unfold cancel_handle. subst h armed.
    destruct (shutdown_timer_handle d) as [h0|] eqn:Hh.
    - unfold bind, self_get, srv_upd, self_upd, srv_delay_callback, gets, modify.
      cbn. rewrite Hh. cbn. rewrite Hname, length_list_update.
      eexists. split; [reflexivity|]. cbn [server upd_devices devices timers].
      rewrite Dict_get_set_eq. repeat split.
    - unfold bind, self_get, srv_upd, self_upd, srv_delay_callback, gets, modify, ret.
      cbn. rewrite Hh. cbn. rewrite Hname.
      eexists. split; [reflexivity|]. cbn [server upd_devices devices timers].
      rewrite Dict_get_set_eq. repeat split. }
  destruct Harm as (w1 & H1 & H2 & H3 & H4).
  exists w1. repeat (split; [assumption|]).
  intros w2 d2 Hnth Hget2 Hname2.
  unfold fire. step. rewrite Hnth. cbn [armed new_timer tm_status tm_callback].
  unfold wsrv_upd. erewrite bind_ok by reflexivity.
  cbn [run_callback].
  set (w2' := upd_server _ w2).
  destruct (power_off_on_shutdown_run w2' nm d2 Hget2 Hname2)
    as (w3 & Hrun & Hcb & _).
  exists w3. split; assumption.
Qed.

(** ** Batch requests *)

Lemma Dict_get_In {V} (k : string) (v : V) d :
  Dict.get k d = Some v -> In (k, v) d.
Proof.
  induction d as [|[k' v'] r IH]; cbn; [discriminate|].
  destruct (String.eqb_spec k k') as [->|]; intros H.
  - left. congruence.
  - right. auto.
Qed.


Lemma Dict_keys_set {V} (k : string) (v : V) d :
  Dict.keys (Dict.set k v d) =
  match Dict.get k d with
  | Some _ => Dict.keys d
  | None => Dict.keys d ++ [k]
  end.
Proof.
  induction d as [|[k' v'] r IH]; cbn; [reflexivity|].
  destruct (String.eqb_spec k k') as [->|Hne]; cbn; [reflexivity|].
  fold (Dict.keys (Dict.set k v r)). fold (Dict.keys r). rewrite IH.
  destruct (Dict.get k r); reflexivity.
Qed.









End EngineFacts.

(** ** Auto-off timers *)

Lemma nth_error_list_update {A} (f : A -> A) (l : list A) (n i : nat) :
  nth_error (list_update n f l) i =
  if Nat.eqb i n then option_map f (nth_error l i) else nth_error l i.
Proof.
  revert n i. induction l as [|x r IH]; intros [|n] [|i]; cbn; auto.
  destruct (Nat.eqb i n); reflexivity.
Qed.

Lemma cancel_timer_not_scheduled (p : Callback -> bool) (t : Timer) :
  is_scheduled p (cancel_timer t) = false.
Proof.
  unfold is_scheduled, cancel_timer.
  destruct (tm_status t) eqn:E; cbn; rewrite ?E; reflexivity.
Qed.

(** Timers that can fire at one index at most are one timer at most. *)
Lemma filter_at_most_one {A} (p : A -> bool) (l : list A) :
  (forall i j x y,
     nth_error l i = Some x -> p x = true ->
     nth_error l j = Some y -> p y = true -> i = j) ->
  (length (filter p l) <= 1)%nat.
Proof.
  induction l as [|x r IH]; intros H; cbn; [lia|].
  destruct (p x) eqn:Hx.
  - assert (Hr : filter p r = []).
    { destruct (filter p r) as [|y r'] eqn:E; [reflexivity|].
      assert (Hy : In y (filter p r)) by (rewrite E; now left).
      apply filter_In in Hy. destruct Hy as [Hin Hpy].
      apply In_nth_error in Hin. destruct Hin as [j Hj].
      specialize (H 0%nat (S j) x y eq_refl Hx Hj Hpy). discriminate. }
    rewrite Hr. cbn. lia.
  - apply IH. intros i j a b Hi Ha Hj Hb.
    specialize (H (S i) (S j) a b Hi Ha Hj Hb). lia.
Qed.

Lemma one_auto_off_at_most_one (d : PowerDevice) (s : Server) :
  one_auto_off d s ->
  (length (scheduled (is_auto_off (name d)) s) <= 1)%nat.
Proof.
  intros H. apply filter_at_most_one.
  intros i j x y Hi Hx Hj Hy.
  pose proof (H i x Hi Hx) as E1. pose proof (H j y Hj Hy) as E2. congruence.
Qed.

(** [if self.timer_handle is not None: cancel; self.timer_handle = None]
    leaves no auto-off timer that can fire. *)
Lemma cancel_handle_clears (st : DevSt) :
  one_auto_off (self st) (server (power st)) ->
  exists st',
    cancel_handle timer_handle upd_timer_handle st = (Ok tt, st')
    /\ no_auto_off (name (self st)) (server (power st'))
    /\ name (self st') = name (self st)
    /\ timer (self st') = timer (self st)
    /\ is_shutdown (self st') = is_shutdown (self st)
    /\ length (timers (server (power st'))) = length (timers (server (power st))).
Proof.
  intros Hinv. unfold cancel_handle. step.
  destruct (timer_handle (self st)) as [h|] eqn:Hh.
  - eexists. split; [reflexivity|]. cbn. rewrite length_list_update.
    split; [|auto].
    intros i t Hi. cbn in Hi. rewrite nth_error_list_update in Hi.
    destruct (Nat.eqb_spec i h) as [->|Hne].
    + destruct (nth_error (timers (server (power st))) h); [|discriminate].
      injection Hi as <-. apply cancel_timer_not_scheduled.
    + destruct (is_scheduled _ t) eqn:E; [|reflexivity].
      specialize (Hinv i t Hi E). congruence.
  - eexists. split; [reflexivity|]. split; [|auto].
    intros i t Hi. destruct (is_scheduled _ t) eqn:E; [|reflexivity].
    specialize (Hinv i t Hi E). congruence.
Qed.

(** [_check_timer] after that: the one timer that can fire is the new
    one, held in [timer_handle]. *)
Lemma check_timer_arms (st : DevSt) :
  no_auto_off (name (self st)) (server (power st)) ->
  exists st',
    _check_timer st = (Ok tt, st')
    /\ name (self st') = name (self st)
    /\ one_auto_off (self st') (server (power st'))
    /\ scheduled (is_auto_off (name (self st))) (server (power st')) =
       match timer (self st) with
       | Some delay =>
           if String.eqb (state (self st)) "on"
           then [new_timer delay (CbSetDevicePower (name (self st)) (VStr "off"))]
           else []
       | None => []
       end.
Proof.
  intros Hnone.
  assert (Hnil : scheduled (is_auto_off (name (self st))) (server (power st)) = []).
  { unfold scheduled.
    destruct (filter _ _) as [|y r] eqn:E; [reflexivity|].
    assert (Hy : In y (filter (is_scheduled (is_auto_off (name (self st))))
                          (timers (server (power st)))))
      by (rewrite E; now left).
    apply filter_In in Hy. destruct Hy as [Hin Hp].
    apply In_nth_error in Hin. destruct Hin as [i Hi].
    rewrite (Hnone i y Hi) in Hp. discriminate. }
  assert (Hkeep : one_auto_off (self st) (server (power st))).
  { intros i t Hi Ht. rewrite (Hnone i t Hi) in Ht. discriminate. }
  unfold _check_timer. step. step.
  destruct (timer (self st)) as [delay|] eqn:Htimer.
  2:{ exists st. repeat split; assumption. }
  destruct (String.eqb (state (self st)) "on").
  2:{ exists st. repeat split; assumption. }
  step. unfold bind, srv_delay_callback, delay_callback, self_upd, modify.
  eexists. split; [reflexivity|]. cbn [self upd_self upd_power power name
    upd_timer_handle server upd_server timers upd_timers timer_handle].
  split; [reflexivity|]. split.
  - intros i t Hi Ht. cbn in Hi, Ht.
    destruct (Nat.lt_ge_cases i (length (timers (server (power st))))) as [Hlt|Hge].
    + rewrite nth_error_app1 in Hi by assumption.
      rewrite (Hnone i t Hi) in Ht. discriminate.
    + rewrite nth_error_app2 in Hi by assumption.
      destruct (i - length (timers (server (power st))))%nat as [|n] eqn:E.
      * cbn. f_equal. lia.
      * cbn in Hi. destruct n; discriminate.
  - unfold scheduled in *. cbn [timers upd_timers].
    rewrite filter_app, Hnil. cbn.
    now rewrite !String.eqb_refl.
Qed.

Lemma no_auto_off_one (d : PowerDevice) (s : Server) :
  no_auto_off (name d) s -> one_auto_off d s.
Proof. intros H i t Hi Ht. rewrite (H i t Hi) in Ht. discriminate. Qed.

Lemma no_auto_off_scheduled (nm : string) (s : Server) :
  no_auto_off nm s -> scheduled (is_auto_off nm) s = [].
Proof.
  intros Hnone. unfold scheduled.
  destruct (filter _ _) as [|y r] eqn:E; [reflexivity|].
  assert (Hy : In y (filter (is_scheduled (is_auto_off nm)) (timers s)))
    by (rewrite E; now left).
  apply filter_In in Hy. destruct Hy as [Hin Hp].
  apply In_nth_error in Hin. destruct Hin as [i Hi].
  rewrite (Hnone i y Hi) in Hp. discriminate.
Qed.

(** [GpioDevice.set_power] keeps the auto-off timers of the device down
    to the one it holds: the timer held before is cancelled, and a
    successful "on" arms exactly one. *)
Lemma gpio_set_power_one_auto_off (s : string) (st : DevSt) :
  one_auto_off (self st) (server (power st)) ->
  let st' := snd (gpio_set_power s st) in
  one_auto_off (self st') (server (power st'))
  /\ name (self st') = name (self st)
  /\ (fst (gpio_set_power s st) = Ok tt ->
      scheduled (is_auto_off (name (self st))) (server (power st')) =
      match timer (self st) with
      | Some delay =>
          if String.eqb s "on"
          then [new_timer delay (CbSetDevicePower (name (self st)) (VStr "off"))]
          else []
      | None => []
      end)
  /\ (fst (gpio_set_power s st) <> Ok tt ->
      scheduled (is_auto_off (name (self st))) (server (power st')) = []).
Proof.
  intros Hinv.
  destruct (cancel_handle_clears st Hinv)
    as (st1 & H1 & Hnone & Hname & Htimer & _ & _).
  unfold gpio_set_power. erewrite bind_ok by apply H1.
  step. erewrite bind_ok by reflexivity. step.
  cbn [self power upd_power upd_self server upd_server emit gpio_write_fails
       upd_trace].
  destruct (gpio_write_fails (server (power st1)) (name (self st1))); cbn zeta.
  - unfold bind, self_upd, srv_upd, modify, raise. cbn [fst snd].
    cbn [self power upd_power upd_self server upd_server name upd_state].
    rewrite Hname.
    split; [|split; [reflexivity|split]].
    + intros i t Hi Ht. cbn in Hi, Ht. rewrite Hname in Ht.
      rewrite (Hnone i t Hi) in Ht. discriminate.
    + intros H. discriminate.
    + intros _. now apply no_auto_off_scheduled.
  - erewrite bind_ok by reflexivity.
    match goal with |- context [_check_timer ?x] => set (st2 := x) end.
    assert (Hn2 : no_auto_off (name (self st2)) (server (power st2))).
    { subst st2. cbn. rewrite Hname. exact Hnone. }
    destruct (check_timer_arms st2 Hn2) as (st3 & H3 & Hname3 & Hone & Hsched).
    rewrite H3. cbn [fst snd].
    assert (Hname2 : name (self st2) = name (self st))
      by (subst st2; cbn; assumption).
    split; [assumption|]. split; [congruence|]. split.
    + intros _. rewrite <- Hname2, Hsched. subst st2. cbn. now rewrite Htimer.
    + intros H. contradiction.
Qed.

Lemma _set_state_frame (s : string) (st : DevSt) :
  exists st',
    _set_state s st = (Ok tt, st')
    /\ timers (server (power st')) = timers (server (power st))
    /\ name (self st') = name (self st)
    /\ timer (self st') = timer (self st)
    /\ timer_handle (self st') = timer_handle (self st)
    /\ state (self st') = s.
Proof.
  unfold _set_state. do 2 step. erewrite bind_ok by reflexivity.
  step. erewrite bind_ok by reflexivity.
  destruct (negb (Str.mem (state (self st)) [s; "init"]) &&
            negb (request_lock (self st))).
  - step. eexists. split; [reflexivity|]. repeat split.
  - eexists. split; [reflexivity|]. repeat split.
Qed.

(** [KlipperDevice.set_power] keeps the auto-off timers of the device down
    to the one it holds. *)
Lemma klipper_set_power_one_auto_off (s : string) (st : DevSt) :
  one_auto_off (self st) (server (power st)) ->
  let st' := snd (klipper_set_power s st) in
  one_auto_off (self st') (server (power st'))
  /\ name (self st') = name (self st).
Proof.
  intros Hinv. unfold klipper_set_power. do 2 step.
  destruct (is_shutdown (self st)); [split; [exact Hinv|reflexivity]|].
  destruct (cancel_handle_clears st Hinv)
    as (st1 & H1 & Hnone & Hname & Htimer & _ & _).
  unfold _reset_timer. erewrite bind_ok by apply H1.
  step. erewrite bind_ok by reflexivity. step.
  cbn [self power upd_power upd_self server upd_server emit run_gcode upd_trace].
  set (gcode := (gc_cmd (self st1) ++ " VALUE=" ++ (if String.eqb s "on" then "1" else "0"))%string).
  destruct (run_gcode (server (power st1)) gcode) as [| |v].
  - unfold bind, self_upd, srv_upd, modify, raise. cbn [snd].
    split; [|exact Hname].
    intros i t Hi Ht. cbn in Hi, Ht. rewrite Hname in Ht.
    rewrite (Hnone i t Hi) in Ht. discriminate.
  - unfold bind, self_upd, srv_upd, modify, raise. cbn [snd].
    split; [|exact Hname].
    intros i t Hi Ht. cbn in Hi, Ht. rewrite Hname in Ht.
    rewrite (Hnone i t Hi) in Ht. discriminate.
  - unfold _set_state_from_data.
    match goal with |- context [bind (_set_state ?a) _ ?x] =>
      destruct (_set_state_frame a x) as (st2 & H2 & Htm2 & Hname2 & _)
    end.
    erewrite bind_ok by apply H2.
    cbn [self power upd_power upd_self server upd_server timers upd_timers
         upd_trace name] in Htm2, Hname2.
    assert (Hn2 : no_auto_off (name (self st2)) (server (power st2))).
    { intros i t Hi. rewrite Htm2 in Hi. rewrite Hname2, Hname.
      exact (Hnone i t Hi). }
    destruct (check_timer_arms st2 Hn2) as (st3 & H3 & Hname3 & Hone & _).
    rewrite H3. cbn [snd]. split; [assumption|congruence].
Qed.

Section TimerFacts.

Variable driver : Driver.

(** For a GPIO or a Klipper device, [set_power] leaves at most one
    auto-off timer that can fire, the one the device holds. *)
Lemma set_power_one_auto_off (s : string) (st : DevSt) :
  cls (self st) = GpioDevice \/ cls (self st) = KlipperDevice ->
  one_auto_off (self st) (server (power st)) ->
  let st' := snd (set_power driver s st) in
  one_auto_off (self st') (server (power st'))
  /\ (length (scheduled (is_auto_off (name (self st))) (server (power st'))) <= 1)%nat.
Proof.
  intros Hcls Hinv. unfold set_power. step. erewrite bind_ok by reflexivity.
  step. cbn [self upd_power].
  set (st0 := upd_power _ st).
  assert (Hinv0 : one_auto_off (self st0) (server (power st0))) by exact Hinv.
  assert (Hname0 : name (self st0) = name (self st)) by reflexivity.
  destruct Hcls as [-> | ->].
  - destruct (gpio_set_power_one_auto_off s st0 Hinv0) as (Hone & Hname & _).
    cbv zeta in Hone, Hname. split; [assumption|].
    rewrite <- Hname0, <- Hname. now apply one_auto_off_at_most_one.
  - destruct (klipper_set_power_one_auto_off s st0 Hinv0) as (Hone & Hname).
    cbv zeta in Hone, Hname. split; [assumption|].
    rewrite <- Hname0, <- Hname. now apply one_auto_off_at_most_one.
Qed.

(** C7 fails on an RF device: [RFDevice.set_power] arms the auto-off
    timer without cancelling the one the device holds, as
    [GpioDevice.set_power] does.  With [timer: 30], the requests "on",
    "off", "on" leave two auto-off timers that will both fire; the same
    requests on a GPIO device leave one. *)
Theorem rf_device_stacks_auto_off_timers :
  let rf := Sample.with_timer 30 (Sample.dev RFDevice "rf" "off" false) in
  let gpio := Sample.with_timer 30 (Sample.dev GpioDevice "rf" "off" false) in
  let s := Sample.srv READY false None in
  one_auto_off rf s
  /\ length (scheduled (is_auto_off "rf")
              (server (Sample.on_off_on driver "rf" (Sample.world [rf] s)))) = 2%nat
  /\ length (scheduled (is_auto_off "rf")
              (server (Sample.on_off_on driver "rf" (Sample.world [gpio] s)))) = 1%nat.
Proof.
  cbv zeta. split; [|split].
  - intros i t Hi. destruct i; discriminate.
  - reflexivity.
  - reflexivity.
Qed.

End TimerFacts.

(** ** Sample runs *)

Lemma process_request_init_locked_witness :
  process_request Sample.plug "on" false Sample.initializing =
  (Ok "init", Sample.initializing).
Proof.
  apply (process_request_init_locked Sample.plug "on" false Sample.initializing);
    reflexivity.
Defined.

(** A plug that is on, locked while printing, with a print running and
    [force=False]: the request "on" is not refused, it returns "on". *)
Lemma locked_on_request_not_denied :
  locked_while_printing Sample.locked_plug = true
  /\ kconn_is_printing Sample.printing = true
  /\ ~ (forall req, req = "on" \/ req = "off" ->
        exists e st',
          process_request Sample.plug req false
            (Sample.on_device Sample.locked_plug Sample.printing) =
          (Raise e, st'))
  /\ fst (process_request Sample.plug "on" false
            (Sample.on_device Sample.locked_plug Sample.printing)) = Ok "on".
Proof.
  split; [reflexivity|]. split; [reflexivity|]. split; [|reflexivity].
  intros H. destruct (H "on" (or_introl eq_refl)) as (e & st' & Hrun).
  vm_compute in Hrun. discriminate Hrun.
Qed.

Lemma locked_while_printing_denied_witness :
  let st := Sample.on_device Sample.locked_plug Sample.printing in
  process_request Sample.plug "off" false st =
    (Raise (ServerError "Unable to change power for a while printing"),
     released (refreshed Sample.plug st))
  /\ state (self (released (refreshed Sample.plug st))) = "on"
  /\ request_lock (self (released (refreshed Sample.plug st))) = false
  /\ calls (power (released (refreshed Sample.plug st))) = [CallRefreshStatus "a"].
Proof.
  cbv zeta.
  apply (locked_while_printing_denied Sample.plug "off"
           (Sample.on_device Sample.locked_plug Sample.printing)
           (refreshed Sample.plug
              (Sample.on_device Sample.locked_plug Sample.printing)));
    try reflexivity.
  - right. reflexivity.
  - vm_compute. discriminate.
Defined.

Lemma request_for_current_state_witness :
  exists st2,
    process_request Sample.plug "on" false
      (Sample.on_device Sample.locked_plug Sample.printing) = (Ok "on", st2)
    /\ state (self st2) = "on"
    /\ request_lock (self st2) = false
    /\ calls (power st2) = [] ++ [CallRefreshStatus "a"].
Proof.
  apply (request_for_current_state Sample.plug "on" false
           (Sample.on_device Sample.locked_plug Sample.printing)
           (refreshed Sample.plug
              (Sample.on_device Sample.locked_plug Sample.printing)));
    try reflexivity.
  left. reflexivity.
Defined.

Lemma external_change_side_effects_witness :
  trace (server (power (snd
    (process_request Sample.plug "status" false (Sample.switched_off true))))) =
  [SendEvent "power:power_changed"
     {| di_device := "a"; di_status := "off";
        di_locked_while_printing := false; di_type := "sample";
        di_is_shutdown := None |}]
  /\ exists st2,
       process_request Sample.plug "status" false (Sample.switched_off false) =
       (Ok "off", released st2)
       /\ service_actions (trace (server (power st2))) =
          [("stop", "klipper"); ("stop", "webcamd")].
Proof.
  split.
  - destruct (external_change_side_effects Sample.plug "status" false
                (Sample.switched_off true)
                (refreshed Sample.plug (Sample.switched_off true)))
      as [H _];
      [reflexivity | reflexivity | vm_compute; discriminate |].
    destruct (H (or_introl eq_refl)) as [H1 _].
    rewrite (H1 eq_refl). reflexivity.
  - destruct (external_change_side_effects Sample.plug "status" false
                (Sample.switched_off false)
                (refreshed Sample.plug (Sample.switched_off false)))
      as [H _];
      [reflexivity | reflexivity | vm_compute; discriminate |].
    destruct (H (or_introl eq_refl)) as [_ H2].
    destruct (H2 eq_refl) as (st2 & _ & Hrun & _ & Hsa & _).
    exists st2. split; [exact Hrun|]. rewrite Hsa. reflexivity.
Defined.

(** A plug the engine believes on, locked while printing, with
    [restrict_actions] set, switched off from outside while a print is
    running.  The requests "on" and "reboot" apply no transition (the
    refresh is the one driver call) and the refresh has changed the state
    to "off", yet no [power:power_changed] is sent: the trace stays
    empty. *)
Lemma external_change_unannounced_on_refusal :
  let st := Sample.on_device Sample.locked_plug
              (Sample.srv READY true (Some false)) in
  let after req := snd (process_request Sample.plug req false st) in
  restrict_actions (self st) = true
  /\ state (self st) = "on"
  /\ fst (process_request Sample.plug "on" false st) =
     Raise (ServerError "Unable to change power for a while printing")
  /\ state (self (after "on")) = "off"
  /\ calls (power (after "on")) = [CallRefreshStatus "a"]
  /\ trace (server (power (after "on"))) = []
  /\ fst (process_request Sample.plug "reboot" false st) =
     Raise (ServerError "Unsupported power request: reboot")
  /\ state (self (after "reboot")) = "off"
  /\ calls (power (after "reboot")) = [CallRefreshStatus "a"]
  /\ trace (server (power (after "reboot"))) = [].
Proof. cbv zeta. repeat split. Qed.



Lemma shutdown_arms_one_timer_witness :
  exists w1,
    with_self "a" process_klippy_shutdown Sample.shutdown_world = (Ok tt, w1)
    /\ timers (server w1) = [new_timer 2 (CbPowerOffOnShutdown "a")]
    /\ callbacks (server w1) = [].
Proof.
  destruct (shutdown_arms_one_timer Sample.plug Sample.shutdown_world "a"
              (Sample.with_shutdown_delay 2 (Sample.dev GpioDevice "a" "on" false)))
    as (w1 & H1 & H2 & _ & H4 & _);
    [reflexivity | reflexivity | discriminate | reflexivity | reflexivity |].
  exists w1. split; [exact H1|]. split; [exact H2|exact H4].
Defined.

(** The scenario of the spec: a shutdown arms the timer; Klippy recovers
    before the timer fires; the callback then queues no request.  Had
    Klippy stayed in shutdown, it would queue the "off" request. *)
Lemma shutdown_then_recovery_skips_off :
  let w1 := snd (_handle_klippy_shutdown Sample.shutdown_world) in
  let recovered := upd_server (upd_kconn_state READY (server w1)) w1 in
  timers (server w1) = [new_timer 2 (CbPowerOffOnShutdown "a")]
  /\ callbacks (server (snd (fire Sample.plug 0 recovered))) = []
  /\ callbacks (server (snd (fire Sample.plug 0 w1))) =
     [CbProcessRequest "a" "off" false].
Proof. cbv zeta. repeat split. Qed.


Lemma single_power_request_witness :
  _handle_single_power_request Sample.plug (Sample.get_request "a")
    (Sample.world [Sample.locked_plug] Sample.printing) =
  match with_self "a" (process_request Sample.plug "status" false)
          (Sample.world [Sample.locked_plug] Sample.printing) with
  | (Ok result, w') => (Ok [("a", result)], w')
  | (Raise e, w') => (Raise e, w')
  | (Suspended, w') => (Suspended, w')
  end.
Proof.
  destruct (single_power_request Sample.plug (Sample.get_request "a")
              (Sample.world [Sample.locked_plug] Sample.printing) "a" eq_refl)
    as (_ & _ & H).
  apply H; [reflexivity|]. left. split; reflexivity.
Defined.

(** The examples of the spec. *)
Example lower_TRUE : Str.lower "TRUE" = "true".
Proof. reflexivity. Qed.

Example endpoint_request :
  Str.split_last "/" "/machine/device_power/off" = "off".
Proof. reflexivity. Qed.

Example batch_status_with_missing_device :
  fst (_handle_batch_power_request Sample.plug
         (Sample.request "/machine/device_power/status" ["a"; "missing"])
         (Sample.world [Sample.locked_plug] Sample.printing)) =
  Ok [("a", "on"); ("missing", "device_not_found")].
Proof. reflexivity. Qed.

Example forced_request_while_printing :
  let r := process_request Sample.plug "off" true
             (Sample.on_device Sample.locked_plug Sample.printing) in
  fst r = Ok "off"
  /\ calls (power (snd r)) = [CallRefreshStatus "a"; CallSetPower "a" "off"].
Proof. cbv zeta. split; reflexivity. Qed.

(** The refresh, not the stored state, decides a toggle: the plug is
    stored as "off" and reports "on", and the toggle switches it off. *)
Example toggle_uses_refreshed_state :
  let r := process_request Sample.plug "toggle" false
             (Sample.on_device (Sample.dev OtherDevice "a" "off" false)
                               (Sample.srv READY false (Some true))) in
  fst r = Ok "off"
  /\ calls (power (snd r)) = [CallRefreshStatus "a"; CallSetPower "a" "off"].
Proof. cbv zeta. split; reflexivity. Qed.

(** * More of the engine *)

(** ** Steady methods *)

Lemma same_settings_refl (d : PowerDevice) : same_settings d d.
Proof. unfold same_settings. repeat split. Qed.

Lemma same_settings_trans (a b c : PowerDevice) :
  same_settings a b -> same_settings b c -> same_settings a c.
Proof. unfold same_settings. intuition congruence. Qed.

Lemma keeps_refl (st : DevSt) : keeps st st.
Proof. split; [apply same_settings_refl|reflexivity]. Qed.

Lemma keeps_trans (a b c : DevSt) : keeps a b -> keeps b c -> keeps a c.
Proof.
  intros [H1 H2] [H3 H4]. split; [eapply same_settings_trans; eassumption|].
  congruence.
Qed.

Lemma steady_ret {A} (a : A) : steady (ret a).
Proof. intros st. split; [apply keeps_refl|discriminate]. Qed.

Lemma steady_raise {A} (e : exn) : steady (@raise DevSt A e).
Proof. intros st. split; [apply keeps_refl|discriminate]. Qed.

Lemma steady_gets {A} (f : DevSt -> A) : steady (gets f).
Proof. intros st. split; [apply keeps_refl|discriminate]. Qed.

Lemma steady_self_get {A} (f : PowerDevice -> A) : steady (self_get f).
Proof. apply steady_gets. Qed.

Lemma steady_srv_get {A} (f : Server -> A) : steady (srv_get f).
Proof. apply steady_gets. Qed.

Lemma steady_bind {A B} (m : M DevSt A) (k : A -> M DevSt B) :
  steady m -> (forall a, steady (k a)) -> steady (bind m k).
Proof.
  intros Hm Hk st. unfold bind. destruct (Hm st) as [H1 H2].
  destruct (m st) as [[a|e|] st1]; cbn [fst snd] in *.
  - destruct (Hk a st1) as [H3 H4]. split; [|assumption].
    eapply keeps_trans; eassumption.
  - split; [assumption|discriminate].
  - contradiction.
Qed.

Lemma steady_when (c : bool) (m : M DevSt unit) : steady m -> steady (when c m).
Proof. intros H. destruct c; [assumption|apply steady_ret]. Qed.

Lemma steady_for_each {A} (l : list A) (f : A -> M DevSt unit) :
  (forall a, steady (f a)) -> steady (for_each l f).
Proof.
  intros H. induction l as [|x r IH]; cbn [for_each]; [apply steady_ret|].
  apply steady_bind; auto.
Qed.

Lemma steady_srv_upd (f : Server -> Server) : steady (srv_upd f).
Proof.
  intros st. split; [|discriminate].
  split; [apply same_settings_refl|reflexivity].
Qed.

Lemma steady_record_call (c : Call) : steady (record_call c).
Proof.
  intros st. split; [|discriminate].
  split; [apply same_settings_refl|reflexivity].
Qed.

Lemma steady_srv_delay_callback (delay : Q) (cb : Callback) :
  steady (srv_delay_callback delay cb).
Proof.
  intros st. split; [|discriminate].
  split; [apply same_settings_refl|reflexivity].
Qed.

Lemma steady_self_upd (f : PowerDevice -> PowerDevice) :
  (forall d, same_settings d (f d)) -> steady (self_upd f).
Proof.
  intros H st. split; [|discriminate]. split; [apply H|reflexivity].
Qed.

(** The rules above, applied as far as they go. *)
Ltac steady_step :=
  first
    [ apply steady_ret | apply steady_raise
    | apply steady_self_get | apply steady_srv_get | apply steady_gets
    | apply steady_srv_upd | apply steady_record_call
    | apply steady_srv_delay_callback
    | apply steady_self_upd; intros ?; unfold same_settings; repeat split
    | apply steady_when
    | apply steady_for_each; intros ?
    | apply steady_bind; [|intros ?]
    | match goal with
      | |- steady (if ?b then _ else _) => destruct b
      | |- steady (match ?x with _ => _ end) => destruct x
      end ].

Ltac steady_tac := repeat steady_step.

Lemma steady_notify_power_changed : steady notify_power_changed.
Proof. unfold notify_power_changed. steady_tac. Qed.

Lemma steady_process_bound_services : steady process_bound_services.
Proof. unfold process_bound_services, bound_service_action. steady_tac. Qed.

Lemma steady_schedule_firmware_restart (k : KlippyState) :
  steady (_schedule_firmware_restart k).
Proof. unfold _schedule_firmware_restart. steady_tac. Qed.

Lemma steady_process_power_changed : steady process_power_changed.
Proof.
  unfold process_power_changed.
  apply steady_bind; [apply steady_notify_power_changed|intros _].
  apply steady_bind; [steady_tac|intros svcs].
  apply steady_bind;
    [destruct svcs; [apply steady_ret|apply steady_process_bound_services]|].
  intros _. do 2 (apply steady_bind; [steady_tac|intros ?]).
  destruct (_ && _); [|apply steady_ret].
  apply steady_bind; [steady_tac|intros _].
  apply steady_bind; [steady_tac|intros k].
  destruct (negb _); [apply steady_ret|apply steady_schedule_firmware_restart].
Qed.

Lemma steady_notify_or_process : steady notify_or_process.
Proof.
  unfold notify_or_process. apply steady_bind; [steady_tac|intros r].
  destruct r; [apply steady_notify_power_changed|apply steady_process_power_changed].
Qed.

Lemma steady_cancel_handle :
  steady (cancel_handle timer_handle upd_timer_handle).
Proof. unfold cancel_handle. steady_tac. Qed.

Lemma steady_check_timer : steady _check_timer.
Proof. unfold _check_timer. steady_tac. Qed.

Lemma steady_set_state (s : string) : steady (_set_state s).
Proof. unfold _set_state. steady_tac. Qed.

Lemma steady_gpio_set_power (s : string) : steady (gpio_set_power s).
Proof.
  unfold gpio_set_power.
  apply steady_bind; [apply steady_cancel_handle|intros _].
  do 2 (apply steady_bind; [steady_tac|intros ?]).
  apply steady_bind; [steady_tac|intros fails].
  destruct fails; [steady_tac|].
  apply steady_bind; [steady_tac|intros _]. apply steady_check_timer.
Qed.

Lemma steady_rf_set_power (s : string) : steady (rf_set_power s).
Proof.
  unfold rf_set_power.
  do 2 (apply steady_bind; [steady_tac|intros ?]).
  apply steady_bind; [steady_tac|intros fails].
  destruct fails; [steady_tac|].
  apply steady_bind; [steady_tac|intros _]. apply steady_check_timer.
Qed.

Lemma steady_klipper_set_power (s : string) : steady (klipper_set_power s).
Proof.
  unfold klipper_set_power, _reset_timer, _set_state_from_data.
  apply steady_bind; [steady_tac|intros shut].
  apply steady_bind; [steady_tac|intros nm].
  destruct shut; [apply steady_raise|].
  apply steady_bind; [apply steady_cancel_handle|intros _].
  do 2 (apply steady_bind; [steady_tac|intros ?]).
  apply steady_bind; [steady_tac|intros reply].
  destruct reply; [steady_tac..|].
  apply steady_bind; [apply steady_set_state|intros _]. apply steady_check_timer.
Qed.

Lemma steady_klipper_refresh_status : steady klipper_refresh_status.
Proof.
  unfold klipper_refresh_status, _set_state_from_data.
  do 2 (apply steady_bind; [steady_tac|intros ?]).
  destruct (_ || _); [apply steady_ret|].
  do 2 (apply steady_bind; [steady_tac|intros ?]).
  apply steady_bind; [steady_tac|intros data].
  destruct data as [| | |[v|]]; solve [steady_tac].
Qed.

Lemma steady_run_driver
    (f : PowerDevice -> Server -> Outcome * (string * Server)) :
  steady (run_driver f).
Proof.
  intros st. unfold run_driver.
  destruct (f (self st) (server (power st))) as [[|e] [s' srv']]; cbn [fst snd];
    (split; [|discriminate]); (split; [|reflexivity]);
    unfold same_settings; repeat split.
Qed.

Section SteadyRequests.

Variable driver : Driver.

Lemma steady_refresh_status : steady (refresh_status driver).
Proof.
  unfold refresh_status.
  do 2 (apply steady_bind; [steady_tac|intros ?]).
  apply steady_bind; [steady_tac|intros c].
  destruct c; try apply steady_ret.
  - apply steady_klipper_refresh_status.
  - apply steady_run_driver.
Qed.

Lemma steady_set_power (s : string) : steady (set_power driver s).
Proof.
  unfold set_power.
  do 2 (apply steady_bind; [steady_tac|intros ?]).
  apply steady_bind; [steady_tac|intros c].
  destruct c.
  - apply steady_gpio_set_power.
  - apply steady_rf_set_power.
  - apply steady_klipper_set_power.
  - apply steady_run_driver.
Qed.

Lemma steady_process_request_refreshed (base req : string) (force : bool) :
  steady (process_request_refreshed driver base req force).
Proof.
  unfold process_request_refreshed.
  apply steady_bind; [steady_tac|intros cur].
  destruct (Str.mem _ _).
  - destruct (String.eqb _ cur).
    + apply steady_bind; [|intros _; apply steady_ret].
      apply steady_when, steady_notify_or_process.
    + apply steady_bind; [apply steady_when; steady_tac|intros _].
      apply steady_bind; [apply steady_set_power|intros _].
      apply steady_bind; [steady_tac|intros ?].
      apply steady_bind; [apply steady_process_power_changed|intros _].
      apply steady_ret.
  - destruct (negb _); [apply steady_raise|].
    apply steady_bind; [|intros _; apply steady_ret].
    apply steady_when, steady_notify_or_process.
Qed.

End SteadyRequests.

(** ** Requests: lock, time stamp, settings *)

Section RequestFacts.

Variable driver : Driver.

Lemma acquired_settings (d d2 : PowerDevice) (q : Q) :
  request_lock d = false ->
  same_settings (upd_request_lock true d) d2 ->
  same_settings d (upd_request_lock false (upd_last_update_time q d2)).
Proof.
  unfold same_settings. cbn. intros Hl H.
  repeat match goal with H : _ /\ _ |- _ => destruct H end.
  repeat split; congruence.
Qed.

(** A request that finds the lock free comes to its end, and what it
    leaves is the state of its last step with the time stamped and the
    lock released. *)
Lemma process_request_ends (req : string) (force : bool) (st : DevSt) :
  request_lock (self st) = false ->
  exists r st2,
    process_request driver req force st = (r, released st2)
    /\ r <> Suspended
    /\ keeps (acquired st) st2.
Proof.
  intros Hl. rewrite process_request_run by assumption.
  destruct (steady_refresh_status driver (acquired st)) as [Hk Hs].
  destruct (refresh_status driver (acquired st)) as [[u|e|] st1];
    cbn [fst snd] in *; [| |contradiction].
  - destruct (steady_process_request_refreshed driver (state (self st)) req force st1)
      as [Hk2 Hs2].
    destruct (process_request_refreshed driver (state (self st)) req force st1)
      as [[s|e|] st2]; cbn [fst snd] in *; [| |contradiction].
    + exists (Ok s), st2. split; [reflexivity|]. split; [discriminate|].
      eapply keeps_trans; eassumption.
    + exists (Raise e), st2. split; [reflexivity|]. split; [discriminate|].
      eapply keeps_trans; eassumption.
  - exists (Raise e), st1. split; [reflexivity|]. split; [discriminate|assumption].
Qed.

(** X1: a request that finds the lock free never waits, and on every way
    out, by [return] or by an exception of the driver or the engine, the
    lock is released and [_last_update_time] is the loop time. *)
Theorem request_releases_lock_and_stamps (req : string) (force : bool)
    (st : DevSt) :
  request_lock (self st) = false ->
  fst (process_request driver req force st) <> Suspended
  /\ request_lock (self (snd (process_request driver req force st))) = false
  /\ _last_update_time (self (snd (process_request driver req force st))) =
     loop_time (server (power (snd (process_request driver req force st)))).
Proof.
  intros Hl. destruct (process_request_ends req force st Hl) as (r & st2 & H & Hr & _).
  rewrite H. cbn [fst snd]. split; [assumption|]. split; reflexivity.
Qed.

(** A request keeps the settings of its device and the registry, the
    lock included: it is held again, or free again, as it was. *)
Lemma process_request_keeps (req : string) (force : bool) (st : DevSt) :
  keeps st (snd (process_request driver req force st)).
Proof.
  destruct (request_lock (self st)) eqn:Hl.
  - unfold process_request, with_request_lock. rewrite Hl.
    destruct (String.eqb _ _ && true); apply keeps_refl.
  - destruct (process_request_ends req force st Hl) as (r & st2 & H & _ & Hs & Hd).
    rewrite H. cbn [snd]. split.
    + unfold released, stamp_update_time. cbn [self upd_self].
      apply acquired_settings; assumption.
    + unfold released, stamp_update_time. cbn. exact Hd.
Qed.

(** X2: a request to one device of the registry leaves the settings of
    that device as they were (name, type, flags, bound services, timer
    option, and the lock as it found it), leaves every other device
    untouched, and leaves the names of the registry and their order. *)
Theorem request_is_local (key req : string) (force : bool) (w : World)
    (d : PowerDevice) :
  Dict.get key (devices w) = Some d ->
  let w' := snd (with_self key (process_request driver req force) w) in
  (exists d', Dict.get key (devices w') = Some d' /\ same_settings d d')
  /\ (forall k, k <> key -> Dict.get k (devices w') = Dict.get k (devices w))
  /\ Dict.keys (devices w') = Dict.keys (devices w).
Proof.
  intros Hget. cbv zeta. unfold with_self. rewrite Hget.
  pose proof (process_request_keeps req force {| self := d; power := w |})
    as [Hs Hd].
  destruct (process_request driver req force {| self := d; power := w |})
    as [r st']. cbn [fst snd self power] in *.
  cbn [devices upd_devices]. rewrite Hd.
  split; [|split].
  - exists (self st'). split; [apply Dict_get_set_eq|assumption].
  - intros k Hk. now apply Dict_get_set_neq.
  - rewrite Dict_keys_set, Hget. reflexivity.
Qed.

(** X4: a request that is none of "on", "off", "toggle" and "status" is
    refused with "Unsupported power request", but only after the lock is
    taken and the device refreshed: the refresh is the one driver call,
    the state is the refreshed one, the lock is released. *)
Theorem unsupported_request_refused (req : string) (force : bool)
    (st st1 : DevSt) :
  request_lock (self st) = false ->
  refresh_status driver (acquired st) = (Ok tt, st1) ->
  Str.mem req ["on"; "off"; "toggle"; "status"] = false ->
  process_request driver req force st =
    (Raise (ServerError ("Unsupported power request: " ++ req)), released st1)
  /\ calls (power (released st1)) =
     calls (power st) ++ [CallRefreshStatus (name (self st))].
Proof.
  intros Hl Hr Hreq. rewrite process_request_run, Hr by assumption.
  split; [|exact (refreshed_calls driver _ _ _ Hr)].
  cbn [Str.mem existsb] in Hreq.
  repeat (apply orb_false_elim in Hreq; destruct Hreq as [? Hreq]).
  unfold process_request_refreshed. step.
  match goal with H : String.eqb req "toggle" = false |- _ => rewrite H end.
  cbn [Str.mem existsb].
  repeat match goal with H : String.eqb req _ = false |- _ => rewrite H; clear H end.
  reflexivity.
Qed.

End RequestFacts.

(** ** Frames *)

Section Frames.

Variable R : DevSt -> DevSt -> Prop.
Hypothesis R_refl : forall st, R st st.
Hypothesis R_trans : forall a b c, R a b -> R b c -> R a c.

Lemma frames_ret {A} (a : A) : frames R (ret a).
Proof. intros st. apply R_refl. Qed.

Lemma frames_raise {A} (e : exn) : frames R (@raise DevSt A e).
Proof. intros st. apply R_refl. Qed.

Lemma frames_gets {A} (f : DevSt -> A) : frames R (gets f).
Proof. intros st. apply R_refl. Qed.

Lemma frames_bind {A B} (m : M DevSt A) (k : A -> M DevSt B) :
  frames R m -> (forall a, frames R (k a)) -> frames R (bind m k).
Proof.
  intros Hm Hk st. unfold bind. specialize (Hm st).
  destruct (m st) as [[a|e|] st1]; cbn [snd] in *; try assumption.
  eapply R_trans; [eassumption|apply Hk].
Qed.

Lemma frames_when (c : bool) (m : M DevSt unit) :
  frames R m -> frames R (when c m).
Proof. intros H. destruct c; [assumption|apply frames_ret]. Qed.

Lemma frames_for_each {A} (l : list A) (f : A -> M DevSt unit) :
  (forall a, frames R (f a)) -> frames R (for_each l f).
Proof.
  intros H. induction l as [|x r IH]; cbn [for_each]; [apply frames_ret|].
  apply frames_bind; auto.
Qed.

End Frames.

Lemma same_calls_refl (st : DevSt) : same_calls st st.
Proof. reflexivity. Qed.

Lemma same_calls_trans (a b c : DevSt) :
  same_calls a b -> same_calls b c -> same_calls a c.
Proof. unfold same_calls. congruence. Qed.

Lemma same_loop_refl (st : DevSt) : same_loop st st.
Proof. split; reflexivity. Qed.

Lemma same_loop_trans (a b c : DevSt) :
  same_loop a b -> same_loop b c -> same_loop a c.
Proof. unfold same_loop. intuition congruence. Qed.

(** The frame rules, with the primitives closed by computation. *)
Ltac frames_with Hrefl Htrans :=
  repeat first
    [ apply (frames_ret _ Hrefl) | apply (frames_raise _ Hrefl)
    | apply (frames_gets _ Hrefl)
    | apply (frames_when _ Hrefl)
    | apply (frames_for_each _ Hrefl Htrans); intros ?
    | apply (frames_bind _ Htrans); [|intros ?]
    | match goal with
      | |- frames _ (if ?b then _ else _) => destruct b
      | |- frames _ (match ?x with _ => _ end) => destruct x
      end
    | solve [intros ?; split; reflexivity]
    | solve [intros ?; reflexivity] ].

Ltac calls_tac := frames_with same_calls_refl same_calls_trans.
Ltac loop_tac := frames_with same_loop_refl same_loop_trans.

Lemma calls_process_power_changed : frames same_calls process_power_changed.
Proof.
  unfold process_power_changed, notify_power_changed, process_bound_services,
    bound_service_action, _schedule_firmware_restart.
  calls_tac.
Qed.

Lemma calls_gpio_set_power (s : string) : frames same_calls (gpio_set_power s).
Proof. unfold gpio_set_power, cancel_handle, _check_timer. calls_tac. Qed.

Lemma calls_rf_set_power (s : string) : frames same_calls (rf_set_power s).
Proof. unfold rf_set_power, _check_timer. calls_tac. Qed.

Lemma calls_klipper_set_power (s : string) :
  frames same_calls (klipper_set_power s).
Proof.
  unfold klipper_set_power, _reset_timer, cancel_handle, _set_state_from_data,
    _set_state, _check_timer.
  calls_tac.
Qed.

Lemma calls_run_driver
    (f : PowerDevice -> Server -> Outcome * (string * Server)) :
  frames same_calls (run_driver f).
Proof.
  intros st. unfold run_driver.
  destruct (f (self st) (server (power st))) as [r [s' srv']]. reflexivity.
Qed.

(** [set_power] is one call of the driver, recorded as such. *)
Lemma set_power_calls (driver : Driver) (s : string) (st : DevSt) :
  calls (power (snd (set_power driver s st))) =
  calls (power st) ++ [CallSetPower (name (self st)) s].
Proof.
  unfold set_power. step. erewrite bind_ok by reflexivity. step.
  match goal with |- context [?m ?x] =>
    match x with upd_power _ st => set (st0 := x) end end.
  change (calls (power st) ++ [CallSetPower (name (self st)) s])
    with (calls (power st0)).
  change (cls (self st0)) with (cls (self st)).
  destruct (cls (self st)).
  - apply calls_gpio_set_power.
  - apply calls_rf_set_power.
  - apply calls_klipper_set_power.
  - apply calls_run_driver.
Qed.

Section TransitionFacts.

Variable driver : Driver.

Lemma refresh_keeps_name (st st1 : DevSt) (r : Res unit) :
  refresh_status driver (acquired st) = (r, st1) ->
  name (self st1) = name (self st).
Proof.
  intros H. destruct (steady_refresh_status driver (acquired st)) as [[Hs _] _].
  rewrite H in Hs. cbn [snd] in Hs. unfold same_settings in Hs.
  destruct Hs as (_ & Hn & _). exact Hn.
Qed.

(** The run of a request that goes to the driver. *)
Lemma transition_run_aux (req : string) (force : bool)
    (st st1 : DevSt) :
  request_lock (self st) = false ->
  refresh_status driver (acquired st) = (Ok tt, st1) ->
  req = "on" \/ req = "off" ->
  req <> state (self st1) ->
  force || negb (locked_while_printing (self st1) &&
                 kconn_is_printing (server (power st1))) = true ->
  process_request driver req force st =
    match set_power driver req st1 with
    | (Ok _, st2) =>
        (Ok (state (self st2)), released (snd (process_power_changed st2)))
    | (Raise e, st2) => (Raise e, released st2)
    | (Suspended, st2) => (Suspended, st2)
    end
  /\ calls (power (snd (process_request driver req force st))) =
     calls (power st) ++
     [CallRefreshStatus (name (self st)); CallSetPower (name (self st)) req].
Proof.
  intros Hl Hr Hreq Hne Hguard.
  assert (Hrun : process_request driver req force st =
            match set_power driver req st1 with
            | (Ok _, st2) =>
                (Ok (state (self st2)), released (snd (process_power_changed st2)))
            | (Raise e, st2) => (Raise e, released st2)
            | (Suspended, st2) => (Suspended, st2)
            end).
  { rewrite process_request_run, Hr by assumption.
    unfold process_request_refreshed. step.
    assert (Hmem : Str.mem req ["on"; "off"] = true)
      by (destruct Hreq; subst req; reflexivity).
    assert (Htog : String.eqb req "toggle" = false)
      by (destruct Hreq; subst req; reflexivity).
    apply String.eqb_neq in Hne. rewrite Htog, Hmem, Hne.
    assert (Hg : when (negb force)
               (locked <- self_get locked_while_printing ;;
                printing <- srv_get kconn_is_printing ;;
                nm <- self_get name ;;
                if locked && printing then
                  raise (ServerError ("Unable to change power for " ++ nm ++
                                      " while printing"))
                else ret tt) st1 = (Ok tt, st1)).
    { destruct force; [reflexivity|]. cbn [orb negb] in Hguard.
      apply negb_true_iff in Hguard. cbn [negb when]. do 3 step.
      rewrite Hguard. reflexivity. }
    rewrite (bind_ok _ _ _ _ _ Hg). unfold bind at 1.
    destruct (set_power driver req st1) as [[u|e|] st2]; try reflexivity.
    step.
    destruct (process_power_changed_spec st2) as (st3 & Hp & _).
    rewrite (bind_ok _ _ _ _ _ Hp), Hp. reflexivity. }
  split; [exact Hrun|].
  rewrite Hrun.
  pose proof (set_power_calls driver req st1) as Hc.
  rewrite (refreshed_calls driver _ _ _ Hr), (refresh_keeps_name _ _ _ Hr) in Hc.
  destruct (steady_set_power driver req st1) as [_ Hns].
  destruct (set_power driver req st1) as [[u|e|] st2]; cbn [fst snd] in *;
    [| |contradiction].
  - pose proof (calls_process_power_changed st2) as Hp. unfold same_calls in Hp.
    unfold released, stamp_update_time. cbn [power upd_self].
    rewrite Hp, Hc, <- app_assoc. reflexivity.
  - unfold released, stamp_update_time. cbn [power upd_self].
    rewrite Hc, <- app_assoc. reflexivity.
Qed.

(** X5: an "on" or "off" request for another state than the refreshed
    one, forced or with no print to protect ([locked_while_printing]
    unset or no print running), goes to the driver: [set_power] is called
    once, after the refresh.  If it returns, the side effects run and the
    state it left is returned; if it raises, the request raises the same
    and no side effect runs.  The lock is released either way. *)
Theorem transition_reaches_driver (req : string) (force : bool)
    (st st1 : DevSt) :
  request_lock (self st) = false ->
  refresh_status driver (acquired st) = (Ok tt, st1) ->
  req = "on" \/ req = "off" ->
  req <> state (self st1) ->
  force || negb (locked_while_printing (self st1) &&
                 kconn_is_printing (server (power st1))) = true ->
  process_request driver req force st =
    match set_power driver req st1 with
    | (Ok _, st2) =>
        (Ok (state (self st2)), released (snd (process_power_changed st2)))
    | (Raise e, st2) => (Raise e, released st2)
    | (Suspended, st2) => (Suspended, st2)
    end
  /\ calls (power (snd (process_request driver req force st))) =
     calls (power st) ++
     [CallRefreshStatus (name (self st)); CallSetPower (name (self st)) req].
Proof. apply transition_run_aux. Qed.

(** X6: a "status" request calls the driver once, for the refresh, and
    never [set_power]; when the refresh returns, the request returns the
    refreshed state. *)
Theorem status_request_only_refreshes (force : bool) (st : DevSt) :
  request_lock (self st) = false ->
  calls (power (snd (process_request driver "status" force st))) =
    calls (power st) ++ [CallRefreshStatus (name (self st))]
  /\ (forall st1,
        refresh_status driver (acquired st) = (Ok tt, st1) ->
        fst (process_request driver "status" force st) = Ok (state (self st1))).
Proof.
  intros Hl. rewrite process_request_run by assumption.
  destruct (refresh_status driver (acquired st)) as [[[]|e|] st1] eqn:Hr.
  - pose proof (refreshed_calls driver _ _ _ Hr) as Hc.
    unfold process_request_refreshed. step. str_simpl. unfold when.
    destruct (negb (String.eqb (state (self st)) (state (self st1)))).
    + destruct (notify_or_process_spec st1) as (st2 & Hn & _ & _ & Hc2).
      rewrite (bind_ok _ _ _ _ _ Hn). cbn [fst snd ret].
      split.
      * unfold released, stamp_update_time. cbn [power upd_self]. congruence.
      * intros st1' H. injection H as <-. reflexivity.
    + step. cbn [fst snd ret]. split.
      * exact Hc.
      * intros st1' H. injection H as <-. reflexivity.
  - split; [exact (refreshed_calls driver _ _ _ Hr)|]. intros st1' H. discriminate.
  - split; [exact (refreshed_calls driver _ _ _ Hr)|]. intros st1' H. discriminate.
Qed.

Lemma gpio_set_power_fails (s : string) (st : DevSt) :
  gpio_write_fails (server (power st)) (name (self st)) = true ->
  exists st',
    gpio_set_power s st =
      (Raise (ServerError ("Error Toggling Device Power: " ++ name (self st))), st')
    /\ state (self st') = "error"
    /\ timer_handle (self st') = None
    /\ request_lock (self st') = request_lock (self st)
    /\ events (trace (server (power st'))) = events (trace (server (power st)))
    /\ service_actions (trace (server (power st'))) =
       service_actions (trace (server (power st))).
Proof.
  intros Hfail.
  unfold gpio_set_power, cancel_handle, bind, self_get, srv_get, srv_upd,
    self_upd, gets, modify, raise, ret, log_exception, emit.
  cbn -[String.append].
  destruct (timer_handle (self st)) as [h|] eqn:Hh; cbn -[String.append];
    rewrite Hfail; cbn -[String.append];
    (eexists; split; [reflexivity|]);
    cbn -[String.append]; rewrite ?Hh, !events_app, !service_actions_app; cbn;
    rewrite !app_nil_r; repeat split.
Qed.

(** X7: the pin of a GPIO device cannot be written.  An "on" or "off"
    request for another state raises "Error Toggling Device Power"; the
    device is left in state "error" and without its auto-off timer, which
    was cancelled before the write; no [power:power_changed] is sent and
    no bound service is touched; the lock is released. *)
Theorem gpio_write_failure (req : string) (force : bool) (st : DevSt) :
  cls (self st) = GpioDevice ->
  request_lock (self st) = false ->
  req = "on" \/ req = "off" ->
  req <> state (self st) ->
  force || negb (locked_while_printing (self st) &&
                 kconn_is_printing (server (power st))) = true ->
  gpio_write_fails (server (power st)) (name (self st)) = true ->
  exists st',
    process_request driver req force st =
      (Raise (ServerError ("Error Toggling Device Power: " ++ name (self st))), st')
    /\ state (self st') = "error"
    /\ timer_handle (self st') = None
    /\ request_lock (self st') = false
    /\ events (trace (server (power st'))) = events (trace (server (power st)))
    /\ service_actions (trace (server (power st'))) =
       service_actions (trace (server (power st))).
Proof.
  intros Hcls Hl Hreq Hne Hguard Hfail.
  set (st1 := upd_power (upd_calls (calls (power st) ++
                 [CallRefreshStatus (name (self st))]) (power st)) (acquired st)).
  assert (Hr : refresh_status driver (acquired st) = (Ok tt, st1)).
  { unfold refresh_status. step. erewrite bind_ok by reflexivity. step.
    cbn [self acquired upd_self upd_power cls upd_request_lock]. rewrite Hcls.
    reflexivity. }
  destruct (transition_run_aux req force st st1 Hl Hr Hreq Hne Hguard) as [Hrun _].
  rewrite Hrun. clear Hrun.
  set (st2 := upd_power (upd_calls (calls (power st1) ++
                 [CallSetPower (name (self st1)) req]) (power st1)) st1).
  assert (Hs : set_power driver req st1 = gpio_set_power req st2).
  { unfold set_power. step. erewrite bind_ok by reflexivity. step.
    change (cls (self _)) with (cls (self st)). rewrite Hcls. reflexivity. }
  rewrite Hs.
  destruct (gpio_set_power_fails req st2 Hfail)
    as (st3 & H3 & Hstate & Hth & Hlock & Hev & Hsa).
  rewrite H3. exists (released st3). split; [reflexivity|].
  unfold released, stamp_update_time. cbn. auto.
Qed.

End TransitionFacts.

(** * The TP-Link framing *)

Module TPLinkFacts.
Import TPLink.
Local Open Scope Z_scope.

Lemma is_byteb_spec (c : Z) : is_byteb c = true <-> is_byte c.
Proof. unfold is_byteb, is_byte. lia. Qed.

Lemma log2_byte (a : Z) : 0 <= a < 256 -> Z.log2 a < 8.
Proof.
  intros H. destruct (Z.eq_dec a 0) as [->|Hne]; [reflexivity|].
  apply Z.log2_lt_pow2; lia.
Qed.

Lemma lxor_byte (a b : Z) : is_byte a -> is_byte b -> is_byte (Z.lxor a b).
Proof.
  unfold is_byte. intros Ha Hb.
  assert (Hnn : 0 <= Z.lxor a b) by (apply Z.lxor_nonneg; lia).
  split; [assumption|].
  destruct (Z.eq_dec (Z.lxor a b) 0) as [->|Hne]; [lia|].
  change 256 with (2 ^ 8). apply Z.log2_lt_pow2; [lia|].
  pose proof (Z.log2_lxor a b ltac:(lia) ltac:(lia)).
  pose proof (log2_byte a Ha). pose proof (log2_byte b Hb). lia.
Qed.

Lemma lxor_cancel (k c : Z) : Z.lxor k (Z.lxor k c) = c.
Proof. now rewrite <- Z.lxor_assoc, Z.lxor_nilpotent, Z.lxor_0_l. Qed.

(** The cipher loop on bytes: it does not fail, it gives as many bytes,
    and the loop of [_decrypt] with the same key undoes it. *)
Lemma encrypt_loop_spec (data : list Z) :
  forall key, is_byte key -> Forall is_byte data ->
  exists body,
    encrypt_loop key data = Some body
    /\ Forall is_byte body
    /\ length body = length data
    /\ decrypt_loop key body = data.
Proof.
  induction data as [|c r IH]; intros key Hk Hd.
  - exists []. repeat split. constructor.
  - inversion Hd as [|? ? Hc Hr]; subst.
    pose proof (lxor_byte key c Hk Hc) as Hv.
    destruct (IH (Z.lxor key c) Hv Hr) as (body & He & Hb & Hl & Hdec).
    exists (Z.lxor key c :: body). cbn [encrypt_loop decrypt_loop].
    rewrite (proj2 (is_byteb_spec _) Hv), He.
    repeat split.
    + constructor; assumption.
    + cbn. now rewrite Hl.
    + now rewrite lxor_cancel, Hdec.
Qed.

Lemma testbit_above (n i : Z) : 0 <= n < 2 ^ 32 -> 32 <= i -> Z.testbit n i = false.
Proof.
  intros Hn Hi. destruct (Z.eq_dec n 0) as [->|Hne]; [apply Z.bits_0|].
  apply Z.bits_above_log2; [lia|].
  assert (Z.log2 n < 32) by (apply Z.log2_lt_pow2; lia). lia.
Qed.

Lemma unpack_pack (n : Z) :
  0 <= n < 2 ^ 32 ->
  exists header,
    pack_I n = Some header /\ unpack_I header = Some n
    /\ length header = 4%nat /\ Forall is_byte header.
Proof.
  intros Hn. unfold pack_I.
  assert (Hin : ((0 <=? n) && (n <? 2 ^ 32))%Z = true) by lia.
  rewrite Hin. eexists. split; [reflexivity|]. split; [|split; [reflexivity|]].
  - cbn [unpack_I]. f_equal. apply Z.bits_inj'. intros i Hi.
    rewrite !Z.lor_spec, !Z.land_spec.
    change 255 with (Z.ones 8).
    destruct (Z.ltb_spec i 8).
    { rewrite !Z.shiftl_spec by lia.
      rewrite (Z.testbit_neg_r _ (i - 24)), (Z.testbit_neg_r _ (i - 16)),
        (Z.testbit_neg_r _ (i - 8)) by lia.
      rewrite Z.testbit_ones_nonneg by lia.
      cbn [orb]. destruct (Z.ltb_spec i 8); [|lia]. now rewrite andb_true_r. }
    destruct (Z.ltb_spec i 16).
    { rewrite !Z.shiftl_spec by lia.
      rewrite (Z.testbit_neg_r _ (i - 24)), (Z.testbit_neg_r _ (i - 16)) by lia.
      rewrite !Z.land_spec, Z.shiftr_spec by lia.
      rewrite !Z.testbit_ones_nonneg by lia.
      replace (i - 8 + 8) with i by lia.
      destruct (Z.ltb_spec (i - 8) 8); [|lia].
      destruct (Z.ltb_spec i 8); [lia|].
      cbn [orb]. now rewrite andb_true_r, andb_false_r, orb_false_r. }
    destruct (Z.ltb_spec i 24).
    { rewrite !Z.shiftl_spec by lia.
      rewrite (Z.testbit_neg_r _ (i - 24)) by lia.
      rewrite !Z.land_spec, !Z.shiftr_spec by lia.
      rewrite !Z.testbit_ones_nonneg by lia.
      replace (i - 16 + 16) with i by lia.
      destruct (Z.ltb_spec (i - 16) 8); [|lia].
      destruct (Z.ltb_spec (i - 8) 8); [lia|].
      destruct (Z.ltb_spec i 8); [lia|].
      cbn [orb]. now rewrite andb_true_r, !andb_false_r, !orb_false_r. }
    destruct (Z.ltb_spec i 32).
    { rewrite !Z.shiftl_spec by lia.
      rewrite !Z.land_spec, !Z.shiftr_spec by lia.
      rewrite !Z.testbit_ones_nonneg by lia.
      replace (i - 24 + 24) with i by lia.
      destruct (Z.ltb_spec (i - 24) 8); [|lia].
      destruct (Z.ltb_spec (i - 16) 8); [lia|].
      destruct (Z.ltb_spec (i - 8) 8); [lia|].
      destruct (Z.ltb_spec i 8); [lia|].
      now rewrite andb_true_r, !andb_false_r, !orb_false_r. }
    rewrite !Z.shiftl_spec by lia.
    rewrite !Z.land_spec, !Z.shiftr_spec by lia.
    rewrite !Z.testbit_ones_nonneg by lia.
    destruct (Z.ltb_spec (i - 24) 8); [lia|].
    destruct (Z.ltb_spec (i - 16) 8); [lia|].
    destruct (Z.ltb_spec (i - 8) 8); [lia|].
    destruct (Z.ltb_spec i 8); [lia|].
    rewrite !andb_false_r. cbn [orb]. symmetry. now apply testbit_above.
  - assert (Hb : forall x, 0 <= x -> is_byte (Z.land x 255)).
    { intros x Hx. unfold is_byte. change 255 with (Z.ones 8).
      rewrite Z.land_ones by lia. apply Z.mod_pos_bound. lia. }
    repeat constructor; apply Hb; try lia; apply Z.shiftr_nonneg; lia.
Qed.

(** The packet of a payload. *)
Lemma encrypt_decrypt_round_trip_aux (data : list Z) :
  Forall is_byte data ->
  Z.of_nat (length data) < 2 ^ 32 ->
  exists packet,
    _encrypt data = Some packet
    /\ Forall is_byte packet
    /\ length packet = (4 + length data)%nat
    /\ unpack_I (firstn 4 packet) = Some (Z.of_nat (length data))
    /\ _decrypt (skipn 4 packet) = data.
Proof.
  intros Hd Hlen.
  destruct (unpack_pack (Z.of_nat (length data)) ltac:(lia))
    as (header & Hp & Hu & Hl & Hb).
  assert (Hk : is_byte START_KEY) by (unfold is_byte, START_KEY; lia).
  destruct (encrypt_loop_spec data START_KEY Hk Hd) as (body & He & Hbb & Hbl & Hdec).
  exists (header ++ body). unfold _encrypt. rewrite Hp, He.
  split; [reflexivity|]. split; [apply Forall_app; auto|].
  split; [rewrite length_app; lia|].
  destruct header as [|a [|b [|c [|d [|]]]]]; try discriminate.
  split; [exact Hu|]. cbn [skipn app]. exact Hdec.
Qed.

(** X8: [_encrypt] and [_decrypt] are inverse on a payload of bytes
    shorter than 2^32: [_encrypt] does not fail, its packet is made of
    bytes, four more than the payload; the first four unpack to the length
    of the payload, and [_decrypt] of the rest is the payload. *)
Theorem encrypt_decrypt_round_trip (data : list Z) :
  Forall is_byte data ->
  Z.of_nat (length data) < 2 ^ 32 ->
  exists packet,
    _encrypt data = Some packet
    /\ Forall is_byte packet
    /\ length packet = (4 + length data)%nat
    /\ unpack_I (firstn 4 packet) = Some (Z.of_nat (length data))
    /\ _decrypt (skipn 4 packet) = data.
Proof. apply encrypt_decrypt_round_trip_aux. Qed.

Lemma decrypt_loop_length (data : list Z) :
  forall key, length (decrypt_loop key data) = length data.
Proof. induction data as [|c r IH]; intros key; cbn; auto. Qed.

Lemma read_remaining_done (retries : nat) (len : Z) (data : list Z)
    (stream : list (list Z)) :
  len = Z.of_nat (length data) ->
  read_remaining (S retries) len data stream = (data, S retries).
Proof.
  intros ->. cbn [read_remaining]. now rewrite Z.sub_diag.
Qed.

Lemma read_remaining_complete (retries : nat) (len : Z) :
  forall data stream out left,
    read_remaining retries len data stream = (out, S left) ->
    Z.of_nat (length out) = len.
Proof.
  induction retries as [|r IH]; intros data stream out left H;
    cbn [read_remaining] in H; [discriminate|].
  destruct (Z.eqb_spec (len - Z.of_nat (length data)) 0).
  - injection H as <- _. lia.
  - eapply IH. eassumption.
Qed.

Lemma read_remaining_gives_up (retries : nat) (len : Z) :
  forall data stream,
    (forall k, (k < retries)%nat ->
       Z.of_nat (length (data ++ concat (firstn k stream))) <> len) ->
    snd (read_remaining retries len data stream) = O.
Proof.
  induction retries as [|r IH]; intros data stream H; [reflexivity|].
  cbn [read_remaining].
  destruct (Z.eqb_spec (len - Z.of_nat (length data)) 0) as [E|E].
  - exfalso. apply (H O); [lia|]. cbn. rewrite app_nil_r. lia.
  - apply IH. intros k Hk. specialize (H (S k) ltac:(lia)).
    destruct stream as [|c s]; cbn [hd tl firstn concat] in *.
    + rewrite firstn_nil. cbn [concat]. rewrite !app_nil_r.
      now rewrite app_nil_r in H.
    + now rewrite <- app_assoc.
Qed.

(** X9: a packet made by [_encrypt] is received whole from the first
    read: whatever the stream holds after it, no retry is used and the
    payload comes back. *)
Theorem receive_encrypted (command : string) (data packet : list Z)
    (stream : list (list Z)) :
  Forall is_byte data ->
  Z.of_nat (length data) < 2 ^ 32 ->
  _encrypt data = Some packet ->
  receive command packet stream = Ok data.
Proof.
  intros Hd Hlen Henc.
  destruct (encrypt_decrypt_round_trip_aux data Hd Hlen)
    as (packet' & He & _ & Hpl & Hu & Hdec).
  rewrite He in Henc. injection Henc as <-.
  unfold receive. rewrite Hu.
  assert (Hl : Z.of_nat (length data) = Z.of_nat (length (skipn 4 packet'))).
  { rewrite length_skipn, Hpl. lia. }
  rewrite (read_remaining_done 4 _ _ stream Hl). now rewrite Hdec.
Qed.

(** X10: a payload that [_send_tplink_command] returns has the length its
    header announced. *)
Theorem receive_has_announced_length (command : string) (first out : list Z)
    (stream : list (list Z)) :
  receive command first stream = Ok out ->
  unpack_I (firstn 4 first) = Some (Z.of_nat (length out)).
Proof.
  unfold receive. destruct (unpack_I (firstn 4 first)) as [len|]; [|discriminate].
  destruct (read_remaining 5 len (skipn 4 first) stream) as [data left] eqn:E.
  destruct left as [|left]; [discriminate|]. intros H. injection H as <-.
  apply read_remaining_complete in E. unfold _decrypt.
  now rewrite decrypt_loop_length, E.
Qed.

(** X11: the retry budget.  When the packet is still incomplete after the
    first read and each of the next four, the command fails with "Error
    sending tplink command", even if the fifth read completes the
    packet: the loop leaves with no retry left, and that is taken for a
    failure. *)
Theorem receive_gives_up (command : string) (first : list Z)
    (stream : list (list Z)) (len : Z) :
  unpack_I (firstn 4 first) = Some len ->
  (forall k, (k < 5)%nat ->
     Z.of_nat (length (skipn 4 first ++ concat (firstn k stream))) <> len) ->
  receive command first stream =
  Raise (ServerError ("Error sending tplink command: " ++ command)).
Proof.
  intros Hu H. unfold receive. rewrite Hu.
  pose proof (read_remaining_gives_up 5 len (skipn 4 first) stream H) as Hs.
  destruct (read_remaining 5 len (skipn 4 first) stream) as [data left].
  cbn [snd] in Hs. now rewrite Hs.
Qed.

End TPLinkFacts.

(** * The bound services of a device *)

Module ServicesFacts.
Import Services.

Lemma before_last_app_service (s : string) :
  before_last "." (s ++ ".service") = Some s.
Proof.
  induction s as [|c r IH]; [reflexivity|].
  cbn [String.append before_last]. now rewrite IH.
Qed.

Lemma length_append (a b : string) :
  String.length (a ++ b) = (String.length a + String.length b)%nat.
Proof. induction a as [|c r IH]; cbn; auto. Qed.

Lemma substring_append_right (a b : string) :
  substring (String.length a) (String.length b) (a ++ b) = b.
Proof.
  induction a as [|c r IH]; cbn [String.length String.append substring].
  - induction b as [|c r IH]; cbn; [reflexivity|]. now rewrite IH.
  - exact IH.
Qed.

Lemma endswith_app (s suffix : string) : endswith (s ++ suffix) suffix = true.
Proof.
  unfold endswith. rewrite length_append.
  replace (String.length s + String.length suffix - String.length suffix)%nat
    with (String.length s) by lia.
  rewrite substring_append_right, String.eqb_refl.
  apply andb_true_intro. split; [apply Nat.leb_le; lia|reflexivity].
Qed.

(** X12: the unit suffix is dropped, and only it: for every name [s],
    also one with dots of its own, the service [s.service] is kept as
    [s]. *)
Theorem unit_name_drops_suffix (s : string) :
  unit_name (s ++ ".service") = s.
Proof.
  unfold unit_name, rsplit_head.
  now rewrite endswith_app, before_last_app_service.
Qed.

Lemma mem_In (s : string) (l : list string) : Str.mem s l = true <-> In s l.
Proof.
  unfold Str.mem. rewrite existsb_exists. split.
  - intros (x & Hin & Heq). apply String.eqb_eq in Heq. now subst.
  - intros H. exists s. split; [assumption|apply String.eqb_refl].
Qed.

Lemma collect_from (l : list string) :
  forall acc,
    NoDup acc ->
    let res := fold_left
                 (fun acc svc =>
                    let svc := unit_name svc in
                    if Str.mem svc acc then acc else acc ++ [svc]) l acc in
    NoDup res
    /\ (forall x, In x res <-> In x acc \/ exists svc, In svc l /\ x = unit_name svc).
Proof.
  induction l as [|svc r IH]; intros acc Hnd; cbn [fold_left].
  - split; [assumption|]. intros x. split; [auto|].
    intros [H|(svc & [] & _)]. assumption.
  - cbv zeta.
    destruct (Str.mem (unit_name svc) acc) eqn:E.
    + destruct (IH acc Hnd) as [H1 H2]. split; [assumption|].
      intros x. rewrite H2. apply mem_In in E. split.
      * intros [H|(s' & Hin & ->)]; [now left|].
        right. exists s'. split; [now right|reflexivity].
      * intros [H|(s' & [<-|Hin] & ->)]; [now left|now left|].
        right. exists s'. split; [assumption|reflexivity].
    + assert (Hnd' : NoDup (acc ++ [unit_name svc])).
      { apply NoDup_app; [assumption|repeat constructor; cbn; tauto|].
        intros x Hx [<-|[]]. apply mem_In in Hx. congruence. }
      destruct (IH _ Hnd') as [H1 H2]. split; [assumption|].
      intros x. rewrite H2, in_app_iff. cbn [In]. split.
      * intros [[H|[<-|[]]]|(s' & Hin & ->)]; [now left| |].
        -- right. exists svc. split; [now left|reflexivity].
        -- right. exists s'. split; [now right|reflexivity].
      * intros [H|(s' & [<-|Hin] & ->)]; [now left; left|now left; right; left|].
        right. exists s'. split; [assumption|reflexivity].
Qed.

(** X13: the services a device is bound to, as the constructor collects
    them from [bound_services] and the deprecated [bound_service]: no
    service is kept twice, every configured service is kept under its
    unit name, and nothing else is kept. *)
Theorem collect_bound_services (bound_services : list string)
    (bound_service : option string) :
  let kept := collect (configured bound_services bound_service) in
  NoDup kept
  /\ (forall svc, In svc bound_services -> In (unit_name svc) kept)
  /\ (forall svc, bound_service = Some svc -> In (unit_name svc) kept)
  /\ (forall x, In x kept ->
        exists svc, (In svc bound_services \/ bound_service = Some svc)
                    /\ x = unit_name svc).
Proof.
  cbv zeta. unfold collect.
  destruct (collect_from (configured bound_services bound_service) [] (NoDup_nil _))
    as [Hnd Hin].
  cbv zeta in Hnd, Hin. split; [assumption|].
  split; [|split].
  - intros svc H. apply Hin. right. exists svc. split; [|reflexivity].
    unfold configured. destruct bound_service; [apply in_or_app|]; auto.
  - intros svc ->. apply Hin. right. exists svc. split; [|reflexivity].
    cbn [configured]. apply in_or_app. right. now left.
  - intros x Hx. apply Hin in Hx. destruct Hx as [[]|(svc & Hs & ->)].
    exists svc. split; [|reflexivity].
    unfold configured in Hs. destruct bound_service as [b|]; [|now left].
    apply in_app_or in Hs. destruct Hs as [Hs|[<-|[]]]; [now left|now right].
Qed.

End ServicesFacts.

(** * HTTP devices *)

Section HTTPFacts.

Variable t : Transport.
Variables verbose in_poll_task : bool.

Let http := HTTPDevice t verbose in_poll_task.

(** The refresh of an HTTP device never raises. *)
Lemma http_refresh_run (st : DevSt) :
  cls (self st) = OtherDevice ->
  exists st1,
    refresh_status http (acquired st) = (Ok tt, st1)
    /\ self st1 =
       upd_state
         (match fst (_send_status_request t (self (acquired st)) (server (power st))) with
          | inl _ => "error"
          | inr s => s
          end) (self (acquired st))
    /\ server (power st1) =
       match _send_status_request t (self (acquired st)) (server (power st)) with
       | (inl _, s') =>
           if _should_log_error verbose in_poll_task
           then log_exception ("Error Refreshing Device Status: " ++ name (self st)) s'
           else s'
       | (inr _, s') => s'
       end.
Proof.
  intros Hcls. unfold refresh_status. step. erewrite bind_ok by reflexivity. step.
  change (cls (self _)) with (cls (self st)). rewrite Hcls.
  unfold run_driver, http, HTTPDevice, http_refresh_status.
  cbn [drv_refresh_status self power upd_power server upd_calls].
  change (server (power (acquired st))) with (server (power st)).
  change (name (self (acquired st))) with (name (self st)).
  destruct (_send_status_request t (self (acquired st)) (server (power st)))
    as [[e|s] srv']; cbn [fst snd];
    (eexists; split; [reflexivity|]; split; reflexivity).
Qed.

Lemma process_power_changed_error (st : DevSt) :
  state (self st) = "error" ->
  process_power_changed st =
  (Ok tt, add_trace [SendEvent "power:power_changed" (get_device_info (self st))] st).
Proof.
  intros Hs. unfold process_power_changed.
  erewrite bind_ok by apply notify_power_changed_run. step.
  cbn [self add_trace upd_power].
  set (st1 := add_trace _ st).
  assert (Hb : match bound_services (self st) with
               | [] => ret tt
               | _ => process_bound_services
               end st1 = (Ok tt, st1)).
  { destruct (bound_services (self st)); [reflexivity|].
    rewrite process_bound_services_run. unfold bound_services_effects.
    change (state (self st1)) with (state (self st)). rewrite Hs.
    str_simpl. now rewrite add_trace_nil. }
  erewrite bind_ok by apply Hb. do 2 step.
  change (state (self st1)) with (state (self st)). rewrite Hs. reflexivity.
Qed.

Lemma notify_or_process_error (st : DevSt) :
  state (self st) = "error" ->
  notify_or_process st =
  (Ok tt, add_trace [SendEvent "power:power_changed" (get_device_info (self st))] st).
Proof.
  intros Hs. unfold notify_or_process. step.
  destruct (restrict_actions (self st));
    [apply notify_power_changed_run|now apply process_power_changed_error].
Qed.

(** X14: the status of an HTTP device cannot be fetched.  A "status"
    request does not fail: it returns "error" and leaves the device in
    state "error" with the lock released.  To the trace of the transport
    it adds the log of the exception, unless the request comes from the
    poll task with verbose logging off, and one [power:power_changed]
    with status "error", unless the state was "error" already; no
    service is touched and no restart arranged, whatever
    [restrict_action_processing] says. *)
Theorem http_status_failure (force : bool) (st : DevSt) (e : exn) (srv' : Server) :
  cls (self st) = OtherDevice ->
  request_lock (self st) = false ->
  _send_status_request t (self (acquired st)) (server (power st)) = (inl e, srv') ->
  exists st',
    process_request http "status" force st = (Ok "error", st')
    /\ state (self st') = "error"
    /\ request_lock (self st') = false
    /\ trace (server (power st')) =
       trace srv' ++
       (if _should_log_error verbose in_poll_task
        then [LogException ("Error Refreshing Device Status: " ++ name (self st))]
        else []) ++
       (if String.eqb (state (self st)) "error" then []
        else [SendEvent "power:power_changed"
                (get_device_info (upd_state "error" (self st)))])
    /\ timers (server (power st')) = timers srv'
    /\ callbacks (server (power st')) = callbacks srv'.
Proof.
  intros Hcls Hl Ht.
  destruct (http_refresh_run st Hcls) as (st1 & Hr & Hself & Hsrv).
  rewrite Ht in Hself, Hsrv. cbn [fst snd] in Hself, Hsrv.
  rewrite process_request_run, Hr by assumption.
  unfold process_request_refreshed. step. str_simpl.
  assert (Hstate : state (self st1) = "error") by (now rewrite Hself).
  rewrite Hstate. unfold when.
  destruct (String.eqb (state (self st)) "error") eqn:Hwas; cbn [negb].
  - step. eexists. split; [reflexivity|].
    unfold released, stamp_update_time. cbn. rewrite Hsrv.
    split; [assumption|]. split; [reflexivity|].
    destruct (_should_log_error verbose in_poll_task); cbn;
      rewrite ?app_nil_r; repeat split.
  - erewrite bind_ok by (apply notify_or_process_error; exact Hstate).
    eexists. split; [reflexivity|].
    unfold released, stamp_update_time, add_trace. cbn. rewrite Hsrv, Hself.
    split; [reflexivity|]. split; [reflexivity|].
    destruct (_should_log_error verbose in_poll_task); cbn;
      rewrite <- ?app_assoc; repeat split.
Qed.

(** [set_power] of an HTTP device, from the answer of the transport. *)
Lemma http_set_power_run (req : string) (st1 : DevSt) :
  cls (self st1) = OtherDevice ->
  set_power http req st1 =
  match _send_power_request t req (self st1) (server (power st1)) with
  | (inl _, srv') =>
      let msg := ("Error Setting Device Status: " ++ name (self st1) ++ " to " ++ req)%string in
      (Raise (ServerError msg),
       {| self := upd_state "error" (self st1);
          power := upd_server (log_exception msg srv')
                     (upd_calls (calls (power st1) ++
                                 [CallSetPower (name (self st1)) req]) (power st1)) |})
  | (inr s', srv') =>
      (Ok tt,
       {| self := upd_state s' (self st1);
          power := upd_server srv'
                     (upd_calls (calls (power st1) ++
                                 [CallSetPower (name (self st1)) req]) (power st1)) |})
  end.
Proof.
  intros Hcls. unfold set_power. step. erewrite bind_ok by reflexivity. step.
  change (cls (self _)) with (cls (self st1)). rewrite Hcls.
  unfold run_driver, http, HTTPDevice, http_set_power.
  cbn [drv_set_power self power upd_power server upd_calls].
  destruct (_send_power_request t req (self st1) (server (power st1)))
    as [[e|s'] srv']; reflexivity.
Qed.

(** X15: a power request to an HTTP device ends as the transport
    answers.  If the device answers with a state, the request returns
    that state, also when it is not the state asked for, and one
    [power:power_changed] reports it.  If the transport raises, the
    request raises "Error Setting Device Status: <name> to <state>", the
    device is left in state "error", the error is logged and no
    [power:power_changed] is sent. *)
Theorem http_power_request (req : string) (force : bool) (st st1 : DevSt) :
  cls (self st) = OtherDevice ->
  request_lock (self st) = false ->
  refresh_status http (acquired st) = (Ok tt, st1) ->
  req = "on" \/ req = "off" ->
  req <> state (self st1) ->
  force || negb (locked_while_printing (self st1) &&
                 kconn_is_printing (server (power st1))) = true ->
  match _send_power_request t req (self st1) (server (power st1)) with
  | (inr s', srv') =>
      exists st',
        process_request http req force st = (Ok s', st')
        /\ state (self st') = s'
        /\ request_lock (self st') = false
        /\ events (trace (server (power st'))) =
           events (trace srv') ++
           [("power:power_changed", get_device_info (upd_state s' (self st1)))]
  | (inl _, srv') =>
      let msg := ("Error Setting Device Status: " ++ name (self st) ++ " to " ++ req)%string in
      exists st',
        process_request http req force st = (Raise (ServerError msg), st')
        /\ state (self st') = "error"
        /\ request_lock (self st') = false
        /\ trace (server (power st')) = trace srv' ++ [LogException msg]
  end.
Proof.
  intros Hcls Hl Hr Hreq Hne Hguard.
  destruct (transition_run_aux http req force st st1 Hl Hr Hreq Hne Hguard)
    as [Hrun _].
  destruct (steady_refresh_status http (acquired st)) as [[Hs _] _].
  rewrite Hr in Hs. cbn [snd] in Hs. destruct Hs as (Hc & Hn & _).
  cbn [self acquired upd_self cls name upd_request_lock] in Hc, Hn.
  rewrite Hcls in Hc.
  rewrite (http_set_power_run req st1 Hc) in Hrun.
  destruct (_send_power_request t req (self st1) (server (power st1)))
    as [[e|s'] srv'].
  - cbv zeta in Hrun |- *. rewrite Hn in Hrun.
    eexists. split; [exact Hrun|]. repeat split.
  - match type of Hrun with
      _ = (_, released (snd (process_power_changed ?x))) => set (st2 := x) in *
    end.
    destruct (process_power_changed_spec st2) as (st3 & Hp & Hst & _ & _ & Hev & _).
    rewrite Hp in Hrun. cbn [snd] in Hrun.
    exists (released st3). split; [exact Hrun|].
    unfold released, stamp_update_time. cbn.
    split; [now rewrite Hst|]. split; [reflexivity|]. exact Hev.
Qed.

End HTTPFacts.

(** * Klipper devices when Klippy goes away *)

Lemma cancel_handle_frame (st st' : DevSt) :
  cancel_handle timer_handle upd_timer_handle st = (Ok tt, st') ->
  timer_handle (self st') = None
  /\ state (self st') = state (self st)
  /\ is_shutdown (self st') = is_shutdown (self st)
  /\ request_lock (self st') = request_lock (self st)
  /\ _last_update_time (self st') = _last_update_time (self st)
  /\ callbacks (server (power st')) = callbacks (server (power st))
  /\ trace (server (power st')) = trace (server (power st)).
Proof.
  unfold cancel_handle, bind, self_get, srv_upd, self_upd, gets, modify, ret.
  cbv beta iota.
  destruct (timer_handle (self st)) as [h|] eqn:Hh; intros H; injection H as <-;
    cbn; repeat split; assumption.
Qed.

(** The three steps [KlipperDevice.process_klippy_shutdown] and
    [_handle_disconnect] share. *)
Lemma klipper_reset_run (shut : bool) (s : string) (st : DevSt) :
  one_auto_off (self st) (server (power st)) ->
  exists st',
    (self_upd (upd_is_shutdown shut) ;; _set_state s ;; _reset_timer) st = (Ok tt, st')
    /\ is_shutdown (self st') = shut
    /\ state (self st') = s
    /\ timer_handle (self st') = None
    /\ request_lock (self st') = request_lock (self st)
    /\ _last_update_time (self st') = loop_time (server (power st))
    /\ scheduled (is_auto_off (name (self st))) (server (power st')) = []
    /\ callbacks (server (power st')) =
       callbacks (server (power st)) ++
       (if negb (Str.mem (state (self st)) [s; "init"]) &&
           negb (request_lock (self st))
        then [CbNotifyExternalChange (name (self st))] else [])
    /\ trace (server (power st')) = trace (server (power st)).
Proof.
  intros Hinv. erewrite bind_ok by reflexivity.
  set (st0 := upd_self (upd_is_shutdown shut (self st)) st).
  assert (H1 : exists st1,
            _set_state s st0 = (Ok tt, st1)
            /\ self st1 = upd_last_update_time (loop_time (server (power st)))
                            (upd_state s (self st0))
            /\ timers (server (power st1)) = timers (server (power st))
            /\ trace (server (power st1)) = trace (server (power st))
            /\ callbacks (server (power st1)) =
               callbacks (server (power st)) ++
               (if negb (Str.mem (state (self st)) [s; "init"]) &&
                   negb (request_lock (self st))
                then [CbNotifyExternalChange (name (self st))] else [])).
  { unfold _set_state. do 2 step. erewrite bind_ok by reflexivity.
    step. erewrite bind_ok by reflexivity.
    change (state (self st0)) with (state (self st)).
    change (request_lock (self st0)) with (request_lock (self st)).
    destruct (negb (Str.mem (state (self st)) [s; "init"]) &&
              negb (request_lock (self st))).
    - step. eexists. split; [reflexivity|]. repeat split.
    - eexists. split; [reflexivity|]. cbn. rewrite app_nil_r. repeat split. }
  destruct H1 as (st1 & Hs & Hself & Htm & Htr & Hcb).
  erewrite bind_ok by apply Hs.
  assert (Hinv1 : one_auto_off (self st1) (server (power st1))).
  { intros i x Hi Hx. rewrite Htm in Hi. rewrite Hself in Hx |- *.
    exact (Hinv i x Hi Hx). }
  destruct (cancel_handle_clears st1 Hinv1) as (st2 & H2 & Hnone & _).
  assert (Hn1 : name (self st1) = name (self st)) by (now rewrite Hself).
  rewrite Hn1 in Hnone.
  destruct (cancel_handle_frame st1 st2 H2)
    as (Hth & Hst & Hsh & Hlk & Htime & Hcb2 & Htr2).
  unfold _reset_timer. rewrite H2. exists st2. split; [reflexivity|].
  rewrite Hsh, Hst, Hlk, Htime, Hcb2, Htr2, Hself, Hcb, Htr. cbn.
  repeat split; try assumption. now apply no_auto_off_scheduled.
Qed.

(** X16: Klippy shuts down or disconnects.  A Klipper device is left in
    state "error" and marked shut down, or in state "init" and not shut
    down; its auto-off timer is cancelled, so that none can fire; and a
    change of state seen while no request holds the lock queues the
    notification of an external change. *)
Theorem klippy_gone_resets_device (st : DevSt) :
  cls (self st) = KlipperDevice ->
  one_auto_off (self st) (server (power st)) ->
  (exists st',
     process_klippy_shutdown st = (Ok tt, st')
     /\ is_shutdown (self st') = true
     /\ state (self st') = "error"
     /\ timer_handle (self st') = None
     /\ scheduled (is_auto_off (name (self st))) (server (power st')) = []
     /\ callbacks (server (power st')) =
        callbacks (server (power st)) ++
        (if negb (Str.mem (state (self st)) ["error"; "init"]) &&
            negb (request_lock (self st))
         then [CbNotifyExternalChange (name (self st))] else []))
  /\
  (exists st',
     _handle_disconnect st = (Ok tt, st')
     /\ is_shutdown (self st') = false
     /\ state (self st') = "init"
     /\ timer_handle (self st') = None
     /\ scheduled (is_auto_off (name (self st))) (server (power st')) = []
     /\ callbacks (server (power st')) =
        callbacks (server (power st)) ++
        (if negb (Str.mem (state (self st)) ["init"; "init"]) &&
            negb (request_lock (self st))
         then [CbNotifyExternalChange (name (self st))] else [])).
Proof.
  intros Hcls Hinv. split.
  - destruct (klipper_reset_run true "error" st Hinv)
      as (st' & H & H1 & H2 & H3 & _ & _ & H6 & H7 & _).
    exists st'. split; [|auto].
    unfold process_klippy_shutdown. step. rewrite Hcls. exact H.
  - destruct (klipper_reset_run false "init" st Hinv)
      as (st' & H & H1 & H2 & H3 & _ & _ & H6 & H7 & _).
    exists st'. split; [exact H|auto].
Qed.

Section KlipperShutdownFacts.

Variable driver : Driver.

(** X17: while Klippy is shut down, a Klipper device is not asked
    anything.  A "status" request returns the stored state without a
    query to Klippy, and an "on" or "off" request for another state is
    refused with "Cannot set power for device when Klipper is shutdown"
    before any gcode is run; the trace and the state stay as they were. *)
Theorem klipper_shutdown_refuses_power (req : string) (force : bool) (st : DevSt) :
  cls (self st) = KlipperDevice ->
  is_shutdown (self st) = true ->
  request_lock (self st) = false ->
  (exists st',
     process_request driver "status" force st = (Ok (state (self st)), st')
     /\ state (self st') = state (self st)
     /\ trace (server (power st')) = trace (server (power st)))
  /\
  (req = "on" \/ req = "off" ->
   req <> state (self st) ->
   force || negb (locked_while_printing (self st) &&
                  kconn_is_printing (server (power st))) = true ->
   exists st',
     process_request driver req force st =
       (Raise (ServerError ("Power Device " ++ name (self st) ++
                ": Cannot set power for device when Klipper is shutdown")), st')
     /\ state (self st') = state (self st)
     /\ request_lock (self st') = false
     /\ trace (server (power st')) = trace (server (power st))).
Proof.
  intros Hcls Hshut Hl.
  set (st1 := upd_power (upd_calls (calls (power st) ++
                 [CallRefreshStatus (name (self st))]) (power st)) (acquired st)).
  assert (Hr : refresh_status driver (acquired st) = (Ok tt, st1)).
  { unfold refresh_status. step. erewrite bind_ok by reflexivity. step.
    cbn [self acquired upd_self upd_power cls upd_request_lock]. rewrite Hcls.
    unfold klipper_refresh_status. do 2 step.
    cbn [self acquired upd_self upd_power is_shutdown upd_request_lock].
    rewrite Hshut. reflexivity. }
  split.
  - rewrite process_request_run, Hr by assumption.
    unfold process_request_refreshed. step. str_simpl.
    change (state (self st1)) with (state (self st)).
    rewrite String.eqb_refl. cbn [negb when]. step.
    eexists. split; [reflexivity|]. split; reflexivity.
  - intros Hreq Hne Hguard.
    destruct (transition_run_aux driver req force st st1 Hl Hr Hreq Hne Hguard)
      as [Hrun _].
    rewrite Hrun.
    assert (Hs : set_power driver req st1 =
                 (Raise (ServerError ("Power Device " ++ name (self st) ++
                    ": Cannot set power for device when Klipper is shutdown")),
                  upd_power (upd_calls (calls (power st1) ++
                     [CallSetPower (name (self st1)) req]) (power st1)) st1)).
    { unfold set_power. step. erewrite bind_ok by reflexivity. step.
      change (cls (self _)) with (cls (self st)). rewrite Hcls.
      unfold klipper_set_power. do 2 step.
      change (is_shutdown (self _)) with (is_shutdown (self st)). rewrite Hshut.
      reflexivity. }
    rewrite Hs. eexists. split; [reflexivity|]. repeat split.
Qed.

End KlipperShutdownFacts.

(** * More of the registry and of the event handlers *)

Lemma normalize_request_cases (state : PyVal) :
  Str.mem (normalize_request state) ["on"; "off"; "toggle"] = true ->
  normalize_request state = "on" \/ normalize_request state = "off"
  \/ normalize_request state = "toggle".
Proof.
  cbn [Str.mem existsb]. intros H.
  repeat (apply orb_prop in H; destruct H as [H|H]);
    try (apply String.eqb_eq in H; auto); discriminate.
Qed.

(** X18: [set_device_power] never raises and never touches a device, a
    timer or the driver; it queues nothing, or one request for a
    registered device, and the request it queues is "on", "off" or
    "toggle" with the [force] it was given. *)
Theorem set_device_power_queues_valid_request (device : string) (state : PyVal)
    (force : bool) (w : World) :
  exists w',
    set_device_power device state force w = (Ok tt, w')
    /\ devices w' = devices w
    /\ calls w' = calls w
    /\ timers (server w') = timers (server w)
    /\ (callbacks (server w') = callbacks (server w)
        \/ (Dict.mem device (devices w) = true
            /\ exists req,
                 (req = "on" \/ req = "off" \/ req = "toggle")
                 /\ callbacks (server w') =
                    callbacks (server w) ++ [CbProcessRequest device req force])).
Proof.
  unfold set_device_power.
  destruct (Str.mem (normalize_request state) ["on"; "off"; "toggle"]) eqn:E;
    cbn [negb].
  - step. destruct (Dict.mem device (devices w)) eqn:Hm; cbn [negb].
    + eexists. split; [reflexivity|]. repeat split. right. split; [reflexivity|].
      exists (normalize_request state). split; [|reflexivity].
      now apply normalize_request_cases.
    + eexists. split; [reflexivity|]. repeat split. now left.
  - eexists. split; [reflexivity|]. repeat split. now left.
Qed.

Lemma lower_ascii_idempotent (c : ascii) :
  Str.lower_ascii (Str.lower_ascii c) = Str.lower_ascii c.
Proof. destruct c as [[] [] [] [] [] [] [] []]; reflexivity. Qed.

Lemma lower_idempotent (s : string) : Str.lower (Str.lower s) = Str.lower s.
Proof.
  induction s as [|c r IH]; [reflexivity|].
  cbn [Str.lower]. now rewrite lower_ascii_idempotent, IH.
Qed.

(** X19: the state word of [set_device_power] is read without its case:
    a word that is accepted gives the same call as its lowercase form
    (so "On", "ON" and "on" are one request, and "True", "TRUE" and
    "true" another). *)
Theorem set_device_power_ignores_case (device s : string) (force : bool)
    (w : World) :
  Str.mem (normalize_request (VStr s)) ["on"; "off"; "toggle"] = true ->
  set_device_power device (VStr s) force w =
  set_device_power device (VStr (Str.lower s)) force w.
Proof.
  intros Hok.
  assert (Hn : normalize_request (VStr (Str.lower s)) = normalize_request (VStr s)).
  { cbn [normalize_request]. now rewrite lower_idempotent. }
  unfold set_device_power. rewrite Hn, Hok. reflexivity.
Qed.

(** X20: a shutdown of Klippy and a device without a delay.  With
    [off_when_shutdown] unset nothing happens.  With it set and a delay of
    zero the "off" request ([force=False]) is queued at once if Klippy is
    in shutdown, and nothing is queued otherwise; no timer is armed. *)
Theorem shutdown_without_delay (w : World) (nm : string) (d : PowerDevice) :
  Dict.get nm (devices w) = Some d ->
  name d = nm ->
  cls d <> KlipperDevice ->
  (off_when_shutdown d = false ->
     with_self nm process_klippy_shutdown w = (Ok tt, w))
  /\
  (off_when_shutdown d = true ->
   Qeq_bool (off_when_shutdown_delay d) 0 = true ->
   exists w',
     with_self nm process_klippy_shutdown w = (Ok tt, w')
     /\ callbacks (server w') =
        (if KlippyState_eqb (kconn_state (server w)) SHUTDOWN
         then callbacks (server w) ++ [CbProcessRequest nm "off" false]
         else callbacks (server w))
     /\ timers (server w') = timers (server w)).
Proof.
  intros Hget Hname Hcls.
  assert (Hbody : forall st, self st = d ->
            process_klippy_shutdown st =
            (enabled <- self_get off_when_shutdown ;;
             if negb enabled then ret tt
             else
               delay <- self_get off_when_shutdown_delay ;;
               if Qeq_bool delay 0 then _power_off_on_shutdown
               else
                 cancel_handle shutdown_timer_handle upd_shutdown_timer_handle ;;
                 nm <- self_get name ;;
                 h <- srv_delay_callback delay (CbPowerOffOnShutdown nm) ;;
                 self_upd (upd_shutdown_timer_handle (Some h))) st).
  { intros st Hst. unfold process_klippy_shutdown. step. rewrite Hst.
    destruct (cls d); try reflexivity. contradiction. }
  split.
  - intros Hoff. unfold with_self.
    rewrite Hget, (Hbody {| self := d; power := w |} eq_refl).
    step. cbn [self]. rewrite Hoff. cbn [negb ret snd fst self power].
    rewrite (Dict_set_same _ _ _ Hget). now destruct w.
  - intros Hon Hzero.
    destruct (power_off_on_shutdown_run w nm d Hget Hname)
      as (w' & Hrun & Hcb & Htm & _).
    exists w'. split; [|split; assumption].
    unfold with_self in *. rewrite Hget in *.
    rewrite (Hbody {| self := d; power := w |} eq_refl).
    step. cbn [self]. rewrite Hon. cbn [negb]. step. cbn [self].
    rewrite Hzero. exact Hrun.
Qed.

(** X21: one power-on, one restart at most.  The handler of
    [server:klippy_started] does nothing unless a restart is pending; when
    one is, it clears the flag, and arms one [FIRMWARE_RESTART] after
    [restart_delay] unless Klippy reports ready.  Called again, whatever
    the state of Klippy, it does nothing. *)
Theorem firmware_restart_at_most_once (k k2 : KlippyState) (st : DevSt) :
  (need_scheduled_restart (self st) = false ->
     _schedule_firmware_restart k st = (Ok tt, st))
  /\
  (need_scheduled_restart (self st) = true ->
   exists st',
     _schedule_firmware_restart k st = (Ok tt, st')
     /\ need_scheduled_restart (self st') = false
     /\ timers (server (power st')) =
        timers (server (power st)) ++
        (if KlippyState_eqb k READY then []
         else [new_timer (restart_delay (self st))
                 (CbDoRestart "FIRMWARE_RESTART" true)])
     /\ _schedule_firmware_restart k2 st' = (Ok tt, st')).
Proof.
  split; intros Hneed.
  - unfold _schedule_firmware_restart. step. now rewrite Hneed.
  - unfold _schedule_firmware_restart at 1. step. rewrite Hneed. cbn [negb].
    erewrite bind_ok by reflexivity. step.
    destruct (KlippyState_eqb k READY).
    + eexists. split; [reflexivity|]. cbn. rewrite app_nil_r.
      repeat split.
    + erewrite bind_ok by reflexivity. step. erewrite bind_ok by reflexivity.
      eexists. split; [reflexivity|]. repeat split.
Qed.

(** * Jobs queued *)

Section JobQueueFacts.

Variable driver : Driver.

Lemma with_self_request_other (n k req : string) (force : bool) (w : World) :
  k <> n ->
  Dict.get k (devices (snd (with_self n (process_request driver req force) w))) =
  Dict.get k (devices w).
Proof.
  intros Hne. unfold with_self.
  destruct (Dict.get n (devices w)) as [d|] eqn:Hget; [|reflexivity].
  pose proof (process_request_keeps driver req force {| self := d; power := w |})
    as [_ Hd].
  destruct (process_request driver req force {| self := d; power := w |})
    as [r st']. cbn [snd devices upd_devices power] in *.
  rewrite Hd. now apply Dict_get_set_neq.
Qed.

Lemma job_queued_loop_spares (queue_info : QueueInfo) (k : string)
    (d : PowerDevice) (keys : list string) :
  on_when_queued d = false ->
  forall w,
    Dict.get k (devices w) = Some d ->
    Dict.get k (devices (snd
      (for_each keys
         (fun nm =>
            turn_on <- gets (fun w => match Dict.get nm (devices w) with
                                      | Some dev => on_when_queued dev
                                      | None => false
                                      end) ;;
            if turn_on then
              wsrv_upd (log_info ("Power Device " ++ nm ++ ": Job '" ++
                                  queued_filename queue_info ++
                                  "' queued, powering on")) ;;
              _ <- with_self nm (process_request driver "on" false) ;;
              ret tt
            else ret tt) w))) = Some d.
Proof.
  intros Hflag. induction keys as [|n r IH]; intros w Hget; [exact Hget|].
  cbn [for_each]. unfold bind at 1. unfold bind at 1. unfold gets at 1.
  cbv beta iota.
  destruct (match Dict.get n (devices w) with
            | Some dev => on_when_queued dev
            | None => false
            end) eqn:Hturn.
  - assert (Hne : k <> n).
    { intros ->. rewrite Hget in Hturn. congruence. }
    unfold bind at 1. unfold wsrv_upd at 1, modify at 1. cbv beta iota.
    set (w1 := upd_server _ w).
    pose proof (with_self_request_other n k "on" false w1 Hne) as Hother.
    unfold bind at 1.
    destruct (with_self n (process_request driver "on" false) w1)
      as [[s|e|] w2]; cbn [snd] in *.
    + unfold ret at 1. apply IH. now rewrite Hother.
    + now rewrite Hother.
    + now rewrite Hother.
  - unfold ret at 1. now apply IH.
Qed.

(** X22: jobs are queued.  A change of the queue that is not
    ["jobs_added"] turns nothing on; a device without
    [on_when_job_queued] is left exactly as it is, whatever happens to the
    others; and when no device has the option, the handler changes
    nothing at all. *)
Theorem job_queued_turns_on_flagged_only (queue_info : QueueInfo) (w : World) :
  (qi_action queue_info <> "jobs_added" ->
     _handle_job_queued driver queue_info w = (Ok tt, w))
  /\
  (forall k d,
     Dict.get k (devices w) = Some d ->
     on_when_queued d = false ->
     Dict.get k (devices (snd (_handle_job_queued driver queue_info w))) = Some d)
  /\
  ((forall k d, In (k, d) (devices w) -> on_when_queued d = false) ->
     _handle_job_queued driver queue_info w = (Ok tt, w)).
Proof.
  unfold _handle_job_queued. split; [|split].
  - intros H. apply String.eqb_neq in H. now rewrite H.
  - intros k d Hget Hflag.
    destruct (negb (String.eqb (qi_action queue_info) "jobs_added")); [exact Hget|].
    step. now apply job_queued_loop_spares.
  - intros Hnone.
    destruct (negb (String.eqb (qi_action queue_info) "jobs_added")); [reflexivity|].
    step.
    assert (Hall : forall n, match Dict.get n (devices w) with
                             | Some dev => on_when_queued dev
                             | None => false
                             end = false).
    { intros n. destruct (Dict.get n (devices w)) as [dev|] eqn:E; [|reflexivity].
      apply Dict_get_In in E. eauto. }
    induction (Dict.keys (devices w)) as [|n r IH]; [reflexivity|].
    cbn [for_each]. unfold bind at 1. unfold bind at 1. unfold gets at 1.
    cbv beta iota. rewrite Hall. exact IH.
Qed.

End JobQueueFacts.

(** * Bound services at startup *)

(** A service a device may be bound to: not Moonraker's own unit, and a
    service the host has. *)
Lemma setup_bound_services_loop (machine_cmp : Machine) (nm : string)
    (svcs : list string) (st : DevSt) :
  let check := fun svc =>
    if String.eqb (machine_unit_name machine_cmp) svc then
      @raise DevSt unit
        (ServerError ("Power Device " ++ nm ++
                      ": Cannot bind to Moonraker service " ++ svc ++ "."))
    else if negb (Str.mem svc (machine_available_services machine_cmp)) then
      raise (ServerError ("Bound Service " ++ svc ++ " is not available"))
    else ret tt in
  (forallb (bindable machine_cmp) svcs = true ->
     for_each svcs check st = (Ok tt, st))
  /\
  (forall pre svc post,
     svcs = pre ++ svc :: post ->
     forallb (bindable machine_cmp) pre = true ->
     bindable machine_cmp svc = false ->
     for_each svcs check st = check svc st).
Proof.
  cbv zeta. split.
  - induction svcs as [|svc r IH]; intros H; [reflexivity|].
    cbn [forallb] in H. apply andb_prop in H. destruct H as [H1 H2].
    unfold bindable in H1. apply andb_prop in H1. destruct H1 as [Ha Hb].
    cbn [for_each]. unfold bind. rewrite (proj1 (negb_true_iff _) Ha), Hb.
    cbn [negb ret]. now apply IH.
  - intros pre. revert svcs. induction pre as [|p pre IH];
      intros svcs svc post -> Hpre Hbad.
    + cbn [app for_each]. unfold bind. unfold bindable in Hbad.
      destruct (String.eqb (machine_unit_name machine_cmp) svc); [reflexivity|].
      cbn [negb andb] in Hbad. rewrite Hbad. reflexivity.
    + cbn [forallb] in Hpre. apply andb_prop in Hpre. destruct Hpre as [H1 H2].
      unfold bindable in H1. apply andb_prop in H1. destruct H1 as [Ha Hb].
      cbn [app for_each]. unfold bind at 1.
      rewrite (proj1 (negb_true_iff _) Ha), Hb. cbn [negb ret].
      now apply (IH _ svc post eq_refl).
Qed.

(** X23: the bound services are checked when a device is initialized.
    When each of them is a service of the host and none is Moonraker's own
    unit, the check passes and the device is as before; otherwise it
    raises for the first service of the list that is not fit, "Cannot bind
    to Moonraker service" for Moonraker's unit and "is not available" for a
    service the host does not have, and the device is as before. *)
Theorem setup_bound_services_checks (machine_cmp : Machine) (st : DevSt) :
  (forallb (bindable machine_cmp) (bound_services (self st)) = true ->
     exists st',
       _setup_bound_services machine_cmp st = (Ok tt, st')
       /\ self st' = self st)
  /\
  (forall pre svc post,
     bound_services (self st) = pre ++ svc :: post ->
     forallb (bindable machine_cmp) pre = true ->
     bindable machine_cmp svc = false ->
     _setup_bound_services machine_cmp st =
     (Raise (ServerError
        (if String.eqb (machine_unit_name machine_cmp) svc
         then "Power Device " ++ name (self st) ++
              ": Cannot bind to Moonraker service " ++ svc ++ "."
         else "Bound Service " ++ svc ++ " is not available")), st)).
Proof.
  unfold _setup_bound_services. split.
  - intros Hok. step.
    destruct (bound_services (self st)) as [|s0 r] eqn:E.
    + exists st. split; reflexivity.
    + step.
      destruct (setup_bound_services_loop machine_cmp (name (self st)) (s0 :: r) st)
        as [Hloop _].
      cbv zeta in Hloop. erewrite bind_ok by (apply Hloop; exact Hok).
      eexists. split; reflexivity.
  - intros pre svc post Hsplit Hpre Hbad. step.
    destruct (bound_services (self st)) as [|s0 r] eqn:E.
    + destruct pre; discriminate.
    + step.
      destruct (setup_bound_services_loop machine_cmp (name (self st)) (s0 :: r) st)
        as [_ Hloop].
      cbv zeta in Hloop.
      erewrite bind_raise; [reflexivity|].
      rewrite (Hloop pre svc post Hsplit Hpre Hbad).
      unfold bindable in Hbad.
      destruct (String.eqb (machine_unit_name machine_cmp) svc); [reflexivity|].
      cbn [negb andb] in Hbad. rewrite Hbad. reflexivity.
Qed.

(** * Initial state *)

Section StartupFacts.

Variable driver : Driver.

(** [set_power] of a GPIO or RF device: it raises when the pin cannot be
    written and returns otherwise; it sends no notification and touches
    no service. *)
Lemma pin_writes_app (a b : list Effect) :
  pin_writes (a ++ b) = pin_writes a ++ pin_writes b.
Proof.
  induction a as [|x r IH]; [reflexivity|].
  destruct x; cbn; rewrite ?IH; reflexivity.
Qed.

Lemma pin_writes_bound_services (st : DevSt) :
  pin_writes (bound_services_effects st) = [].
Proof.
  unfold bound_services_effects.
  destruct (Str.mem (state (self st)) ["on"; "off"]); [|reflexivity].
  induction (bound_services (self st)) as [|svc r IH]; [reflexivity|].
  cbn [flat_map]. rewrite pin_writes_app, IH, app_nil_r.
  unfold service_effects. rewrite pin_writes_app.
  destruct (do_service_action_fails _ _ _); reflexivity.
Qed.

Lemma pin_set_power_run (s : string) (st : DevSt) :
  cls (self st) = GpioDevice \/ cls (self st) = RFDevice ->
  exists st',
    set_power driver s st =
      (if gpio_write_fails (server (power st)) (name (self st))
       then Raise (ServerError ("Error Toggling Device Power: " ++ name (self st)))
       else Ok tt, st')
    /\ state (self st') =
       (if gpio_write_fails (server (power st)) (name (self st))
        then "error" else s)
    /\ events (trace (server (power st'))) = events (trace (server (power st)))
    /\ service_actions (trace (server (power st'))) =
       service_actions (trace (server (power st)))
    /\ bound_services (self st') = bound_services (self st)
    /\ name (self st') = name (self st)
    /\ request_lock (self st') = request_lock (self st)
    /\ do_service_action_fails (server (power st')) =
       do_service_action_fails (server (power st))
    /\ calls (power st') = calls (power st) ++ [CallSetPower (name (self st)) s]
    /\ pin_writes (trace (server (power st'))) =
       pin_writes (trace (server (power st))) ++ [pin_write (self st) s].
Proof.
  intros Hcls. unfold pin_write.
  unfold set_power, gpio_set_power, rf_set_power, cancel_handle, _check_timer,
    bind, self_get, srv_get, srv_upd, self_upd, srv_delay_callback, record_call,
    gets, modify, raise, ret, delay_callback, emit, log_exception, cancel.
  cbn -[String.append String.eqb].
  destruct Hcls as [Hc|Hc]; rewrite Hc; cbn -[String.append String.eqb].
  - destruct (timer_handle (self st)) as [h|]; cbn -[String.append String.eqb];
      destruct (gpio_write_fails (server (power st)) (name (self st)));
      cbn -[String.append String.eqb];
      try (destruct (timer (self st)) as [delay|]; cbn -[String.append String.eqb];
           try destruct (String.eqb s "on"); cbn -[String.append String.eqb]);
      (eexists; split; [reflexivity|]);
      cbn -[String.append String.eqb];
      rewrite ?events_app, ?service_actions_app, ?pin_writes_app;
      cbn -[String.append String.eqb];
      rewrite ?app_nil_r; repeat split.
  - destruct (gpio_write_fails (server (power st)) (name (self st)));
      cbn -[String.append String.eqb];
      try (destruct (timer (self st)) as [delay|]; cbn -[String.append String.eqb];
           try destruct (String.eqb s "on"); cbn -[String.append String.eqb]);
      (eexists; split; [reflexivity|]);
      cbn -[String.append String.eqb];
      rewrite ?events_app, ?service_actions_app, ?pin_writes_app;
      cbn -[String.append String.eqb];
      rewrite ?app_nil_r; repeat split.
Qed.

Lemma services_after (st st2 : DevSt) :
  bound_services (self st2) = bound_services (self st) ->
  name (self st2) = name (self st) ->
  exists st3,
    (svcs <- self_get bound_services ;;
     match svcs with
     | [] => ret tt
     | _ => process_bound_services
     end) st2 = (Ok tt, st3)
    /\ st3 = add_trace (bound_services_effects st2) st2.
Proof.
  intros Hb Hn. step.
  destruct (bound_services (self st2)) as [|x r] eqn:E.
  - eexists. split; [reflexivity|]. unfold bound_services_effects. rewrite E.
    cbn [flat_map]. destruct (Str.mem _ _); now rewrite add_trace_nil.
  - rewrite process_bound_services_run. eexists. split; reflexivity.
Qed.

Lemma service_actions_bound (st : DevSt) :
  service_actions (bound_services_effects st) =
  if Str.mem (state (self st)) ["on"; "off"] then
    map (pair (if String.eqb (state (self st)) "on" then "start" else "stop"))
        (bound_services (self st))
  else [].
Proof.
  unfold bound_services_effects.
  destruct (Str.mem (state (self st)) ["on"; "off"]); [|reflexivity].
  apply service_actions_effects.
Qed.

(** X24: the initialization of a GPIO or RF device never raises and
    never announces anything.  With the lock free it writes the pin, once:
    the level (or the code, for an RF device) of "off" when no
    [initial_state] is configured, of the configured state otherwise.
    The device is left in that state, or in "error" when the pin cannot
    be written; the bound services are started or stopped only when an
    [initial_state] is configured and the write went through; no
    [power:power_changed] is sent; the time is stamped and the lock
    released. *)
Theorem gpio_init_state_writes_pin (initial_state : option bool) (st : DevSt) :
  cls (self st) = GpioDevice \/ cls (self st) = RFDevice ->
  request_lock (self st) = false ->
  let fails := gpio_write_fails (server (power st)) (name (self st)) in
  let target := match initial_state with
                | Some b => state_word b
                | None => "off"
                end in
  exists st',
    gpio_init_state driver initial_state st = (Ok tt, st')
    /\ pin_writes (trace (server (power st'))) =
       pin_writes (trace (server (power st))) ++ [pin_write (self st) target]
    /\ state (self st') = (if fails then "error" else target)
    /\ request_lock (self st') = false
    /\ _last_update_time (self st') = loop_time (server (power st'))
    /\ events (trace (server (power st'))) = events (trace (server (power st)))
    /\ service_actions (trace (server (power st'))) =
       service_actions (trace (server (power st))) ++
       match initial_state with
       | Some b =>
           if fails then []
           else map (pair (if b then "start" else "stop"))
                    (bound_services (self st))
       | None => []
       end.
Proof.
  intros Hcls Hl. cbv zeta.
  unfold gpio_init_state, with_request_lock. rewrite Hl.
  unfold try_finally. step.
  fold (acquired st).
  assert (Hcls' : cls (self (acquired st)) = GpioDevice \/
                  cls (self (acquired st)) = RFDevice) by exact Hcls.
  unfold try_except.
  destruct initial_state as [b|].
  - destruct (pin_set_power_run (state_word b) (acquired st) Hcls')
      as (st2 & Hs & Hst & Hev & Hsa & Hb & Hn & Hlk & Ho & _ & Hw).
    change (gpio_write_fails (server (power (acquired st))) (name (self (acquired st))))
      with (gpio_write_fails (server (power st)) (name (self st))) in *.
    change (pin_write (self (acquired st))) with (pin_write (self st)) in Hw.
    change (trace (server (power (acquired st))))
      with (trace (server (power st))) in Hw.
    unfold bind at 1. rewrite Hs.
    destruct (gpio_write_fails (server (power st)) (name (self st))).
    + eexists. split; [reflexivity|].
      unfold stamp_update_time, srv_upd, modify, log_exception, emit. cbn.
      rewrite events_app, service_actions_app, pin_writes_app, Hev, Hsa, Hst, Hw.
      cbn. rewrite !app_nil_r. repeat split.
    + destruct (services_after (acquired st) st2 Hb Hn) as (st3 & H3 & ->).
      rewrite H3. eexists. split; [reflexivity|].
      unfold stamp_update_time, add_trace. cbn.
      rewrite events_app, service_actions_app, pin_writes_app,
        events_bound_services_effects, service_actions_bound,
        pin_writes_bound_services, Hev, Hsa, Hst, Hb, Hw, !app_nil_r.
      split; [reflexivity|]. split; [reflexivity|]. split; [reflexivity|].
      split; [reflexivity|]. split; [reflexivity|]. f_equal.
      destruct b; reflexivity.
  - destruct (pin_set_power_run "off" (acquired st) Hcls')
      as (st2 & Hs & Hst & Hev & Hsa & Hb & Hn & Hlk & Ho & _ & Hw).
    change (gpio_write_fails (server (power (acquired st))) (name (self (acquired st))))
      with (gpio_write_fails (server (power st)) (name (self st))) in *.
    change (pin_write (self (acquired st))) with (pin_write (self st)) in Hw.
    change (trace (server (power (acquired st))))
      with (trace (server (power st))) in Hw.
    rewrite Hs.
    destruct (gpio_write_fails (server (power st)) (name (self st))).
    + eexists. split; [reflexivity|].
      unfold stamp_update_time, srv_upd, modify, log_exception, emit. cbn.
      rewrite events_app, service_actions_app, pin_writes_app, Hev, Hsa, Hst, Hw.
      cbn. rewrite !app_nil_r. repeat split.
    + eexists. split; [reflexivity|].
      unfold stamp_update_time. cbn. rewrite Hev, Hsa, Hst, Hw, app_nil_r.
      repeat split.
Qed.

(** X25: [_set_initial_state] never raises.  It does nothing when no
    [initial_state] is configured or when the device is not "on" or
    "off".  When the device is in the configured state already, the
    driver is not called and the bound services are brought to that
    state. *)
Theorem set_initial_state_is_safe (initial_state : option bool) (st : DevSt) :
  (exists st', _set_initial_state driver initial_state st = (Ok tt, st'))
  /\
  (initial_state = None \/ Str.mem (state (self st)) ["on"; "off"] = false ->
     _set_initial_state driver initial_state st = (Ok tt, st))
  /\
  (forall b,
     initial_state = Some b ->
     state (self st) = state_word b ->
     _set_initial_state driver initial_state st =
     (Ok tt, add_trace (bound_services_effects st) st)).
Proof.
  unfold _set_initial_state. split; [|split].
  - step. destruct initial_state as [b|]; [|eexists; reflexivity].
    destruct (Str.mem (state (self st)) ["on"; "off"]); [|eexists; reflexivity].
    step. unfold try_except.
    match goal with |- context [match ?m st with _ => _ end] =>
      assert (Hm : steady m) end.
    { apply steady_bind.
      - apply steady_when, steady_bind; [apply steady_srv_upd|intros _].
        apply steady_set_power.
      - intros _. apply steady_bind; [apply steady_self_get|intros svcs].
        destruct svcs; [apply steady_ret|apply steady_process_bound_services]. }
    destruct (Hm st) as [_ Hns].
    match goal with |- context [match ?m st with _ => _ end] =>
      destruct (m st) as [[u|e|] st2] end; cbn [fst] in Hns.
    + destruct u. eexists; reflexivity.
    + eexists; reflexivity.
    + contradiction.
  - intros [->|Hs]; step; [reflexivity|].
    destruct initial_state; [|reflexivity]. now rewrite Hs.
  - intros b -> Hs. step. rewrite Hs.
    assert (Hmem : Str.mem (state_word b) ["on"; "off"] = true)
      by (destruct b; reflexivity).
    rewrite Hmem. step. unfold try_except.
    rewrite String.eqb_refl. cbn [negb when].
    erewrite bind_ok by reflexivity.
    destruct (services_after st st eq_refl eq_refl) as (st3 & H3 & ->).
    rewrite H3. reflexivity.
Qed.

End StartupFacts.

(** * MQTT devices *)

Section MQTTFacts.

Variable state_response : Template.

(** The state an update of the state topic sets: the rendered response in
    lower case when it is "on" or "off", and "error" for any other
    response and for a template that fails. *)
Lemma state_updated_run (last_state : string) (in_request : bool)
    (err : option exn) (response : string) (mq : MQTT) (st : DevSt) :
  exists st',
    state_updated last_state in_request err response mq st =
      (Ok tt, (set_query_response (resolve (query_response mq) err response) mq, st'))
    /\ state (self st') = state (self st)
    /\ _last_update_time (self st') = loop_time (server (power st))
    /\ request_lock (self st') = request_lock (self st)
    /\ timers (server (power st')) = timers (server (power st))
    /\ callbacks (server (power st')) =
       callbacks (server (power st)) ++
       (if negb in_request && negb (String.eqb last_state (state (self st)))
        then [CbNotifyExternalChange (name (self st))] else []).
Proof.
  unfold state_updated. cbv zeta.
  change (state (self (stamp_update_time st))) with (state (self st)).
  destruct (negb in_request && negb (String.eqb last_state (state (self st)))).
  - eexists. split; [reflexivity|]. repeat split.
  - eexists. split; [reflexivity|]. cbn. rewrite app_nil_r. repeat split.
Qed.

(** X26: an update of the state topic of an MQTT device.  A response
    that renders to "discard", in any case, leaves the device alone: only
    the count of responses moves.  Any other update sets the state to the
    response in lower case if that is "on" or "off" and to "error" if it
    is anything else or if the template fails; it stamps the time; and it
    queues the notification of an external change exactly when no request
    holds the lock and the state is not the one before. *)
Theorem mqtt_state_update (text : string) (mq : MQTT) (st : DevSt) :
  let rendered := state_response text (last_request mq) (response_count mq + 1)%Z in
  let counted := set_response_count (response_count mq + 1)%Z mq in
  (forall r, rendered = inr r -> Str.lower r = "discard" ->
     _on_state_update state_response (Some text) mq st = (Ok tt, (counted, st)))
  /\
  ((forall r, rendered = inr r -> Str.lower r <> "discard") ->
   let new_state := match rendered with
                    | inl _ => "error"
                    | inr r => if Str.mem (Str.lower r) ["on"; "off"]
                               then Str.lower r else "error"
                    end in
   exists mq' st',
     _on_state_update state_response (Some text) mq st = (Ok tt, (mq', st'))
     /\ state (self st') = new_state
     /\ _last_update_time (self st') = loop_time (server (power st))
     /\ request_lock (self st') = request_lock (self st)
     /\ timers (server (power st')) = timers (server (power st))
     /\ callbacks (server (power st')) =
        callbacks (server (power st)) ++
        (if negb (request_lock (self st)) &&
            negb (String.eqb (state (self st)) new_state)
         then [CbNotifyExternalChange (name (self st))] else [])).
Proof.
  cbv zeta. unfold _on_state_update. cbv zeta.
  cbn [last_request response_count set_response_count].
  split.
  - intros r Hr Hd. rewrite Hr, Hd. reflexivity.
  - intros Hnd.
    destruct (state_response text (last_request mq) (response_count mq + 1)%Z)
      as [e|r].
    + match goal with |- context [state_updated ?a ?b ?c ?d ?e ?f] =>
        destruct (state_updated_run a b c d e f) as (st' & H & H1 & H2 & H3 & H4 & H5)
      end.
      rewrite H. do 2 eexists. split; [reflexivity|]. auto.
    + specialize (Hnd r eq_refl). apply String.eqb_neq in Hnd. rewrite Hnd.
      destruct (Str.mem (Str.lower r) ["on"; "off"]); cbn [negb].
      * match goal with |- context [state_updated ?a ?b ?c ?d ?e ?f] =>
          destruct (state_updated_run a b c d e f) as (st' & H & H1 & H2 & H3 & H4 & H5)
        end.
        rewrite H. do 2 eexists. split; [reflexivity|]. auto.
      * match goal with |- context [state_updated ?a ?b ?c ?d ?e ?f] =>
          destruct (state_updated_run a b c d e f) as (st' & H & H1 & H2 & H3 & H4 & H5)
        end.
        rewrite H. do 2 eexists. split; [reflexivity|].
        split; [exact H1|]. split; [exact H2|]. split; [exact H3|].
        split; [exact H4|]. exact H5.
Qed.

End MQTTFacts.


Section MQTTFutures.

Variable state_response : Template.

Lemma resolve_done (fut : option Future) (err : option exn) (response : string) :
  fut <> Some FutPending -> resolve fut err response = fut.
Proof.
  destruct fut as [[| |]|]; cbn; intros H; try reflexivity. now destruct H.
Qed.

Lemma state_updated_future (last_state : string) (in_request : bool)
    (err : option exn) (response : string) (mq : MQTT) (st : DevSt) :
  query_response (fst (snd (state_updated last_state in_request err response mq st)))
  = resolve (query_response mq) err response.
Proof. reflexivity. Qed.

(** X27: the future a request waits on is settled once.  A future that
    is absent or already done is left as it is by an update of the state
    topic and by a disconnect.  A pending one is failed by a disconnect
    with "MQTT Disconnected"; an update fails it with the template's error
    or with a server error for a response that is not "on" or "off", gives
    it the response in lower case otherwise, and leaves it pending only
    when the response is "discard" or the payload cannot be decoded. *)
Theorem mqtt_future_settled_once (payload : option string) (mq : MQTT) (st : DevSt) :
  let after_update :=
    query_response (fst (snd (_on_state_update state_response payload mq st))) in
  let after_disconnect :=
    query_response (fst (snd (_on_mqtt_disconnected mq st))) in
  (query_response mq <> Some FutPending ->
     after_update = query_response mq /\ after_disconnect = query_response mq)
  /\
  (query_response mq = Some FutPending ->
     after_disconnect = Some (FutException (ServerError "MQTT Disconnected"))
     /\ match payload with
        | None => after_update = Some FutPending
        | Some text =>
            match state_response text (last_request mq) (response_count mq + 1)%Z with
            | inl e => after_update = Some (FutException e)
            | inr r =>
                if String.eqb (Str.lower r) "discard" then
                  after_update = Some FutPending
                else if Str.mem (Str.lower r) ["on"; "off"] then
                  after_update = Some (FutResult (Str.lower r))
                else exists msg, after_update = Some (FutException (ServerError msg))
            end
        end).
Proof.
  cbv zeta.
  assert (Hdis : query_response (fst (snd (_on_mqtt_disconnected mq st))) =
                 resolve (query_response mq)
                   (Some (ServerError "MQTT Disconnected")) "").
  { unfold _on_mqtt_disconnected. cbv zeta.
    destruct (with_request_lock _ st) as [r st']. reflexivity. }
  rewrite Hdis. unfold _on_state_update. cbv zeta.
  cbn [last_request response_count set_response_count].
  split.
  - intros Hdone. split; [|now apply resolve_done].
    destruct payload as [text|]; [|reflexivity].
    destruct (state_response text (last_request mq) (response_count mq + 1)%Z)
      as [e|r].
    + rewrite state_updated_future. cbn [query_response set_response_count].
      now apply resolve_done.
    + destruct (String.eqb (Str.lower r) "discard"); [reflexivity|].
      destruct (Str.mem (Str.lower r) ["on"; "off"]); cbn [negb];
        rewrite state_updated_future; cbn [query_response set_response_count];
        now apply resolve_done.
  - intros Hpend. rewrite Hpend. split; [reflexivity|].
    destruct payload as [text|]; [|exact Hpend].
    destruct (state_response text (last_request mq) (response_count mq + 1)%Z)
      as [e|r].
    + rewrite state_updated_future. cbn [query_response set_response_count].
      now rewrite Hpend.
    + destruct (String.eqb (Str.lower r) "discard"); [exact Hpend|].
      destruct (Str.mem (Str.lower r) ["on"; "off"]); cbn [negb];
        rewrite state_updated_future; cbn [query_response set_response_count];
        rewrite Hpend; [reflexivity|]. eexists. reflexivity.
Qed.

(** X28: a disconnect of the broker, with the lock of the device free,
    puts the device in the state "error", sends
    one notification that carries this state, and releases the lock,
    whatever the state was before; the settings, the timers and the
    queued callbacks stay as they are. *)
Theorem mqtt_disconnect_marks_error (mq : MQTT) (st : DevSt) :
  request_lock (self st) = false ->
  exists mq',
    _on_mqtt_disconnected mq st =
      (Ok tt,
       (mq',
        add_trace
          [SendEvent "power:power_changed"
             (get_device_info (upd_state "error" (self st)))]
          (upd_self (upd_state "error" (self st)) st))).
Proof.
  intros Hfree. unfold _on_mqtt_disconnected. cbv zeta.
  unfold with_request_lock. rewrite Hfree.
  unfold notify_power_changed, bind, self_upd, self_get, srv_upd, modify, gets.
  cbn -[String.append String.eqb].
  eexists. f_equal. f_equal.
  destruct st as [d w]. destruct d. cbn in Hfree. subst.
  unfold add_trace, upd_self, upd_power, upd_server, emit, upd_trace, upd_state,
    upd_request_lock, get_device_info.
  cbn -[String.append String.eqb]. reflexivity.
Qed.

End MQTTFutures.


(** * Sample runs of the further properties *)

(** ** Requests *)

Lemma request_releases_lock_and_stamps_witness :
  let run := process_request Sample.plug "off" false
               (Sample.on_device Sample.locked_plug Sample.printing) in
  fst run <> Suspended
  /\ request_lock (self (snd run)) = false
  /\ _last_update_time (self (snd run)) = loop_time (server (power (snd run))).
Proof.
  cbv zeta.
  apply (request_releases_lock_and_stamps Sample.plug "off" false
           (Sample.on_device Sample.locked_plug Sample.printing)).
  reflexivity.
Defined.

Lemma request_is_local_witness :
  let a := Sample.dev OtherDevice "a" "on" false in
  let b := Sample.dev GpioDevice "b" "off" false in
  let w := Sample.world [a; b] (Sample.srv READY false (Some true)) in
  let w' := snd (with_self "a" (process_request Sample.plug "off" false) w) in
  (exists d', Dict.get "a" (devices w') = Some d' /\ same_settings a d')
  /\ (forall k, k <> "a" -> Dict.get k (devices w') = Dict.get k (devices w))
  /\ Dict.keys (devices w') = Dict.keys (devices w).
Proof.
  cbv zeta.
  apply (request_is_local Sample.plug "a" "off" false
           (Sample.world [Sample.dev OtherDevice "a" "on" false;
                          Sample.dev GpioDevice "b" "off" false]
              (Sample.srv READY false (Some true)))
           (Sample.dev OtherDevice "a" "on" false)).
  reflexivity.
Defined.

Lemma unsupported_request_refused_witness :
  let st := Sample.on_device Sample.locked_plug Sample.printing in
  process_request Sample.plug "reboot" true st =
    (Raise (ServerError "Unsupported power request: reboot"),
     released (refreshed Sample.plug st))
  /\ calls (power (released (refreshed Sample.plug st))) = [CallRefreshStatus "a"].
Proof.
  cbv zeta.
  apply (unsupported_request_refused Sample.plug "reboot" true
           (Sample.on_device Sample.locked_plug Sample.printing)
           (refreshed Sample.plug
              (Sample.on_device Sample.locked_plug Sample.printing)));
    reflexivity.
Defined.

Lemma transition_reaches_driver_witness :
  let st := Sample.on_device (Sample.dev OtherDevice "a" "on" false)
              (Sample.srv READY true (Some true)) in
  fst (process_request Sample.plug "off" false st) = Ok "off"
  /\ fst (process_request Sample.broken_plug "off" false st) =
     Raise (ServerError "Error Setting Device Status: a to off")
  /\ calls (power (snd (process_request Sample.broken_plug "off" false st))) =
     [CallRefreshStatus "a"; CallSetPower "a" "off"].
Proof.
  cbv zeta.
  destruct (transition_reaches_driver Sample.plug "off" false
              (Sample.on_device (Sample.dev OtherDevice "a" "on" false)
                 (Sample.srv READY true (Some true)))
              (refreshed Sample.plug
                 (Sample.on_device (Sample.dev OtherDevice "a" "on" false)
                    (Sample.srv READY true (Some true)))))
    as [H1 _];
    [reflexivity | reflexivity | right; reflexivity
    | vm_compute; discriminate | reflexivity |].
  destruct (transition_reaches_driver Sample.broken_plug "off" false
              (Sample.on_device (Sample.dev OtherDevice "a" "on" false)
                 (Sample.srv READY true (Some true)))
              (refreshed Sample.broken_plug
                 (Sample.on_device (Sample.dev OtherDevice "a" "on" false)
                    (Sample.srv READY true (Some true)))))
    as [H2 H3];
    [reflexivity | reflexivity | right; reflexivity
    | vm_compute; discriminate | reflexivity |].
  split; [rewrite H1; reflexivity|].
  split; [rewrite H2; reflexivity|exact H3].
Defined.

Lemma status_request_only_refreshes_witness :
  let st := Sample.switched_off true in
  calls (power (snd (process_request Sample.plug "status" false st))) =
    [CallRefreshStatus "a"]
  /\ fst (process_request Sample.plug "status" false st) = Ok "off".
Proof.
  cbv zeta.
  destruct (status_request_only_refreshes Sample.plug false
              (Sample.switched_off true) eq_refl) as [H1 H2].
  split; [exact H1|].
  apply (H2 (refreshed Sample.plug (Sample.switched_off true))).
  reflexivity.
Defined.

Lemma gpio_write_failure_witness :
  exists st',
    process_request Sample.plug "on" false
      (Sample.on_device (Sample.dev GpioDevice "pin" "off" false)
         Sample.stuck_pins) =
    (Raise (ServerError "Error Toggling Device Power: pin"), st')
    /\ state (self st') = "error"
    /\ timer_handle (self st') = None
    /\ request_lock (self st') = false
    /\ events (trace (server (power st'))) = []
    /\ service_actions (trace (server (power st'))) = [].
Proof.
  apply (gpio_write_failure Sample.plug "on" false
           (Sample.on_device (Sample.dev GpioDevice "pin" "off" false)
              Sample.stuck_pins));
    try reflexivity.
  - left. reflexivity.
  - vm_compute. discriminate.
Defined.


(** ** The TP-Link framing *)

Lemma encrypt_decrypt_round_trip_witness :
  exists packet,
    TPLink._encrypt Sample.empty_object = Some packet
    /\ Forall TPLink.is_byte packet
    /\ length packet = 6%nat
    /\ TPLink.unpack_I (firstn 4 packet) = Some 2%Z
    /\ TPLink._decrypt (skipn 4 packet) = Sample.empty_object.
Proof.
  apply (TPLinkFacts.encrypt_decrypt_round_trip Sample.empty_object).
  - repeat constructor; vm_compute; discriminate.
  - reflexivity.
Defined.

Lemma receive_encrypted_witness :
  TPLink.receive "info" [0; 0; 0; 2; 208; 173]%Z [[7; 7]; [7]]%Z =
  Ok Sample.empty_object.
Proof.
  apply (TPLinkFacts.receive_encrypted "info" Sample.empty_object
           [0; 0; 0; 2; 208; 173]%Z [[7; 7]; [7]]%Z).
  - repeat constructor; vm_compute; discriminate.
  - reflexivity.
  - reflexivity.
Defined.

Lemma receive_has_announced_length_witness :
  TPLink.unpack_I (firstn 4 [0; 0; 0; 2; 208]%Z) = Some 2%Z.
Proof.
  apply (TPLinkFacts.receive_has_announced_length "info" [0; 0; 0; 2; 208]%Z
           Sample.empty_object [[173]]%Z).
  reflexivity.
Defined.

Lemma receive_gives_up_witness :
  TPLink.receive "info" Sample.slow_header Sample.slow_stream =
  Raise (ServerError "Error sending tplink command: info").
Proof.
  apply (TPLinkFacts.receive_gives_up "info" Sample.slow_header
           Sample.slow_stream 6%Z).
  - reflexivity.
  - intros k Hk.
    do 5 (destruct k as [|k]; [vm_compute; discriminate|]).
    exfalso. lia.
Defined.

(** ** The bound services *)

Lemma collect_bound_services_witness :
  In "klipper"
    (Services.collect
       (Services.configured ["klipper.service"; "webcamd"] (Some "klipper")))
  /\ NoDup
       (Services.collect
          (Services.configured ["klipper.service"; "webcamd"] (Some "klipper"))).
Proof.
  destruct (ServicesFacts.collect_bound_services
              ["klipper.service"; "webcamd"] (Some "klipper"))
    as (Hnodup & Hin & _ & _).
  split; [|exact Hnodup].
  apply (Hin "klipper.service"). left. reflexivity.
Defined.


(** ** HTTP devices *)

Lemma http_status_failure_witness :
  let st := Sample.on_device (Sample.dev OtherDevice "a" "on" false)
              (Sample.srv READY false None) in
  exists st',
    process_request (HTTPDevice Sample.unreachable false true) "status" false st =
      (Ok "error", st')
    /\ state (self st') = "error"
    /\ request_lock (self st') = false
    /\ trace (server (power st')) =
       [SendEvent "power:power_changed"
          (get_device_info (upd_state "error" (self st)))]
    /\ timers (server (power st')) = []
    /\ callbacks (server (power st')) = [].
Proof.
  cbv zeta.
  apply (http_status_failure Sample.unreachable false true false
           (Sample.on_device (Sample.dev OtherDevice "a" "on" false)
              (Sample.srv READY false None))
           (Exception "timed out") (Sample.srv READY false None));
    reflexivity.
Defined.

Lemma http_power_request_witness :
  let st := Sample.on_device (Sample.dev OtherDevice "a" "on" false)
              (Sample.srv READY false None) in
  exists st',
    process_request (HTTPDevice (Sample.obedient "on") false false) "off" false st =
      (Ok "off", st')
    /\ state (self st') = "off"
    /\ request_lock (self st') = false
    /\ events (trace (server (power st'))) =
       [("power:power_changed",
         get_device_info (upd_state "off" (self st)))].
Proof.
  cbv zeta.
  apply (http_power_request (Sample.obedient "on") false false "off" false
           (Sample.on_device (Sample.dev OtherDevice "a" "on" false)
              (Sample.srv READY false None))
           (refreshed (HTTPDevice (Sample.obedient "on") false false)
              (Sample.on_device (Sample.dev OtherDevice "a" "on" false)
                 (Sample.srv READY false None))));
    try reflexivity.
  - right. reflexivity.
  - vm_compute. discriminate.
Defined.

(** ** Klipper devices *)

Lemma klippy_gone_resets_device_witness :
  (exists st',
     process_klippy_shutdown Sample.klipper_pin = (Ok tt, st')
     /\ is_shutdown (self st') = true
     /\ state (self st') = "error"
     /\ callbacks (server (power st')) = [CbNotifyExternalChange "k"])
  /\
  (exists st',
     _handle_disconnect Sample.klipper_pin = (Ok tt, st')
     /\ is_shutdown (self st') = false
     /\ state (self st') = "init"
     /\ callbacks (server (power st')) = [CbNotifyExternalChange "k"]).
Proof.
  destruct (klippy_gone_resets_device Sample.klipper_pin) as [H1 H2].
  - reflexivity.
  - intros i t Hi. destruct i; discriminate.
  - destruct H1 as (st1 & R1 & S1 & T1 & _ & _ & C1).
    destruct H2 as (st2 & R2 & S2 & T2 & _ & _ & C2).
    split; [exists st1|exists st2]; repeat split; assumption.
Defined.

Lemma klipper_shutdown_refuses_power_witness :
  (exists st',
     process_request Sample.plug "status" false Sample.klipper_pin_shutdown =
       (Ok "error", st')
     /\ trace (server (power st')) = [])
  /\
  (exists st',
     process_request Sample.plug "on" false Sample.klipper_pin_shutdown =
       (Raise (ServerError
          "Power Device k: Cannot set power for device when Klipper is shutdown"),
        st')
     /\ state (self st') = "error"
     /\ trace (server (power st')) = []).
Proof.
  destruct (klipper_shutdown_refuses_power Sample.plug "on" false
              Sample.klipper_pin_shutdown eq_refl eq_refl eq_refl) as [H1 H2].
  split.
  - destruct H1 as (st' & R & _ & T). exists st'. split; assumption.
  - destruct H2 as (st' & R & S & _ & T).
    + left. reflexivity.
    + vm_compute. discriminate.
    + reflexivity.
    + exists st'. repeat split; assumption.
Defined.


(** ** The registry *)

Lemma set_device_power_ignores_case_witness :
  set_device_power "a" (VStr "TRUE") false
    (Sample.world [Sample.locked_plug] Sample.printing) =
  set_device_power "a" (VStr "true") false
    (Sample.world [Sample.locked_plug] Sample.printing).
Proof.
  apply (set_device_power_ignores_case "a" "TRUE" false
           (Sample.world [Sample.locked_plug] Sample.printing)).
  reflexivity.
Defined.

Lemma shutdown_without_delay_witness :
  let d := Sample.with_shutdown_delay 0 (Sample.dev GpioDevice "a" "on" false) in
  let w := Sample.world [d] (Sample.srv SHUTDOWN false None) in
  exists w',
    with_self "a" process_klippy_shutdown w = (Ok tt, w')
    /\ callbacks (server w') = [CbProcessRequest "a" "off" false]
    /\ timers (server w') = [].
Proof.
  cbv zeta.
  destruct (shutdown_without_delay
              (Sample.world
                 [Sample.with_shutdown_delay 0 (Sample.dev GpioDevice "a" "on" false)]
                 (Sample.srv SHUTDOWN false None))
              "a"
              (Sample.with_shutdown_delay 0 (Sample.dev GpioDevice "a" "on" false)))
    as [_ H]; [reflexivity | reflexivity | discriminate |].
  apply H; reflexivity.
Defined.

Lemma firmware_restart_at_most_once_witness :
  exists st',
    _schedule_firmware_restart STARTUP Sample.restart_pending = (Ok tt, st')
    /\ need_scheduled_restart (self st') = false
    /\ timers (server (power st')) =
       [new_timer 1 (CbDoRestart "FIRMWARE_RESTART" true)]
    /\ _schedule_firmware_restart ERROR st' = (Ok tt, st').
Proof.
  destruct (firmware_restart_at_most_once STARTUP ERROR Sample.restart_pending)
    as [_ H].
  apply H. reflexivity.
Defined.

Lemma job_queued_turns_on_flagged_only_witness :
  let w := Sample.world [Sample.locked_plug] Sample.printing in
  _handle_job_queued Sample.plug Sample.job_removed w = (Ok tt, w)
  /\ _handle_job_queued Sample.plug Sample.job_added w = (Ok tt, w).
Proof.
  cbv zeta. split.
  - destruct (job_queued_turns_on_flagged_only Sample.plug Sample.job_removed
                (Sample.world [Sample.locked_plug] Sample.printing))
      as [H _].
    apply H. vm_compute. discriminate.
  - destruct (job_queued_turns_on_flagged_only Sample.plug Sample.job_added
                (Sample.world [Sample.locked_plug] Sample.printing))
      as (_ & _ & H).
    apply H. intros k d [Hin|[]]. inversion Hin. reflexivity.
Defined.

(** ** Startup *)

Lemma setup_bound_services_checks_witness :
  (exists st',
     _setup_bound_services Sample.host (Sample.switched_off true) = (Ok tt, st')
     /\ self st' = self (Sample.switched_off true))
  /\
  (let st := Sample.on_device
               (Sample.with_services ["klipper"; "moonraker"; "octoprint"] true
                  (Sample.dev OtherDevice "a" "on" false))
               Sample.printing in
   _setup_bound_services Sample.host st =
   (Raise (ServerError
      "Power Device a: Cannot bind to Moonraker service moonraker."), st)).
Proof.
  cbv zeta. split.
  - destruct (setup_bound_services_checks Sample.host (Sample.switched_off true))
      as [H _].
    apply H. reflexivity.
  - destruct (setup_bound_services_checks Sample.host
                (Sample.on_device
                   (Sample.with_services ["klipper"; "moonraker"; "octoprint"] true
                      (Sample.dev OtherDevice "a" "on" false))
                   Sample.printing))
      as [_ H].
    apply (H ["klipper"] "moonraker" ["octoprint"]); reflexivity.
Defined.

Lemma gpio_init_state_writes_pin_witness :
  let st := Sample.on_device
              (Sample.with_services ["klipper"] false
                 (Sample.dev GpioDevice "pin" "init" false))
              (Sample.srv READY false None) in
  exists st',
    gpio_init_state Sample.plug (Some true) st = (Ok tt, st')
    /\ pin_writes (trace (server (power st'))) = [GpioWrite "pin" true]
    /\ state (self st') = "on"
    /\ request_lock (self st') = false
    /\ _last_update_time (self st') = loop_time (server (power st'))
    /\ events (trace (server (power st'))) = []
    /\ service_actions (trace (server (power st'))) = [("start", "klipper")].
Proof.
  cbv zeta.
  apply (gpio_init_state_writes_pin Sample.plug (Some true)
           (Sample.on_device
              (Sample.with_services ["klipper"] false
                 (Sample.dev GpioDevice "pin" "init" false))
              (Sample.srv READY false None))).
  - left. reflexivity.
  - reflexivity.
Defined.

Lemma set_initial_state_is_safe_witness :
  _set_initial_state Sample.plug None (Sample.switched_off false) =
    (Ok tt, Sample.switched_off false)
  /\ _set_initial_state Sample.plug (Some false) Sample.initializing =
     (Ok tt, Sample.initializing)
  /\ service_actions
       (trace (server (power (snd
          (_set_initial_state Sample.plug (Some true)
             (Sample.switched_off false)))))) =
     [("start", "klipper"); ("start", "webcamd")].
Proof.
  split; [|split].
  - destruct (set_initial_state_is_safe Sample.plug None
                (Sample.switched_off false)) as (_ & H & _).
    apply H. left. reflexivity.
  - destruct (set_initial_state_is_safe Sample.plug (Some false)
                Sample.initializing) as (_ & H & _).
    apply H. right. reflexivity.
  - destruct (set_initial_state_is_safe Sample.plug (Some true)
                (Sample.switched_off false)) as (_ & _ & H).
    rewrite (H true eq_refl eq_refl). reflexivity.
Defined.


(** ** MQTT devices *)

Lemma mqtt_state_update_witness :
  let st := Sample.on_device (Sample.dev OtherDevice "m" "off" false)
              (Sample.srv READY false None) in
  _on_state_update Sample.payload_template (Some "Discard") Sample.waiting st =
    (Ok tt, (set_response_count 1 Sample.waiting, st))
  /\ exists mq' st',
       _on_state_update Sample.payload_template (Some "ON") Sample.waiting st =
         (Ok tt, (mq', st'))
       /\ state (self st') = "on"
       /\ callbacks (server (power st')) = [CbNotifyExternalChange "m"].
Proof.
  cbv zeta. split.
  - destruct (mqtt_state_update Sample.payload_template "Discard" Sample.waiting
                (Sample.on_device (Sample.dev OtherDevice "m" "off" false)
                   (Sample.srv READY false None))) as [H _].
    apply (H "Discard"); reflexivity.
  - destruct (mqtt_state_update Sample.payload_template "ON" Sample.waiting
                (Sample.on_device (Sample.dev OtherDevice "m" "off" false)
                   (Sample.srv READY false None))) as [_ H].
    destruct H as (mq' & st' & R & S & _ & _ & _ & C).
    + intros r Hr. injection Hr as <-. vm_compute. discriminate.
    + exists mq', st'. split; [exact R|]. split; [exact S|exact C].
Defined.

Lemma mqtt_future_settled_once_witness :
  let st := Sample.on_device (Sample.dev OtherDevice "m" "off" false)
              (Sample.srv READY false None) in
  query_response
    (fst (snd (_on_mqtt_disconnected Sample.waiting st))) =
    Some (FutException (ServerError "MQTT Disconnected"))
  /\ query_response
       (fst (snd (_on_state_update Sample.payload_template (Some "ON")
                    Sample.waiting st))) =
     Some (FutResult "on")
  /\ query_response
       (fst (snd (_on_state_update Sample.payload_template (Some "OFF")
                    (set_query_response (Some (FutResult "on")) Sample.waiting)
                    st))) =
     Some (FutResult "on").
Proof.
  cbv zeta.
  destruct (mqtt_future_settled_once Sample.payload_template (Some "ON")
              Sample.waiting
              (Sample.on_device (Sample.dev OtherDevice "m" "off" false)
                 (Sample.srv READY false None))) as [_ H].
  destruct (H eq_refl) as [H1 H2].
  destruct (mqtt_future_settled_once Sample.payload_template (Some "OFF")
              (set_query_response (Some (FutResult "on")) Sample.waiting)
              (Sample.on_device (Sample.dev OtherDevice "m" "off" false)
                 (Sample.srv READY false None))) as [H3 _].
  destruct H3 as [H3 _]; [discriminate|].
  split; [exact H1|]. split; [exact H2|exact H3].
Defined.

Lemma mqtt_disconnect_marks_error_witness :
  let st := Sample.on_device (Sample.dev OtherDevice "m" "off" false)
              (Sample.srv READY false None) in
  exists mq',
    _on_mqtt_disconnected Sample.waiting st =
      (Ok tt,
       (mq',
        add_trace
          [SendEvent "power:power_changed"
             (get_device_info (upd_state "error" (self st)))]
          (upd_self (upd_state "error" (self st)) st))).
Proof.
  cbv zeta.
  apply (mqtt_disconnect_marks_error Sample.waiting
           (Sample.on_device (Sample.dev OtherDevice "m" "off" false)
              (Sample.srv READY false None))).
  reflexivity.
Defined.


(** * The auto-off timer of GPIO and Klipper devices *)

Lemma holds_auto_off_refl (st : DevSt) : holds_auto_off st st.
Proof. intros _. repeat split. auto. Qed.

Lemma holds_auto_off_trans (a b c : DevSt) :
  holds_auto_off a b -> holds_auto_off b c -> holds_auto_off a c.
Proof.
  unfold holds_auto_off. intros Hab Hbc Hcls.
  destruct (Hab Hcls) as (Hc & Hn & Hi).
  destruct Hbc as (Hc' & Hn' & Hi'); [rewrite Hc; exact Hcls|].
  split; [congruence|]. split; [congruence|auto].
Qed.

(** A timer for another callback does not count. *)
Lemma one_auto_off_delay (d : PowerDevice) (s : Server) (delay : Q)
    (cb : Callback) :
  is_auto_off (name d) cb = false ->
  one_auto_off d s ->
  one_auto_off d (snd (delay_callback delay cb s)).
Proof.
  intros Hcb Hinv i t Hi Ht. cbn in Hi.
  destruct (Nat.lt_ge_cases i (length (timers s))) as [Hlt|Hge].
  - rewrite nth_error_app1 in Hi by assumption. exact (Hinv i t Hi Ht).
  - rewrite nth_error_app2 in Hi by assumption.
    destruct (i - length (timers s))%nat as [|n]; cbn in Hi.
    + injection Hi as <-. unfold is_scheduled in Ht. cbn in Ht. congruence.
    + destruct n; discriminate.
Qed.

Lemma holds_delay_restart (delay : Q) (cmd : string) (b : bool) :
  frames holds_auto_off (srv_delay_callback delay (CbDoRestart cmd b)).
Proof.
  intros st _. split; [reflexivity|]. split; [reflexivity|].
  intros Hinv. apply (one_auto_off_delay (self st) _ delay (CbDoRestart cmd b));
    [reflexivity|exact Hinv].
Qed.

Ltac hold_tac :=
  repeat first
    [ apply (frames_ret _ holds_auto_off_refl)
    | apply (frames_raise _ holds_auto_off_refl)
    | apply (frames_gets _ holds_auto_off_refl)
    | apply (frames_when _ holds_auto_off_refl)
    | apply holds_delay_restart
    | apply (frames_for_each _ holds_auto_off_refl holds_auto_off_trans); intros ?
    | apply (frames_bind _ holds_auto_off_trans); [|intros ?]
    | match goal with
      | |- frames _ (if ?b then _ else _) => destruct b
      | |- frames _ (match ?x with _ => _ end) => destruct x
      end
    | solve [intros ? _; split; [reflexivity|];
             split; [reflexivity|intros H; exact H]] ].

Lemma holds_process_power_changed : frames holds_auto_off process_power_changed.
Proof.
  unfold process_power_changed, notify_power_changed, process_bound_services,
    bound_service_action, _schedule_firmware_restart.
  hold_tac.
Qed.

Lemma holds_notify_or_process : frames holds_auto_off notify_or_process.
Proof.
  unfold notify_or_process.
  apply (frames_bind _ holds_auto_off_trans); [hold_tac|intros r].
  destruct r; [unfold notify_power_changed; hold_tac|].
  apply holds_process_power_changed.
Qed.

Lemma holds_klipper_refresh_status : frames holds_auto_off klipper_refresh_status.
Proof.
  unfold klipper_refresh_status, _set_state_from_data, _set_state. hold_tac.
Qed.

Section AutoOffFacts.

Variable driver : Driver.

Lemma holds_refresh_status : frames holds_auto_off (refresh_status driver).
Proof.
  intros st. unfold refresh_status. step. erewrite bind_ok by reflexivity.
  step.
  match goal with |- context [?m ?x] =>
    match x with upd_power _ st => set (st0 := x) end end.
  change (cls (self st0)) with (cls (self st)).
  assert (H0 : holds_auto_off st st0)
    by (intros _; split; [reflexivity|]; split; [reflexivity|intros H; exact H]).
  destruct (cls (self st)) eqn:E.
  - exact H0.
  - intros [H|H]; congruence.
  - exact (holds_auto_off_trans st st0 _ H0 (holds_klipper_refresh_status st0)).
  - intros [H|H]; congruence.
Qed.

Lemma holds_set_power (s : string) : frames holds_auto_off (set_power driver s).
Proof.
  intros st Hcls.
  destruct (steady_set_power driver s st) as [[Hk _] _].
  unfold same_settings in Hk. destruct Hk as (Hc & Hn & _).
  split; [exact Hc|]. split; [exact Hn|].
  intros Hinv. apply (set_power_one_auto_off driver s st Hcls Hinv).
Qed.

Lemma holds_process_request_refreshed (base req : string) (force : bool) :
  frames holds_auto_off (process_request_refreshed driver base req force).
Proof.
  unfold process_request_refreshed.
  apply (frames_bind _ holds_auto_off_trans); [hold_tac|intros cur].
  destruct (Str.mem _ _).
  - destruct (String.eqb _ cur).
    + apply (frames_bind _ holds_auto_off_trans); [|intros _; hold_tac].
      apply (frames_when _ holds_auto_off_refl), holds_notify_or_process.
    + apply (frames_bind _ holds_auto_off_trans); [hold_tac|intros _].
      apply (frames_bind _ holds_auto_off_trans); [apply holds_set_power|intros _].
      apply (frames_bind _ holds_auto_off_trans); [hold_tac|intros ?].
      apply (frames_bind _ holds_auto_off_trans);
        [apply holds_process_power_changed|intros _].
      hold_tac.
  - destruct (negb _); [hold_tac|].
    apply (frames_bind _ holds_auto_off_trans); [|intros _; hold_tac].
    apply (frames_when _ holds_auto_off_refl), holds_notify_or_process.
Qed.

Lemma holds_lock_flag (b : bool) (st : DevSt) :
  holds_auto_off st (upd_self (upd_request_lock b (self st)) st).
Proof. intros _. split; [reflexivity|]. split; [reflexivity|intros H; exact H]. Qed.

Lemma holds_stamp (st : DevSt) : holds_auto_off st (stamp_update_time st).
Proof. intros _. split; [reflexivity|]. split; [reflexivity|intros H; exact H]. Qed.

Lemma holds_process_request (req : string) (force : bool) :
  frames holds_auto_off (process_request driver req force).
Proof.
  intros st. unfold process_request.
  destruct (String.eqb _ _ && _); [apply holds_auto_off_refl|].
  unfold with_request_lock.
  destruct (request_lock (self st)); [apply holds_auto_off_refl|].
  unfold try_finally.
  set (st0 := upd_self (upd_request_lock true (self st)) st).
  assert (Hbody : holds_auto_off st0
            (snd ((base_state <- self_get state ;;
                   refresh_status driver ;;
                   process_request_refreshed driver base_state req force) st0))).
  { apply (frames_bind _ holds_auto_off_trans); [hold_tac|intros base].
    apply (frames_bind _ holds_auto_off_trans);
      [apply holds_refresh_status|intros _].
    apply holds_process_request_refreshed. }
  pose proof (holds_lock_flag true st) as H0. fold st0 in H0.
  destruct ((base_state <- self_get state ;;
             refresh_status driver ;;
             process_request_refreshed driver base_state req force) st0)
    as [[s|e|] st1]; cbn [fst snd] in *.
  - eapply holds_auto_off_trans; [exact H0|].
    eapply holds_auto_off_trans; [exact Hbody|].
    eapply holds_auto_off_trans; [apply holds_stamp|apply holds_lock_flag].
  - eapply holds_auto_off_trans; [exact H0|].
    eapply holds_auto_off_trans; [exact Hbody|].
    eapply holds_auto_off_trans; [apply holds_stamp|apply holds_lock_flag].
  - eapply holds_auto_off_trans; [exact H0|exact Hbody].
Qed.

Lemma holds_run_requests (reqs : list (string * bool)) (st : DevSt) :
  holds_auto_off st (run_requests driver reqs st).
Proof.
  revert st. induction reqs as [|[req force] r IH]; intros st.
  - apply holds_auto_off_refl.
  - cbn [run_requests fold_left fst snd].
    eapply holds_auto_off_trans; [apply (holds_process_request req force)|].
    apply IH.
Qed.

(** X29: one auto-off timer at most.  For a GPIO or a Klipper device
    whose only auto-off timer that can fire is the one it holds (none at
    all to begin with), any sequence of requests, whatever they ask and
    however they end, leaves at most one auto-off timer that can fire,
    the one the device holds. *)
Theorem requests_keep_one_auto_off (reqs : list (string * bool)) (st : DevSt) :
  cls (self st) = GpioDevice \/ cls (self st) = KlipperDevice ->
  one_auto_off (self st) (server (power st)) ->
  let st' := run_requests driver reqs st in
  one_auto_off (self st') (server (power st'))
  /\ (length (scheduled (is_auto_off (name (self st))) (server (power st'))) <= 1)%nat.
Proof.
  intros Hcls Hinv st'.
  destruct (holds_run_requests reqs st Hcls) as (_ & Hn & Hi).
  fold st' in Hn, Hi. split; [auto|].
  rewrite <- Hn. apply one_auto_off_at_most_one. auto.
Qed.

End AutoOffFacts.

Lemma requests_keep_one_auto_off_witness :
  let st := Sample.on_device
              (Sample.with_timer 5 (Sample.dev GpioDevice "pin" "off" false))
              (Sample.srv READY false None) in
  let st' := run_requests Sample.plug
               [("on", false); ("off", false); ("toggle", true)] st in
  one_auto_off (self st') (server (power st'))
  /\ (length (scheduled (is_auto_off "pin") (server (power st'))) <= 1)%nat.
Proof.
  cbv zeta.
  apply (requests_keep_one_auto_off Sample.plug
           [("on", false); ("off", false); ("toggle", true)]
           (Sample.on_device
              (Sample.with_timer 5 (Sample.dev GpioDevice "pin" "off" false))
              (Sample.srv READY false None))).
  - left. reflexivity.
  - intros i t Hi. destruct i; discriminate.
Defined.


(** * The auto-off timer fires *)

Section AutoOffFires.

Variable driver : Driver.

(** X30: the timer [_check_timer] arms, at the end of its delay.  A timer
    that is still scheduled for [set_device_power(name, "off")] fires
    once: it is marked fired, no device is touched, and the request
    "off" is queued for the device without [force] (so that a device
    locked while printing is not switched off under a print), or nothing
    is queued when no device has that name.  A timer that was cancelled or
    has fired does nothing. *)
Theorem auto_off_timer_requests_off (h : nat) (t : Timer) (nm : string)
    (w : World) :
  nth_error (timers (server w)) h = Some t ->
  tm_callback t = CbSetDevicePower nm (VStr "off") ->
  (tm_status t = Scheduled ->
   exists w',
     fire driver h w = (Ok tt, w')
     /\ devices w' = devices w
     /\ calls w' = calls w
     /\ nth_error (timers (server w')) h = Some (fire_timer t)
     /\ length (timers (server w')) = length (timers (server w))
     /\ callbacks (server w') =
        callbacks (server w) ++
        (if Dict.mem nm (devices w)
         then [CbProcessRequest nm "off" false] else []))
  /\
  (tm_status t <> Scheduled -> fire driver h w = (Ok tt, w)).
Proof.
  intros Hh Hcb. unfold fire, bind, gets. rewrite Hh. split.
  - intros Hs. rewrite Hs, Hcb.
    unfold wsrv_upd, modify. cbn [run_callback].
    unfold set_device_power. cbn [normalize_request].
    change (Str.lower "off") with "off".
    change (Str.mem "off" ["true"; "false"]) with false. cbv iota.
    change (negb (Str.mem "off" ["on"; "off"; "toggle"])) with false. cbv iota.
    unfold bind, gets, wsrv_upd, modify.
    cbn [devices upd_server server].
    destruct (Dict.mem nm (devices w)); cbn [negb];
      (eexists; split; [reflexivity|]);
      cbn; rewrite length_list_update, nth_error_list_update, Nat.eqb_refl, Hh,
        ?app_nil_r;
      repeat split.
  - intros Hs. destruct (tm_status t); [now destruct Hs|reflexivity|reflexivity].
Qed.

End AutoOffFires.

Lemma auto_off_timer_requests_off_witness :
  let w0 := Sample.world
              [Sample.with_timer 5 (Sample.dev GpioDevice "pin" "off" false)]
              (Sample.srv READY false None) in
  let w := snd (with_self "pin" (process_request Sample.plug "on" false) w0) in
  exists w',
    fire Sample.plug 0 w = (Ok tt, w')
    /\ callbacks (server w') = [CbProcessRequest "pin" "off" false]
    /\ fire Sample.plug 0 w' = (Ok tt, w').
Proof.
  cbv zeta.
  destruct (auto_off_timer_requests_off Sample.plug 0
              (new_timer 5 (CbSetDevicePower "pin" (VStr "off"))) "pin"
              (snd (with_self "pin" (process_request Sample.plug "on" false)
                      (Sample.world
                         [Sample.with_timer 5
                            (Sample.dev GpioDevice "pin" "off" false)]
                         (Sample.srv READY false None)))))
    as [H _]; [reflexivity | reflexivity |].
  destruct (H eq_refl) as (w' & R & _ & _ & T & _ & C).
  exists w'. split; [exact R|]. split; [exact C|].
  destruct (auto_off_timer_requests_off Sample.plug 0
              (fire_timer (new_timer 5 (CbSetDevicePower "pin" (VStr "off"))))
              "pin" w' T eq_refl) as [_ H2].
  apply H2. discriminate.
Defined.
